(** * A+ Planner backend: the assignment lifecycle and the payment gate

    A shallow embedding of the assignment controller, the payment
    verification controller, the role middleware and the relevant part of
    the admin controller, over an explicit model of the two database
    tables and of the log of e-mails handed to [sendEmail].  Every
    handler is a function from the world before the request to the world
    after it and the HTTP response. *)

From Stdlib Require Import ZArith QArith String Ascii List Lia.
From stdpp Require Import base option list gmap strings pretty.

Import ListNotations.
Local Open Scope string_scope.

(** ** Values of the host language *)

(** A JavaScript string is falsy exactly when it is absent or empty. *)
Definition truthy (s : option string) : bool :=
  match s with
  | Some EmptyString => false
  | Some _ => true
  | None => false
  end.

(** A field of a JSON request body, for the values the handlers are
    sent: the key is absent, or it holds null or a string. *)
Inductive Field : Type :=
| Missing
| Null
| Text (s : string).

(** A JavaScript number: not a number, an infinity, or a finite binary64
    number, given by its value. *)
Inductive JsNum : Type :=
| NaN
| Inf
| NegInf
| Fin (q : Q).

Definition isNaN (n : JsNum) : bool :=
  match n with NaN => true | _ => false end.

(** [price <= 0]; every comparison with [NaN] is false. *)
Definition le_zero (n : JsNum) : bool :=
  match n with
  | NaN | Inf => false
  | NegInf => true
  | Fin q => Qle_bool q 0
  end.

(** What a [Float] column takes from a number: the value of a finite
    number, and NULL for the others. *)
Definition Float_column (n : JsNum) : option Q :=
  match n with Fin q => Some q | _ => None end.

(** *** Binary64 arithmetic *)

Definition round_half_even (a b : Z) : Z :=
  let k := (a / b)%Z in
  let r := (a mod b)%Z in
  if (2 * r <? b)%Z then k
  else if (b <? 2 * r)%Z then (k + 1)%Z
  else if Z.even k then k else (k + 1)%Z.

(** The [e] with [2 ^ e <= n / d < 2 ^ (e + 1)]. *)
Definition floor_log2 (n d : positive) : Z :=
  let e := (Z.log2 (Zpos n) - Z.log2 (Zpos d))%Z in
  if (if (0 <=? e)%Z then (Zpos d * 2 ^ e <=? Zpos n)%Z
      else (Zpos d <=? Zpos n * 2 ^ (- e))%Z)
  then e else (e - 1)%Z.

(** The binary64 number nearest to [n / d], ties to the even significand:
    53 significant bits, the least exponent of a bit [-1074]; [None] when
    the result is infinite. *)
Definition double_of_positive (n d : positive) : option Q :=
  let e := floor_log2 n d in
  let q := Z.max (e - 52) (-1074) in
  let m := round_half_even (Zpos n * 2 ^ Z.max 0 (- q)) (Zpos d * 2 ^ Z.max 0 q) in
  if (2 ^ 1024 <=? m * 2 ^ Z.max 0 q)%Z then None
  else Some (Qred (Qmake (m * 2 ^ Z.max 0 q) (Z.to_pos (2 ^ Z.max 0 (- q))))).

Definition double_of_Q (x : Q) : JsNum :=
  match Qnum x with
  | Z0 => Fin 0
  | Zpos n =>
      match double_of_positive n (Qden x) with Some v => Fin v | None => Inf end
  | Zneg n =>
      match double_of_positive n (Qden x) with Some v => Fin (- v) | None => NegInf end
  end.

(** [a * b] on two finite numbers. *)
Definition double_mul (a b : Q) : JsNum := double_of_Q (a * b).

Definition dq : string := String (ascii_of_nat 34) EmptyString.
Definition nl : string := String (ascii_of_nat 10) EmptyString.

(** *** Printing numbers *)

Fixpoint strip_zeros (s : string) : string :=
  match s with
  | EmptyString => EmptyString
  | String c rest =>
      match strip_zeros rest with
      | EmptyString => if Ascii.eqb c "0" then EmptyString else String c EmptyString
      | kept => String c kept
      end
  end.

(** The decimal [v] in the form [d.ddde+x]. *)
Definition scientific (v : Z) : string :=
  let digits := pretty v in
  let exponent := pretty (Z.of_nat (String.length digits) - 1)%Z in
  match strip_zeros digits with
  | String c EmptyString => String c EmptyString +:+ "e+" +:+ exponent
  | String c rest => String c EmptyString +:+ "." +:+ rest +:+ "e+" +:+ exponent
  | EmptyString => "0"
  end.

(** Whether the decimal [v] reads back as the binary64 number [z], for
    [z] of at least 22 digits. *)
Definition rounds_to (z v : Z) : bool :=
  let q := (Z.log2 z - 52)%Z in
  let m := (z / 2 ^ q)%Z in
  let above := (2 ^ (q - 1))%Z in
  let below := (if (m =? 2 ^ 52)%Z then 2 ^ (q - 2) else 2 ^ (q - 1))%Z in
  if Z.even m then ((z - below <=? v) && (v <=? z + above))%Z
  else ((z - below <? v) && (v <? z + above))%Z.

(** The decimal of the fewest digits, from [k] digits on, that reads back
    as [z], and of those the nearest to [z]. *)
Fixpoint shortest (z : Z) (n : Z) (k : nat) (fuel : nat) : Z :=
  match fuel with
  | O => z
  | S fuel' =>
      let d := (10 ^ (n - Z.of_nat k))%Z in
      let lo := (z / d * d)%Z in
      let hi := (lo + d)%Z in
      match rounds_to z lo, rounds_to z hi with
      | true, true =>
          if (z - lo <? hi - z)%Z then lo
          else if (hi - z <? z - lo)%Z then hi
          else if Z.even (z / d) then lo else hi
      | true, false => lo
      | false, true => hi
      | false, false => shortest z n (S k) fuel'
      end
  end.

(** [String(z)] for a number of at least [10 ^ 21]. *)
Definition toString_large (z : Z) : string :=
  scientific (shortest z (Z.of_nat (String.length (pretty z))) 1 17).

Definition two_digits (n : Z) : string :=
  if (n <? 10)%Z then "0" +:+ pretty n else pretty n.

(** [x.toFixed(2)] for a finite [x]: from [10 ^ 21] on it is [String(x)];
    below, the integer [n] for which [n / 100 - x] is closest to zero,
    the larger one on a tie, printed with two decimals. *)
Definition toFixed2_nonneg (q : Q) : string :=
  if Qle_bool (10 ^ 21) q then toString_large (Qnum q / Zpos (Qden q))
  else
    let n := ((2 * 100 * Qnum q + Zpos (Qden q)) / (2 * Zpos (Qden q)))%Z in
    pretty (n / 100)%Z +:+ "." +:+ two_digits (n mod 100)%Z.

Definition toFixed2 (q : Q) : string :=
  if (Qnum q <? 0)%Z then "-" +:+ toFixed2_nonneg (Qopp q) else toFixed2_nonneg q.

(** [x.toFixed(2)] for any number. *)
Definition Number_toFixed2 (x : JsNum) : string :=
  match x with
  | NaN => "NaN"
  | Inf => "Infinity"
  | NegInf => "-Infinity"
  | Fin q => toFixed2 q
  end.

(** ** The data model (prisma schema) *)

Inductive Role : Type := ADMIN | TUTOR | STUDENT.

Definition Role_eqb (a b : Role) : bool :=
  match a, b with
  | ADMIN, ADMIN | TUTOR, TUTOR | STUDENT, STUDENT => true
  | _, _ => false
  end.

(** A row of table [User]; the primary key [id] is the key of the table.
    The columns no assignment or payment handler reads (password,
    certificate, university, department, phone numbers, timestamps) are
    left out. *)
Module User.
Record t : Type := mk {
  firstName : string;
  lastName : string;
  email : string;
  role : Role;
  programSpecialty : option string;
  isVerified : bool;
  isApproved : bool
}.
End User.

(** A row of table [Assignment]; the primary key [id] is the key of the
    table.  [status] is a free string column, as in the schema. *)
Module Assignment.
Record t : Type := mk {
  studentId : string;
  title : string;
  description : string;
  programSpecialty : string;
  fileUrl : string;
  status : string;
  submittedAt : Z;
  assignedTutorId : option string;
  tutorCharge : option Q;
  paidAt : option Z;
  isPaid : bool;
  completedFileUrl : option string;
  completedAt : option Z
}.

(** The [data] objects of the [prisma.assignment.update] calls. *)
Definition set_status (s : string) (a : t) : t :=
  mk (studentId a) (title a) (description a) (programSpecialty a) (fileUrl a)
     s (submittedAt a) (assignedTutorId a) (tutorCharge a) (paidAt a)
     (isPaid a) (completedFileUrl a) (completedAt a).

Definition set_assignedTutorId (t0 : option string) (a : t) : t :=
  mk (studentId a) (title a) (description a) (programSpecialty a) (fileUrl a)
     (status a) (submittedAt a) t0 (tutorCharge a) (paidAt a)
     (isPaid a) (completedFileUrl a) (completedAt a).

Definition set_tutorCharge (c : option Q) (a : t) : t :=
  mk (studentId a) (title a) (description a) (programSpecialty a) (fileUrl a)
     (status a) (submittedAt a) (assignedTutorId a) c (paidAt a)
     (isPaid a) (completedFileUrl a) (completedAt a).

Definition set_isPaid (b : bool) (a : t) : t :=
  mk (studentId a) (title a) (description a) (programSpecialty a) (fileUrl a)
     (status a) (submittedAt a) (assignedTutorId a) (tutorCharge a) (paidAt a)
     b (completedFileUrl a) (completedAt a).

Definition set_completedFileUrl (u : option string) (a : t) : t :=
  mk (studentId a) (title a) (description a) (programSpecialty a) (fileUrl a)
     (status a) (submittedAt a) (assignedTutorId a) (tutorCharge a) (paidAt a)
     (isPaid a) u (completedAt a).

Definition set_completedAt (d : option Z) (a : t) : t :=
  mk (studentId a) (title a) (description a) (programSpecialty a) (fileUrl a)
     (status a) (submittedAt a) (assignedTutorId a) (tutorCharge a) (paidAt a)
     (isPaid a) (completedFileUrl a) d.
End Assignment.

(** The decoded token that [authMiddleware] stores in [req.user].  The
    admin token is signed without an [id]; no token carries a
    [programSpecialty], although the handlers' request type allows one. *)
Module ReqUser.
Record t : Type := mk {
  id : option string;
  role : string;
  email : option string;
  programSpecialty : option string
}.
End ReqUser.

Record Email : Type := mkEmail {
  to : string;
  subject : string;
  text : string
}.

(** The world a request runs in: the two tables and the e-mails passed to
    [sendEmail] so far, oldest first. *)
Record World : Type := mkWorld {
  assignments : gmap string Assignment.t;
  users : gmap string User.t;
  outbox : list Email
}.

(** What the handlers take from their surroundings: two environment
    variables, the payment gateway and the token verifier. *)
Record VerificationData : Type := mkVerification {
  v_status : string;
  v_assignmentId : option string
}.

Record Env : Type := mkEnv {
  ADMIN_EMAIL : string;
  BASE_URL : string;
  (** [verifyPayment reference]; [None] when the gateway call throws *)
  verifyPayment : string -> option VerificationData;
  (** [jwt.verify token secret]; [None] when it throws *)
  jwt_verify : string -> option ReqUser.t
}.

(** ** Responses *)

(** An assignment as serialised in a response, with the relations the
    query [include]s ([None] for a relation not loaded or null). *)
Record AssignmentJson : Type := mkJson {
  j_id : string;
  j_fields : Assignment.t;
  j_Student : option User.t;
  j_Tutor : option User.t
}.

Inductive Body : Type :=
| Message (message : string)
| MessageError (message : string)
| MessageAssignment (message : string) (assignment : AssignmentJson)
| OneAssignment (assignment : AssignmentJson)
| ManyAssignments (assignments : list AssignmentJson).

Inductive Response : Type :=
| Json (code : Z) (body : Body)
| Redirect (url : string).

(** The [catch] branch shared by the handlers. *)
Definition went_wrong : Response := Json 500 (MessageError "Something went wrong").

Definition is_success (r : Response) : bool :=
  match r with
  | Json c _ => (c <? 400)%Z
  | Redirect _ => true
  end.

(** ** Collaborators *)

(** [sendEmail] never throws: it logs a failed delivery and returns. *)
Definition sendEmail (e : Email) (w : World) : World :=
  mkWorld (assignments w) (users w) (outbox w ++ [e]).

Definition set_assignments (m : gmap string Assignment.t) (w : World) : World :=
  mkWorld m (users w) (outbox w).

(** [prisma.assignment.update({ where: { id }, data })]: [None] when no
    row has the id (the call throws). *)
Definition update_assignment (id : string) (data : Assignment.t -> Assignment.t)
    (w : World) : option (Assignment.t * World) :=
  match assignments w !! id with
  | Some a => Some (data a, set_assignments (<[id := data a]> (assignments w)) w)
  | None => None
  end.

(** The rows of a one-row result that satisfy the rest of a [where]. *)
Definition where_also {A : Type} (p : A -> bool) (row : option A) : option A :=
  match row with
  | Some a => if p a then Some a else None
  | None => None
  end.

Definition is_tutor (tutorId : string) (assignedTutorId : option string) : bool :=
  match assignedTutorId with
  | Some t => String.eqb t tutorId
  | None => false
  end.

(** A [where] condition on an optional value: [undefined] does not filter. *)
Definition where_eq (filter : option string) (value : string) : bool :=
  match filter with
  | Some f => String.eqb f value
  | None => true
  end.

Definition with_Student (w : World) (id : string) (a : Assignment.t) : AssignmentJson :=
  mkJson id a (users w !! Assignment.studentId a) None.

Definition with_Student_Tutor (w : World) (id : string) (a : Assignment.t) : AssignmentJson :=
  mkJson id a (users w !! Assignment.studentId a)
         (Assignment.assignedTutorId a ≫= λ t, users w !! t).

(** ** Middleware *)

Definition authMiddleware (env : Env) (token : option string)
    (next : ReqUser.t -> World * Response) (w : World) : World * Response :=
  if truthy token then
    match token ≫= jwt_verify env with
    | None => (w, Json 403 (Message "Invalid Token"))
    | Some decoded =>
        if truthy (ReqUser.email decoded)
        then next decoded
        else (w, Json 400 (Message "Email is missing from token."))
    end
  else (w, Json 401 (Message "Access Denied. No token provided.")).

Definition includes (roles : list string) (r : string) : bool :=
  existsb (String.eqb r) roles.

Definition roleMiddleware (roles : list string) (user : option ReqUser.t)
    (next : World * Response) (w : World) : World * Response :=
  match user with
  | Some u => if includes roles (ReqUser.role u) then next
              else (w, Json 403 (Message "Access Denied"))
  | None => (w, Json 403 (Message "Access Denied"))
  end.

(** ** The assignment controller *)

Definition submitAssignment (env : Env) (w : World) (user : option ReqUser.t)
    (title description programSpecialty : string)
    (file : option string) (secure_url : option string)
    (uuid : string) (now : Z) : World * Response :=
  match user ≫= ReqUser.id with
  | None | Some EmptyString =>
      (w, Json 401 (Message "Unauthorized: No student ID found."))
  | Some studentId =>
      match file with
      | None => (w, Json 400 (Message "Assignment file is required!"))
      | Some _ =>
          match secure_url with
          | None => (w, went_wrong)
          | Some fileUrl =>
              match assignments w !! uuid, users w !! studentId with
              | None, Some _ =>
                  let assignment :=
                    Assignment.mk studentId title description programSpecialty
                      fileUrl "Pending" now None None None false None None in
                  let w1 := set_assignments (<[uuid := assignment]> (assignments w)) w in
                  let w2 := sendEmail (mkEmail (ADMIN_EMAIL env)
                    "New Assignment Submitted"
                    ("A new assignment has been submitted by a student." +:+ nl +:+ nl
                     +:+ "Title: " +:+ title +:+ nl
                     +:+ "Program Specialty: " +:+ programSpecialty +:+ nl
                     +:+ "Status: Pending")) w1 in
                  (w2, Json 201 (MessageAssignment "Assignment submitted successfully!"
                                   (mkJson uuid assignment None None)))
              | _, _ => (w, went_wrong)
              end
          end
      end
  end.

Definition assignAssignment (w : World) (assignmentId : string) : World * Response :=
  match assignments w !! assignmentId with
  | None => (w, Json 404 (Message "Assignment not found"))
  | Some _ =>
      match update_assignment assignmentId (Assignment.set_status "Assigned") w with
      | None => (w, went_wrong)
      | Some (_, w1) =>
          (w1, Json 200 (Message
             "Assignment is now open for tutors with matching program specialty."))
      end
  end.

Definition open_for (programSpecialty : string) (a : Assignment.t) : bool :=
  String.eqb (Assignment.programSpecialty a) programSpecialty
  && String.eqb (Assignment.status a) "Assigned"
  && match Assignment.assignedTutorId a with None => true | Some _ => false end.

Definition getTutorPendingAssignments (w : World) (user : option ReqUser.t)
    : World * Response :=
  if truthy (user ≫= ReqUser.id) && truthy (user ≫= ReqUser.programSpecialty) then
    match user ≫= ReqUser.programSpecialty with
    | Some programSpecialty =>
        (w, Json 200 (ManyAssignments
           (map (λ kv, with_Student w kv.1 kv.2)
                (filter (λ kv, open_for programSpecialty kv.2 = true)
                        (map_to_list (assignments w))))))
    | None => (w, Json 401 (Message "Unauthorized."))
    end
  else (w, Json 401 (Message "Unauthorized.")).

(** [price] is [Number(req.body.price)]; the column takes it through
    [Float_column], the texts through [toFixed(2)]. *)
Definition reviewAndSetPrice (env : Env) (w : World) (user : option ReqUser.t)
    (assignmentId : string) (price : JsNum) : World * Response :=
  match user ≫= ReqUser.id with
  | None | Some EmptyString => (w, Json 401 (Message "Unauthorized."))
  | Some tutorId =>
      if isNaN price || le_zero price
      then (w, Json 400 (Message "Invalid price. It must be a positive number."))
      else
        match where_also (λ a, is_tutor tutorId (Assignment.assignedTutorId a))
                         (assignments w !! assignmentId) with
        | None =>
            (w, Json 404 (Message "Assignment not found or not assigned to you."))
        | Some assignment =>
            if negb (String.eqb (Assignment.status assignment) "Assigned")
            then (w, Json 400 (Message "Assignment is not in an assignable state."))
            else
              match update_assignment assignmentId
                      (λ a, Assignment.set_tutorCharge (Float_column price)
                              (Assignment.set_status "In Progress" a)) w with
              | None => (w, went_wrong)
              | Some (_, w1) =>
                  match users w !! Assignment.studentId assignment with
                  | None => (w1, went_wrong)
                  | Some Student =>
                      let w2 := sendEmail (mkEmail (User.email Student)
                        "Assignment Accepted and Priced"
                        ("Hello " +:+ User.firstName Student +:+ "," +:+ nl +:+ nl
                         +:+ "The tutor has accepted your assignment titled " +:+ dq
                         +:+ Assignment.title assignment +:+ dq
                         +:+ " and set the price at GHS " +:+ Number_toFixed2 price
                         +:+ "." +:+ nl +:+ nl
                         +:+ "Please proceed with payment to continue." +:+ nl +:+ nl
                         +:+ "Best regards," +:+ nl +:+ "A+ Planner Team")) w1 in
                      let w3 := sendEmail (mkEmail (ADMIN_EMAIL env)
                        "Tutor Accepted and Priced Assignment"
                        ("The assignment titled " +:+ dq
                         +:+ Assignment.title assignment +:+ dq
                         +:+ " has been accepted by the tutor." +:+ nl
                         +:+ "The tutor has set the price at GHS "
                         +:+ Number_toFixed2 price
                         +:+ "." +:+ nl +:+ nl
                         +:+ "Best regards," +:+ nl +:+ "A+ Planner Team")) w2 in
                      (w3, Json 200 (Message
                         ("Assignment accepted and price set to GHS "
                          +:+ Number_toFixed2 price +:+ ".")))
                  end
              end
        end
  end.

Definition getAssignmentById (w : World) (assignmentId : string) : World * Response :=
  match assignments w !! assignmentId with
  | None => (w, Json 404 (Message "Assignment not found"))
  | Some assignment =>
      (w, Json 200 (OneAssignment (with_Student_Tutor w assignmentId assignment)))
  end.

(** [prisma.user.findFirst({ where: { id, role: "TUTOR", isApproved: true } })] *)
Definition approved_tutor (u : User.t) : bool :=
  Role_eqb (User.role u) TUTOR && User.isApproved u.

(** [findFirst({ where: { id: tutorId, role: "TUTOR", isApproved: true } })]
    for a string [tutorId]. *)
Definition find_approved_tutor (w : World) (tutorId : string) : option User.t :=
  where_also approved_tutor (users w !! tutorId).

(** The same query without the filter on [id]: the first approved tutor
    of the table, in the order [map_to_list] lists it. *)
Definition first_approved_tutor (w : World) : option User.t :=
  snd <$> List.find (λ row, approved_tutor row.2) (map_to_list (users w)).

(** The query on the [tutorId] of the body: an absent key is no filter,
    and null is refused for the column [id], which has no NULL: the call
    throws ([None]). *)
Definition findFirst_tutor (w : World) (tutorId : Field) : option (option User.t) :=
  match tutorId with
  | Missing => Some (first_approved_tutor w)
  | Null => None
  | Text id => Some (find_approved_tutor w id)
  end.

(** [data: { assignedTutorId: tutorId, status: "Assigned" }]; an absent
    [tutorId] leaves the column as it is. *)
Definition assign_data (tutorId : Field) (a : Assignment.t) : Assignment.t :=
  Assignment.set_status "Assigned"
    (match tutorId with
     | Missing => a
     | Null => Assignment.set_assignedTutorId None a
     | Text id => Assignment.set_assignedTutorId (Some id) a
     end).

Definition assignAssignmentToTutor (env : Env) (w : World)
    (assignmentId : string) (tutorId : Field) : World * Response :=
  match assignments w !! assignmentId with
  | None => (w, Json 404 (Message "Assignment not found"))
  | Some assignment =>
      match findFirst_tutor w tutorId with
      | None => (w, went_wrong)
      | Some None => (w, Json 404 (Message "Tutor not found or not approved."))
      | Some (Some tutor) =>
          match update_assignment assignmentId (assign_data tutorId) w with
          | None => (w, went_wrong)
          | Some (_, w1) =>
              let w2 := sendEmail (mkEmail (User.email tutor)
                "New Assignment Assigned to You"
                ("Dear " +:+ User.firstName tutor +:+ "," +:+ nl +:+ nl
                 +:+ "A new assignment has been assigned to you. Please log in to your account to review and start working on it."
                 +:+ nl +:+ nl
                 +:+ "Assignment Title: " +:+ Assignment.title assignment +:+ nl +:+ nl
                 +:+ "Thank you for your collaboration." +:+ nl +:+ nl
                 +:+ "Best regards," +:+ nl +:+ "A+ Planner Team")) w1 in
              let w3 := sendEmail (mkEmail (ADMIN_EMAIL env)
                "Assignment Assigned Notification"
                ("An assignment has been successfully assigned to tutor "
                 +:+ User.firstName tutor +:+ " " +:+ User.lastName tutor +:+ "."
                 +:+ nl +:+ nl
                 +:+ "Assignment Title: " +:+ Assignment.title assignment +:+ nl
                 +:+ "Tutor Email: " +:+ User.email tutor +:+ nl +:+ nl
                 +:+ "Thank you for managing the assignment distribution."
                 +:+ nl +:+ nl
                 +:+ "Best regards," +:+ nl +:+ "A+ Planner Team")) w2 in
              (w3, Json 200 (Message
                 ("Assignment assigned to tutor " +:+ User.firstName tutor +:+ " "
                  +:+ User.lastName tutor +:+ ".")))
          end
      end
  end.

(** [data: { status, completedFileUrl: fileUrl, completedAt: new Date() }];
    an absent [fileUrl] leaves the column as it is, null empties it. *)
Definition complete_data (fileUrl : Field) (now : Z) (a : Assignment.t)
    : Assignment.t :=
  Assignment.set_completedAt (Some now)
    (match fileUrl with
     | Missing => λ x, x
     | Null => Assignment.set_completedFileUrl None
     | Text u => Assignment.set_completedFileUrl (Some u)
     end (Assignment.set_status "Completed" a)).

Definition completeAssignment (w : World) (user : option ReqUser.t)
    (assignmentId : string) (fileUrl : Field) (now : Z) : World * Response :=
  match update_assignment assignmentId (complete_data fileUrl now) w with
  | None => (w, went_wrong)
  | Some (assignment, w1) =>
      match where_also (λ s, truthy (Some (User.email s)))
                       (users w !! Assignment.studentId assignment) with
      | None => (w1, Json 404 (Message "Student or assignment not found."))
      | Some Student =>
          let tutorCharge := default 0%Q (Assignment.tutorCharge assignment) in
          let w2 := sendEmail (mkEmail (User.email Student)
            "Your Assignment is Completed"
            ("Your assignment " +:+ dq +:+ Assignment.title assignment +:+ dq
             +:+ " has been completed. To access the solution file, please proceed with the payment of GHS "
             +:+ toFixed2 tutorCharge
             +:+ ". Once payment is confirmed, you will be able to download the solution."))
            w1 in
          (w2, Json 200 (MessageAssignment "Assignment marked as completed."
                           (with_Student w assignmentId assignment)))
      end
  end.

Definition downloadAssignment (w : World) (assignmentId : string) : World * Response :=
  match assignments w !! assignmentId with
  | None => (w, Json 404 (Message "Completed file not found."))
  | Some assignment =>
      match Assignment.completedFileUrl assignment with
      | None | Some EmptyString => (w, Json 404 (Message "Completed file not found."))
      | Some url => (w, Redirect url)
      end
  end.

Definition downloadSolutionFile (w : World) (user : option ReqUser.t)
    (assignmentId : string) : World * Response :=
  let studentId := user ≫= ReqUser.id in
  match where_also (λ a, where_eq studentId (Assignment.studentId a))
                   (assignments w !! assignmentId) with
  | None => (w, Json 404 (Message "Assignment not found."))
  | Some assignment =>
      if negb (Assignment.isPaid assignment)
      then (w, Json 403 (Message
              "Access denied. Payment required to download the solution."))
      else
        match Assignment.completedFileUrl assignment with
        | None | Some EmptyString => (w, Json 404 (Message "Solution file not found."))
        | Some url => (w, Redirect url)
        end
  end.

Definition markAssignmentAsPaid (w : World) (assignmentId : string) : World * Response :=
  match assignments w !! assignmentId with
  | None => (w, Json 404 (Message "Assignment not found."))
  | Some assignment =>
      if Assignment.isPaid assignment
      then (w, Json 400 (Message "Assignment is already marked as paid."))
      else
        match update_assignment assignmentId (Assignment.set_isPaid true) w with
        | None => (w, went_wrong)
        | Some (_, w1) => (w1, Json 200 (Message "Assignment marked as paid successfully."))
        end
  end.

Definition rejectAssignment (w : World) (assignmentId : string) : World * Response :=
  match assignments w !! assignmentId with
  | None => (w, Json 404 (Message "Assignment not found."))
  | Some assignment =>
      if negb (String.eqb (Assignment.status assignment) "Assigned")
      then (w, Json 400 (Message "Assignment is not in an assignable state."))
      else
        match update_assignment assignmentId (Assignment.set_status "Rejected") w with
        | None => (w, went_wrong)
        | Some (_, w1) => (w1, Json 200 (Message "Assignment rejected successfully."))
        end
  end.

(** ** The payment controller *)

(** The e-mail with the download link. *)
Definition availability_mail (env : Env) (id : string) (a : Assignment.t) (s : User.t)
    : Email :=
  mkEmail (User.email s) "Assignment Solution Available"
    ("Your assignment " +:+ dq +:+ Assignment.title a +:+ dq
     +:+ " is now available. Please download your solution from the following link: "
     +:+ BASE_URL env +:+ "/api/assignments/download/" +:+ id).

Definition verifyPaymentForAssignment (env : Env) (w : World)
    (reference : option string) : World * Response :=
  match reference with
  | None | Some EmptyString =>
      (w, Json 400 (Message "Payment reference is required."))
  | Some ref =>
      match verifyPayment env ref with
      | None => (w, went_wrong)
      | Some verificationData =>
          if String.eqb (v_status verificationData) "success" then
            match v_assignmentId verificationData with
            | None | Some EmptyString =>
                (w, Json 400 (Message
                   "Assignment ID missing from payment verification data."))
            | Some assignmentId =>
                match update_assignment assignmentId (Assignment.set_isPaid true) w with
                | None => (w, went_wrong)
                | Some (assignment, w1) =>
                    let Student := users w !! Assignment.studentId assignment in
                    let w2 :=
                      match Student with
                      | Some s =>
                          if truthy (Some (User.email s))
                             && truthy (Assignment.completedFileUrl assignment)
                          then sendEmail
                                 (availability_mail env assignmentId assignment s) w1
                          else w1
                      | None => w1
                      end in
                    (w2, Json 200 (MessageAssignment "Payment verified successfully!"
                                     (with_Student w assignmentId assignment)))
                end
            end
          else (w, Json 400 (Message "Payment verification failed."))
      end
  end.

(** ** The admin controller: deleting a tutor

    The foreign keys of table [Assignment] decide what the deletion does
    to the assignments: [student_id] restricts it, [assigned_tutor_id] is
    set to null. *)

Definition submitted_by (userId : string) (m : gmap string Assignment.t) : bool :=
  existsb (λ kv, String.eqb (Assignment.studentId kv.2) userId) (map_to_list m).

Definition on_delete_set_null (userId : string) (a : Assignment.t) : Assignment.t :=
  if is_tutor userId (Assignment.assignedTutorId a)
  then Assignment.set_assignedTutorId None a
  else a.

Definition deleteTutor (w : World) (tutorId : string) : World * Response :=
  match where_also (λ u, Role_eqb (User.role u) TUTOR) (users w !! tutorId) with
  | None => (w, Json 404 (Message "Tutor not found"))
  | Some tutor =>
      if submitted_by tutorId (assignments w)
      then (w, went_wrong)
      else
        let w1 := mkWorld (on_delete_set_null tutorId <$> assignments w)
                          (delete tutorId (users w)) (outbox w) in
        let w2 := sendEmail (mkEmail (User.email tutor)
          "Tutor Application Rejected"
          "Unfortunately, your tutor application has been rejected. Please contact support for more details.")
          w1 in
        (w2, Json 200 (Message "Tutor application rejected and deleted."))
  end.

(** ** The routes

    Each route runs [authMiddleware], its [roleMiddleware] when it has
    one, and then the handler. *)

Inductive Request : Type :=
| POST_submit (token : option string) (title description programSpecialty : string)
    (file secure_url : option string) (uuid : string) (now : Z)
| PUT_mark_paid (token : option string) (assignmentId : string)
| GET_tutor_pending (token : option string)
| PUT_assign (token : option string) (assignmentId : string) (tutorId : Field)
| PUT_review_and_price (token : option string) (assignmentId : string) (price : JsNum)
| GET_by_id (token : option string) (assignmentId : string)
| PUT_complete (token : option string) (assignmentId : string)
    (fileUrl : Field) (now : Z)
| GET_download (token : option string) (assignmentId : string)
| GET_download_completed (token : option string) (assignmentId : string)
| PUT_reject (token : option string) (assignmentId : string)
| GET_payments_verify (token : option string) (reference : option string)
| DELETE_delete_tutor (token : option string) (tutorId : string).

Definition route (env : Env) (req : Request) (w : World) : World * Response :=
  match req with
  | POST_submit token title description programSpecialty file secure_url uuid now =>
      authMiddleware env token (λ user,
        submitAssignment env w (Some user) title description programSpecialty
          file secure_url uuid now) w
  | PUT_mark_paid token assignmentId =>
      authMiddleware env token (λ user,
        roleMiddleware ["ADMIN"; "STUDENT"] (Some user)
          (markAssignmentAsPaid w assignmentId) w) w
  | GET_tutor_pending token =>
      authMiddleware env token (λ user,
        roleMiddleware ["TUTOR"] (Some user)
          (getTutorPendingAssignments w (Some user)) w) w
  | PUT_assign token assignmentId tutorId =>
      authMiddleware env token (λ user,
        roleMiddleware ["ADMIN"] (Some user)
          (assignAssignmentToTutor env w assignmentId tutorId) w) w
  | PUT_review_and_price token assignmentId price =>
      authMiddleware env token (λ user,
        roleMiddleware ["TUTOR"] (Some user)
          (reviewAndSetPrice env w (Some user) assignmentId price) w) w
  | GET_by_id token assignmentId =>
      authMiddleware env token (λ user, getAssignmentById w assignmentId) w
  | PUT_complete token assignmentId fileUrl now =>
      authMiddleware env token (λ user,
        roleMiddleware ["TUTOR"] (Some user)
          (completeAssignment w (Some user) assignmentId fileUrl now) w) w
  | GET_download token assignmentId =>
      authMiddleware env token (λ user, downloadAssignment w assignmentId) w
  | GET_download_completed token assignmentId =>
      authMiddleware env token (λ user,
        downloadSolutionFile w (Some user) assignmentId) w
  | PUT_reject token assignmentId =>
      authMiddleware env token (λ user,
        roleMiddleware ["TUTOR"] (Some user) (rejectAssignment w assignmentId) w) w
  | GET_payments_verify token reference =>
      authMiddleware env token (λ user,
        verifyPaymentForAssignment env w reference) w
  | DELETE_delete_tutor token tutorId =>
      authMiddleware env token (λ user,
        roleMiddleware ["ADMIN"] (Some user) (deleteTutor w tutorId) w) w
  end.

(** The worlds the server can be in: it starts with no assignment and
    serves one request after the other. *)
Inductive reachable (env : Env) : World -> Prop :=
| reachable_start (us : gmap string User.t) :
    reachable env (mkWorld ∅ us [])
| reachable_request (w : World) (req : Request) :
    reachable env w -> reachable env (route env req w).1.

(** ** The lifecycle transitions

    The five transitions of the lifecycle table, each with the handler
    that carries it out and the status it is meant to start from. *)

Inductive Transition : Type :=
| assign_to_tutor (tutorId : Field)
| review_and_price (user : option ReqUser.t) (price : JsNum)
| reject
| complete (user : option ReqUser.t) (fileUrl : Field) (now : Z)
| mark_paid.

Definition source_state (t : Transition) : string :=
  match t with
  | assign_to_tutor _ => "Pending"
  | review_and_price _ _ => "Assigned"
  | reject => "Assigned"
  | complete _ _ _ => "In Progress"
  | mark_paid => "Completed"
  end.

Definition fire (env : Env) (t : Transition) (assignmentId : string) (w : World)
    : World * Response :=
  match t with
  | assign_to_tutor tutorId => assignAssignmentToTutor env w assignmentId tutorId
  | review_and_price user price => reviewAndSetPrice env w user assignmentId price
  | reject => rejectAssignment w assignmentId
  | complete user fileUrl now => completeAssignment w user assignmentId fileUrl now
  | mark_paid => markAssignmentAsPaid w assignmentId
  end.

(** A transition is guarded by its source state when a request for an
    assignment in any other status fails and leaves the row as it is. *)
Definition source_state_guarded (t : Transition) : Prop :=
  forall (env : Env) (w : World) (id : string) (a : Assignment.t),
    assignments w !! id = Some a ->
    Assignment.status a <> source_state t ->
    is_success (fire env t id w).2 = false
    /\ assignments (fire env t id w).1 !! id = Some a.

(** ** Predicates on rows and worlds *)

(** The statuses under which an assignment is expected to have a tutor. *)
Definition tutor_statuses : list string :=
  ["Assigned"; "In Progress"; "Completed"; "Rejected"].

Definition has_tutor (a : Assignment.t) : Prop :=
  Assignment.assignedTutorId a <> None.

Definition tutor_iff_status (a : Assignment.t) : Prop :=
  has_tutor a <-> In (Assignment.status a) tutor_statuses.

Definition tutor_implies_status (a : Assignment.t) : Prop :=
  has_tutor a -> In (Assignment.status a) tutor_statuses.

Definition every_assignment (P : Assignment.t -> Prop) (w : World) : Prop :=
  forall (id : string) (a : Assignment.t), assignments w !! id = Some a -> P a.

Definition paid_only_completed (a : Assignment.t) : Prop :=
  Assignment.isPaid a = true -> Assignment.status a = "Completed".

(** A request discloses the completed file when it is answered with a
    redirect to the [completedFileUrl] of the assignment it names. *)
Definition discloses (env : Env) (req : Request) (w : World)
    (id : string) (a : Assignment.t) : Prop :=
  assignments w !! id = Some a
  /\ exists url, Assignment.completedFileUrl a = Some url
                 /\ (route env req w).2 = Redirect url.

(** The caller of a request, as [authMiddleware] decodes the token. *)
Definition token_of (req : Request) : option string :=
  match req with
  | POST_submit token _ _ _ _ _ _ _ => token
  | PUT_mark_paid token _ => token
  | GET_tutor_pending token => token
  | PUT_assign token _ _ => token
  | PUT_review_and_price token _ _ => token
  | GET_by_id token _ => token
  | PUT_complete token _ _ _ => token
  | GET_download token _ => token
  | GET_download_completed token _ => token
  | PUT_reject token _ => token
  | GET_payments_verify token _ => token
  | DELETE_delete_tutor token _ => token
  end.

Definition caller (env : Env) (req : Request) : option ReqUser.t :=
  token_of req ≫= jwt_verify env.

(** Disclosure is gated when it happens only for a paid assignment and
    only to the student who owns it. *)
Definition disclosure_gated (env : Env) (req : Request) : Prop :=
  forall (w : World) (id : string) (a : Assignment.t),
    discloses env req w id a ->
    Assignment.isPaid a = true
    /\ caller env req ≫= ReqUser.id = Some (Assignment.studentId a).

(** ** A small deployment

    Two students, two approved tutors, one tutor awaiting approval, and
    one essay followed through its statuses. *)
Module Sample.

Definition ama : User.t :=
  User.mk "Ama" "Mensah" "ama@students.test" STUDENT None true true.
Definition kofi : User.t :=
  User.mk "Kofi" "Boateng" "kofi@students.test" STUDENT None true true.
Definition esi : User.t :=
  User.mk "Esi" "Owusu" "esi@tutors.test" TUTOR (Some "Economics") true true.
Definition yaw : User.t :=
  User.mk "Yaw" "Asante" "yaw@tutors.test" TUTOR (Some "Economics") true true.
Definition abena : User.t :=
  User.mk "Abena" "Darko" "abena@tutors.test" TUTOR (Some "Economics") true false.

Definition people : gmap string User.t :=
  <["s1" := ama]> (<["s2" := kofi]> (<["t1" := esi]> (<["t2" := yaw]>
    (<["t3" := abena]> ∅)))).

(** The tokens the login handlers sign: [{ id, role, email }] for a
    user, [{ role, email }] for the administrator. *)
Definition decode (token : string) : option ReqUser.t :=
  if String.eqb token "token-ama"
  then Some (ReqUser.mk (Some "s1") "STUDENT" (Some "ama@students.test") None)
  else if String.eqb token "token-kofi"
  then Some (ReqUser.mk (Some "s2") "STUDENT" (Some "kofi@students.test") None)
  else if String.eqb token "token-esi"
  then Some (ReqUser.mk (Some "t1") "TUTOR" (Some "esi@tutors.test") None)
  else if String.eqb token "token-yaw"
  then Some (ReqUser.mk (Some "t2") "TUTOR" (Some "yaw@tutors.test") None)
  else if String.eqb token "token-admin"
  then Some (ReqUser.mk None "ADMIN" (Some "admin@aplus.test") None)
  else None.

Definition gateway (reference : string) : option VerificationData :=
  if String.eqb reference "ref-paid"
  then Some (mkVerification "success" (Some "a1"))
  else if String.eqb reference "ref-abandoned"
  then Some (mkVerification "abandoned" (Some "a1"))
  else None.

Definition env : Env :=
  mkEnv "admin@aplus.test" "https://aplus.test" gateway decode.

Definition solution : string := "https://files.test/essay-solved.pdf".

Definition essay (status : string) (tutor : option string) (charge : option Q)
    (paid : bool) (completed : option string) (completedAt : option Z)
    : Assignment.t :=
  Assignment.mk "s1" "Essay" "Inflation in Ghana" "Economics"
    "https://files.test/essay.pdf" status 100 tutor charge None paid
    completed completedAt.

Definition holding (a : Assignment.t) : World :=
  mkWorld (<["a1" := a]> ∅) people [].

Definition essay_pending : Assignment.t := essay "Pending" None None false None None.
Definition essay_assigned : Assignment.t :=
  essay "Assigned" (Some "t1") None false None None.
Definition essay_in_progress : Assignment.t :=
  essay "In Progress" (Some "t1") (Some (50 # 1)) false None None.
Definition essay_rejected : Assignment.t :=
  essay "Rejected" (Some "t1") None false None None.
Definition essay_completed : Assignment.t :=
  essay "Completed" (Some "t1") (Some (50 # 1)) false (Some solution) (Some 200%Z).
Definition essay_paid : Assignment.t :=
  essay "Completed" (Some "t1") (Some (50 # 1)) true (Some solution) (Some 200%Z).

Definition pending : World := holding essay_pending.
Definition assigned : World := holding essay_assigned.
Definition in_progress : World := holding essay_in_progress.
Definition rejected : World := holding essay_rejected.
Definition completed : World := holding essay_completed.
Definition paid : World := holding essay_paid.

(** Decoded tokens of Ama, Kofi, Esi and Yaw. *)
Definition as_ama : option ReqUser.t := decode "token-ama".
Definition as_kofi : option ReqUser.t := decode "token-kofi".
Definition as_esi : option ReqUser.t := decode "token-esi".
Definition as_yaw : option ReqUser.t := decode "token-yaw".

End Sample.

(** ** The listing handlers of the assignment controller *)


(** [prisma.assignment.findMany({ where })]: the rows that satisfy the
    condition, in the order the table gives them. *)
Definition findMany (p : Assignment.t -> bool) (w : World)
    : list (string * Assignment.t) :=
  List.filter (λ kv, p kv.2) (map_to_list (assignments w)).

Definition getPendingAssignments (w : World) : World * Response :=
  (w, Json 200 (ManyAssignments
     (map (λ kv, with_Student w kv.1 kv.2)
          (findMany (λ a, String.eqb (Assignment.status a) "Pending") w)))).

(** [status ? { status: status.toString() } : {}] *)
Definition status_filter (status : option string) (a : Assignment.t) : bool :=
  if truthy status then where_eq status (Assignment.status a) else true.

Definition getAllAssignments (w : World) (status : option string) : World * Response :=
  (w, Json 200 (ManyAssignments
     (map (λ kv, with_Student_Tutor w kv.1 kv.2)
          (findMany (status_filter status) w)))).




(** ** The admin controller: approving a tutor *)

Definition set_isApproved (b : bool) (u : User.t) : User.t :=
  User.mk (User.firstName u) (User.lastName u) (User.email u) (User.role u)
          (User.programSpecialty u) (User.isVerified u) b.

Definition approveTutor (w : World) (tutorId : string) : World * Response :=
  match where_also (λ u, Role_eqb (User.role u) TUTOR) (users w !! tutorId) with
  | None => (w, Json 404 (Message "Tutor not found"))
  | Some tutor =>
      if User.isApproved tutor
      then (w, Json 400 (Message "Tutor is already approved"))
      else
        let w1 := mkWorld (assignments w)
                    (<[tutorId := set_isApproved true tutor]> (users w)) (outbox w) in
        let w2 := sendEmail (mkEmail (User.email tutor)
          "Your Tutor Account is Approved!"
          "Congratulations! Your tutor account has been approved. You can now log in and start receiving assignments.")
          w1 in
        (w2, Json 200 (Message "Tutor approved successfully!"))
  end.

(** ** Initialising a payment *)

(** The body [initializePayment] posts to the gateway. *)
Record Transaction : Type := mkTransaction {
  tx_email : string;
  tx_amount : JsNum;
  tx_currency : string;
  tx_assignmentId : string
}.

Inductive PaymentResponse : Type :=
| PaymentJson (code : Z) (message : string)
| PaymentInitialized (message : string) (authorization_url : string).

(** [initializePayment(email, amount, assignmentId)] of the gateway
    service; [post] is the gateway, [None] when the call throws. The
    amount posted is the binary64 product [amount * 100]. *)
Definition initializePayment (post : Transaction -> option string)
    (email : string) (amount : Q) (assignmentId : string) : option string :=
  post (mkTransaction email (double_mul amount 100) "GHS" assignmentId).

(** [!assignment.tutorCharge]: a charge that is absent or zero. *)
Definition no_charge (c : option Q) : bool :=
  match c with
  | Some q => Qeq_bool q 0
  | None => true
  end.

Definition initializePaymentForAssignment (post : Transaction -> option string)
    (w : World) (user : option ReqUser.t) (assignmentId : string)
    : World * PaymentResponse :=
  match user ≫= ReqUser.email with
  | None | Some EmptyString =>
      (w, PaymentJson 400 "Student email is required to initialize payment.")
  | Some email =>
      match where_also (λ a, where_eq (user ≫= ReqUser.id) (Assignment.studentId a))
                       (assignments w !! assignmentId) with
      | None => (w, PaymentJson 404 "Assignment not found or price not set.")
      | Some assignment =>
          match Assignment.tutorCharge assignment with
          | None => (w, PaymentJson 404 "Assignment not found or price not set.")
          | Some charge =>
              if no_charge (Some charge)
              then (w, PaymentJson 404 "Assignment not found or price not set.")
              else
                match initializePayment post email charge assignmentId with
                | None => (w, PaymentJson 500 "Something went wrong")
                | Some url => (w, PaymentInitialized "Payment initialized successfully." url)
                end
          end
      end
  end.

(** ** The auth controller: administrator login *)

(** The environment variables the auth controller reads when it loads. *)
Record Secrets : Type := mkSecrets {
  env_ADMIN_EMAIL : option string;
  env_ADMIN_PASSWORD : option string;
  env_JWT_SECRET : option string
}.

(** [process.env.X || fallback] *)
Definition or_default (value : option string) (fallback : string) : string :=
  match value with
  | Some (String c s) => String c s
  | _ => fallback
  end.

Definition static_ADMIN_EMAIL (secrets : Secrets) : string :=
  or_default (env_ADMIN_EMAIL secrets) "admin@aplusplanner.com".

Definition static_ADMIN_PASSWORD (secrets : Secrets) : string :=
  or_default (env_ADMIN_PASSWORD secrets) "Admin123!".

Inductive LoginResponse : Type :=
| LoginJson (code : Z) (message : string)
| LoggedIn (message : string) (cookie : string).

(** [value === expected] for a field of the request body. *)
Definition strictly_equal (value : option string) (expected : string) : bool :=
  match value with
  | Some v => String.eqb v expected
  | None => false
  end.

(** [sign secret payload] is [jwt.sign(payload, secret, ...)]. *)
Definition adminLogin (secrets : Secrets) (sign : string -> ReqUser.t -> string)
    (email password : option string) : LoginResponse :=
  match env_JWT_SECRET secrets with
  | None | Some EmptyString =>
      LoginJson 500 "Server Error: JWT secret not configured."
  | Some secret =>
      if strictly_equal email (static_ADMIN_EMAIL secrets)
         && strictly_equal password (static_ADMIN_PASSWORD secrets)
      then LoggedIn "Admin login successful"
             (sign secret (ReqUser.mk None "ADMIN"
                             (Some (static_ADMIN_EMAIL secrets)) None))
      else LoginJson 400 "Invalid admin credentials"
  end.

(** ** The assignment router

    The routes in the order they are registered.  A request goes to the
    first route whose method and path match it; its handler answers, so no
    later route sees the request. *)

Inductive Method : Type := GET | POST | PUT | DELETE.

Definition Method_eqb (a b : Method) : bool :=
  match a, b with
  | GET, GET | POST, POST | PUT, PUT | DELETE, DELETE => true
  | _, _ => false
  end.

Inductive Segment : Type :=
| Lit (s : string)
| Param (name : string).

Inductive Handler : Type :=
| H_submitAssignment
| H_getPendingAssignments
| H_markAssignmentAsPaid
| H_getTutorPendingAssignments
| H_getAllAssignments
| H_assignAssignmentToTutor
| H_reviewAndSetPrice
| H_getAssignmentById
| H_getTutorAssignments
| H_completeAssignment
| H_getStudentAssignments
| H_downloadAssignment
| H_downloadSolutionFile
| H_paginatedAssignments
| H_rejectAssignment.

Record Layer : Type := mkLayer {
  l_method : Method;
  l_path : list Segment;
  l_roles : option (list string);
  l_handler : Handler
}.

Definition assignmentRoutes : list Layer :=
  [ mkLayer POST [Lit "submit"] None H_submitAssignment;
    mkLayer GET [Lit "pending"] (Some ["ADMIN"]) H_getPendingAssignments;
    mkLayer PUT [Lit "mark-paid"; Param "assignmentId"] (Some ["ADMIN"; "STUDENT"])
      H_markAssignmentAsPaid;
    mkLayer GET [Lit "tutor-pending"] (Some ["TUTOR"]) H_getTutorPendingAssignments;
    mkLayer GET [] (Some ["ADMIN"]) H_getAllAssignments;
    mkLayer PUT [Lit "assign"; Param "assignmentId"] (Some ["ADMIN"])
      H_assignAssignmentToTutor;
    mkLayer PUT [Lit "review-and-price"; Param "assignmentId"] (Some ["TUTOR"])
      H_reviewAndSetPrice;
    mkLayer GET [Param "assignmentId"] None H_getAssignmentById;
    mkLayer GET [Lit "tutor"] (Some ["TUTOR"]) H_getTutorAssignments;
    mkLayer PUT [Lit "complete"; Param "assignmentId"] (Some ["TUTOR"])
      H_completeAssignment;
    mkLayer GET [Lit "student"] (Some ["STUDENT"]) H_getStudentAssignments;
    mkLayer GET [Lit "download"; Param "assignmentId"] None H_downloadAssignment;
    mkLayer GET [Lit "download"; Lit "completed"; Param "assignmentId"] None
      H_downloadSolutionFile;
    mkLayer GET [] (Some ["ADMIN"]) H_paginatedAssignments;
    mkLayer GET [Lit "download"; Lit "completed"; Param "assignmentId"] None
      H_downloadSolutionFile;
    mkLayer PUT [Lit "reject"; Param "assignmentId"] (Some ["TUTOR"]) H_rejectAssignment;
    mkLayer PUT [Lit "mark-paid"; Param "assignmentId"] (Some ["ADMIN"; "STUDENT"])
      H_markAssignmentAsPaid ].

(** Route paths are matched without regard to the case of letters. *)
Definition lower_ascii (c : ascii) : ascii :=
  let n := nat_of_ascii c in
  if (65 <=? n)%nat && (n <=? 90)%nat then ascii_of_nat (n + 32) else c.

Fixpoint lower (s : string) : string :=
  match s with
  | EmptyString => EmptyString
  | String c rest => String (lower_ascii c) (lower rest)
  end.

(** A literal matches the segment that spells it; a parameter matches
    any segment that is not empty. *)
Definition match_segment (pattern : Segment) (segment : string) : bool :=
  match pattern with
  | Lit s => String.eqb (lower s) (lower segment)
  | Param _ => negb (String.eqb segment "")
  end.

Fixpoint match_path (pattern : list Segment) (path : list string) : bool :=
  match pattern, path with
  | [], [] => true
  | p :: pattern', s :: path' => match_segment p s && match_path pattern' path'
  | _, _ => false
  end.

Definition matches (m : Method) (path : list string) (l : Layer) : bool :=
  Method_eqb (l_method l) m && match_path (l_path l) path.

(** The position and the route that serves a request, if any does. *)
Fixpoint first_match (m : Method) (path : list string) (n : nat) (routes : list Layer)
    : option (nat * Layer) :=
  match routes with
  | [] => None
  | l :: rest => if matches m path l then Some (n, l)
                 else first_match m path (S n) rest
  end.

Definition dispatch (m : Method) (path : list string) : option (nat * Layer) :=
  first_match m path 0 assignmentRoutes.

(** ** How rows change *)

(** [evolves a a1]: [a1] is a later state of the row [a].  The columns
    written at submission and [paidAt] are the same, and what has been
    set (payment, charge, completion) is still set. *)
Definition evolves (a a1 : Assignment.t) : Prop :=
  Assignment.studentId a1 = Assignment.studentId a
  /\ Assignment.title a1 = Assignment.title a
  /\ Assignment.description a1 = Assignment.description a
  /\ Assignment.programSpecialty a1 = Assignment.programSpecialty a
  /\ Assignment.fileUrl a1 = Assignment.fileUrl a
  /\ Assignment.submittedAt a1 = Assignment.submittedAt a
  /\ Assignment.paidAt a1 = Assignment.paidAt a
  /\ (Assignment.isPaid a = true -> Assignment.isPaid a1 = true)
  /\ (Assignment.completedAt a <> None -> Assignment.completedAt a1 <> None).

Definition world_evolves (w w1 : World) : Prop :=
  forall id a, assignments w !! id = Some a ->
               exists a1, assignments w1 !! id = Some a1 /\ evolves a a1.

(** The statuses the handlers write. *)
Definition statuses : list string :=
  ["Pending"; "Assigned"; "In Progress"; "Completed"; "Rejected"].

(** What holds of every row the handlers have produced. *)
Record lifecycle_row (a : Assignment.t) : Prop := mkLifecycleRow {
  row_paidAt : Assignment.paidAt a = None;
  row_status : In (Assignment.status a) statuses;
  row_charge : forall q, Assignment.tutorCharge a = Some q -> (0 < q)%Q;
  row_completed : Assignment.status a = "Completed" -> Assignment.completedAt a <> None;
  row_file : Assignment.completedFileUrl a <> None -> Assignment.completedAt a <> None;
  row_pending : Assignment.status a = "Pending" ->
                Assignment.assignedTutorId a = None
                /\ Assignment.tutorCharge a = None
                /\ Assignment.completedFileUrl a = None
                /\ Assignment.completedAt a = None
}.

(** The foreign keys of table [Assignment]: the student, and the tutor
    when there is one, are rows of table [User]. *)
Definition references_hold (w : World) : Prop :=
  forall id a,
    assignments w !! id = Some a ->
    is_Some (users w !! Assignment.studentId a)
    /\ forall t, Assignment.assignedTutorId a = Some t -> is_Some (users w !! t).

(** ** One essay from submission to payment

    The requests of the sample deployment, served one after the other
    from the empty assignment table. *)
Module Story.

Definition start : World := mkWorld ∅ Sample.people [].

Definition submit : Request :=
  POST_submit (Some "token-ama") "Essay" "Inflation in Ghana" "Economics"
    (Some "essay.pdf") (Some "https://files.test/essay.pdf") "a1" 100.
Definition assign : Request := PUT_assign (Some "token-admin") "a1" (Text "t1").
Definition price : Request :=
  PUT_review_and_price (Some "token-esi") "a1" (Fin (50 # 1)).
Definition solve : Request :=
  PUT_complete (Some "token-esi") "a1" (Text Sample.solution) 200.
Definition pay : Request := PUT_mark_paid (Some "token-ama") "a1".

Definition submitted : World := (route Sample.env submit start).1.
Definition routed : World := (route Sample.env assign submitted).1.
Definition priced : World := (route Sample.env price routed).1.
Definition solved : World := (route Sample.env solve priced).1.
Definition settled : World := (route Sample.env pay solved).1.

End Story.

(** * Properties *)

(** ** The store *)

Lemma update_assignment_found (w : World) (id : string)
    (data : Assignment.t -> Assignment.t) (a : Assignment.t) :
  assignments w !! id = Some a ->
  update_assignment id data w
  = Some (data a, set_assignments (<[id := data a]> (assignments w)) w).
Proof. intros Hget. unfold update_assignment. now rewrite Hget. Qed.

Lemma set_isPaid_same (a : Assignment.t) :
  Assignment.isPaid a = true -> Assignment.set_isPaid true a = a.
Proof. destruct a; simpl; intros ->; reflexivity. Qed.

Lemma where_also_Some {A : Type} (p : A -> bool) (row : option A) (a : A) :
  where_also p row = Some a <-> row = Some a /\ p a = true.
Proof.
  destruct row as [x|]; simpl.
  - destruct (p x) eqn:Hp; split.
    + intros [= ->]. tauto.
    + intros [[= ->] _]. reflexivity.
    + discriminate.
    + intros [[= ->] Hpa]. congruence.
  - split; [discriminate | intros [[=] _]].
Qed.

Lemma where_also_None {A : Type} (p : A -> bool) (row : option A) :
  where_also p row = None <-> forall a, row = Some a -> p a = false.
Proof.
  destruct row as [x|]; simpl.
  - destruct (p x) eqn:Hp; split; try discriminate; try reflexivity.
    + intros H. specialize (H x eq_refl). congruence.
    + intros _ a [= <-]. exact Hp.
  - split; [intros _ a [=] | reflexivity].
Qed.

Lemma truthy_Some (s : string) : truthy (Some s) = true <-> s <> "".
Proof. destruct s; simpl; split; congruence. Qed.

(** ** mark-paid *)

Lemma markAssignmentAsPaid_unpaid (w : World) (id : string) (a : Assignment.t) :
  assignments w !! id = Some a ->
  Assignment.isPaid a = false ->
  markAssignmentAsPaid w id
  = (set_assignments (<[id := Assignment.set_isPaid true a]> (assignments w)) w,
     Json 200 (Message "Assignment marked as paid successfully.")).
Proof.
  intros Hget Hpaid. unfold markAssignmentAsPaid.
  rewrite Hget, Hpaid. now rewrite (update_assignment_found _ _ _ _ Hget).
Qed.

Lemma markAssignmentAsPaid_paid (w : World) (id : string) (a : Assignment.t) :
  assignments w !! id = Some a ->
  Assignment.isPaid a = true ->
  markAssignmentAsPaid w id
  = (w, Json 400 (Message "Assignment is already marked as paid.")).
Proof.
  intros Hget Hpaid. unfold markAssignmentAsPaid. now rewrite Hget, Hpaid.
Qed.

Lemma markAssignmentAsPaid_missing (w : World) (id : string) :
  assignments w !! id = None ->
  markAssignmentAsPaid w id = (w, Json 404 (Message "Assignment not found.")).
Proof. intros Hget. unfold markAssignmentAsPaid. now rewrite Hget. Qed.

(** C5. A first mark-paid on an unpaid assignment sets [isPaid]; a call on
    an assignment that is already paid, in particular a second call after a
    successful one, is refused with the already-paid error and leaves the
    whole world, hence the record and its [isPaid = true], as it was. *)
Theorem markAssignmentAsPaid_idempotent (w : World) (id : string) (a : Assignment.t) :
  assignments w !! id = Some a ->
  (Assignment.isPaid a = false ->
     exists w1,
       markAssignmentAsPaid w id
       = (w1, Json 200 (Message "Assignment marked as paid successfully."))
       /\ assignments w1 !! id = Some (Assignment.set_isPaid true a)
       /\ Assignment.isPaid (Assignment.set_isPaid true a) = true
       /\ markAssignmentAsPaid w1 id
          = (w1, Json 400 (Message "Assignment is already marked as paid.")))
  /\ (Assignment.isPaid a = true ->
        markAssignmentAsPaid w id
        = (w, Json 400 (Message "Assignment is already marked as paid."))).
Proof.
  intros Hget. split.
  - intros Hunpaid. eexists. split.
    + apply (markAssignmentAsPaid_unpaid _ _ _ Hget Hunpaid).
    + assert (Hget1 : assignments
          (set_assignments (<[id := Assignment.set_isPaid true a]> (assignments w)) w)
          !! id = Some (Assignment.set_isPaid true a))
        by (simpl; apply lookup_insert_eq).
      repeat split; [exact Hget1 | ].
      apply (markAssignmentAsPaid_paid _ _ _ Hget1). reflexivity.
  - intros Hpaid. apply (markAssignmentAsPaid_paid _ _ _ Hget Hpaid).
Qed.

(** C10. A successful mark-paid writes [isPaid] of the target row and
    nothing else: every other column of the row, [paidAt] included, every
    other row, the user table and the e-mail log are as before. *)
Theorem markAssignmentAsPaid_frame (w w1 : World) (id : string) (r : Response) :
  markAssignmentAsPaid w id = (w1, r) ->
  is_success r = true ->
  exists a a1,
    assignments w !! id = Some a
    /\ assignments w1 !! id = Some a1
    /\ Assignment.isPaid a = false /\ Assignment.isPaid a1 = true
    /\ Assignment.status a1 = Assignment.status a
    /\ Assignment.studentId a1 = Assignment.studentId a
    /\ Assignment.assignedTutorId a1 = Assignment.assignedTutorId a
    /\ Assignment.tutorCharge a1 = Assignment.tutorCharge a
    /\ Assignment.fileUrl a1 = Assignment.fileUrl a
    /\ Assignment.completedFileUrl a1 = Assignment.completedFileUrl a
    /\ Assignment.completedAt a1 = Assignment.completedAt a
    /\ Assignment.submittedAt a1 = Assignment.submittedAt a
    /\ Assignment.paidAt a1 = Assignment.paidAt a
    /\ (Assignment.paidAt a = None -> Assignment.paidAt a1 = None)
    /\ Assignment.title a1 = Assignment.title a
    /\ Assignment.description a1 = Assignment.description a
    /\ Assignment.programSpecialty a1 = Assignment.programSpecialty a
    /\ (forall k, k <> id -> assignments w1 !! k = assignments w !! k)
    /\ users w1 = users w
    /\ outbox w1 = outbox w.
Proof.
  intros Hrun Hok.
  destruct (assignments w !! id) as [a|] eqn:Hget.
  - destruct (Assignment.isPaid a) eqn:Hpaid.
    + rewrite (markAssignmentAsPaid_paid _ _ _ Hget Hpaid) in Hrun.
      injection Hrun as <- <-. discriminate Hok.
    + rewrite (markAssignmentAsPaid_unpaid _ _ _ Hget Hpaid) in Hrun.
      injection Hrun as <- <-.
      exists a, (Assignment.set_isPaid true a). simpl.
      rewrite lookup_insert_eq.
      repeat split; try reflexivity; try assumption; auto.
      intros k Hk. now apply lookup_insert_ne.
  - rewrite (markAssignmentAsPaid_missing _ _ Hget) in Hrun.
    injection Hrun as <- <-. discriminate Hok.
Qed.

Lemma markAssignmentAsPaid_idempotent_witness :
  assignments Sample.completed !! "a1" = Some Sample.essay_completed
  /\ Assignment.isPaid Sample.essay_completed = false
  /\ exists w1,
       markAssignmentAsPaid Sample.completed "a1"
       = (w1, Json 200 (Message "Assignment marked as paid successfully."))
       /\ assignments w1 !! "a1" = Some Sample.essay_paid
       /\ Assignment.isPaid Sample.essay_paid = true
       /\ markAssignmentAsPaid w1 "a1"
          = (w1, Json 400 (Message "Assignment is already marked as paid.")).
Proof.
  assert (Hget : assignments Sample.completed !! "a1" = Some Sample.essay_completed)
    by reflexivity.
  split; [exact Hget | split; [reflexivity | ]].
  destruct (markAssignmentAsPaid_idempotent Sample.completed "a1" _ Hget) as [Hfirst _].
  apply Hfirst. reflexivity.
Defined.

Lemma markAssignmentAsPaid_frame_witness :
  markAssignmentAsPaid Sample.completed "a1"
  = (Sample.paid, Json 200 (Message "Assignment marked as paid successfully."))
  /\ exists a a1,
       assignments Sample.completed !! "a1" = Some a
       /\ assignments Sample.paid !! "a1" = Some a1
       /\ Assignment.isPaid a = false /\ Assignment.isPaid a1 = true
       /\ Assignment.status a1 = Assignment.status a
       /\ Assignment.paidAt a1 = None
       /\ assignments Sample.paid !! "a2" = assignments Sample.completed !! "a2".
Proof.
  assert (Hrun : markAssignmentAsPaid Sample.completed "a1"
                 = (Sample.paid, Json 200 (Message "Assignment marked as paid successfully.")))
    by (vm_compute; reflexivity).
  split; [exact Hrun | ].
  destruct (markAssignmentAsPaid_frame _ _ _ _ Hrun eq_refl)
    as (a & a1 & Ha & Ha1 & Hu & Hp & Hs & _ & _ & _ & _ & _ & _ & _ & _ & Hpa & _ & _ & _ & Hk & _).
  exists a, a1.
  split; [exact Ha | split; [exact Ha1 | split; [exact Hu | split; [exact Hp | ]]]].
  split; [exact Hs | split].
  - apply Hpa. vm_compute in Ha. injection Ha as <-. reflexivity.
  - apply Hk. discriminate.
Defined.

(** ** assign-to-tutor *)

Lemma find_approved_tutor_Some (w : World) (tutorId : string) (u : User.t) :
  find_approved_tutor w tutorId = Some u
  <-> users w !! tutorId = Some u /\ User.role u = TUTOR /\ User.isApproved u = true.
Proof.
  unfold find_approved_tutor, approved_tutor. rewrite where_also_Some, andb_true_iff.
  destruct (User.role u); simpl; intuition congruence.
Qed.

Lemma find_approved_tutor_None (w : World) (tutorId : string) :
  find_approved_tutor w tutorId = None
  <-> (users w !! tutorId = None
       \/ exists u, users w !! tutorId = Some u
                    /\ (User.role u <> TUTOR \/ User.isApproved u = false)).
Proof.
  unfold find_approved_tutor, approved_tutor. rewrite where_also_None. split.
  - intros Hnone. destruct (users w !! tutorId) as [u|]; [right | now left].
    exists u. split; [reflexivity | ].
    specialize (Hnone u eq_refl). apply andb_false_iff in Hnone.
    destruct Hnone as [Hrole | Happ]; [left | now right].
    intros Heq. rewrite Heq in Hrole. discriminate.
  - intros [Hnone | (u & Hu & Hbad)] a Ha.
    + congruence.
    + assert (a = u) as -> by congruence.
      apply andb_false_iff. destruct Hbad as [Hrole | Happ]; [left | now right].
      destruct (User.role u); try reflexivity. now contradict Hrole.
Qed.

(** With a tutor named in the body, a target that is missing, is not a
    tutor or is not approved makes the request fail and changes nothing
    (with the not-found answer for the tutor when the assignment exists);
    a target that is an approved tutor has [assignedTutorId] set to it and
    [status] to Assigned on the assignment the request names. *)
Lemma assignAssignmentToTutor_named (env : Env) (w : World) (id tutorId : string) :
  ((users w !! tutorId = None
    \/ exists u, users w !! tutorId = Some u
                 /\ (User.role u <> TUTOR \/ User.isApproved u = false)) ->
     (assignAssignmentToTutor env w id (Text tutorId)).1 = w
     /\ is_success (assignAssignmentToTutor env w id (Text tutorId)).2 = false
     /\ (is_Some (assignments w !! id) ->
           (assignAssignmentToTutor env w id (Text tutorId)).2
           = Json 404 (Message "Tutor not found or not approved.")))
  /\ (forall (a : Assignment.t) (u : User.t),
        assignments w !! id = Some a ->
        users w !! tutorId = Some u ->
        User.role u = TUTOR ->
        User.isApproved u = true ->
        exists a1,
          assignments (assignAssignmentToTutor env w id (Text tutorId)).1 !! id
          = Some a1
          /\ a1 = Assignment.set_status "Assigned"
                    (Assignment.set_assignedTutorId (Some tutorId) a)
          /\ Assignment.assignedTutorId a1 = Some tutorId
          /\ Assignment.status a1 = "Assigned"
          /\ (assignAssignmentToTutor env w id (Text tutorId)).2
             = Json 200 (Message ("Assignment assigned to tutor "
                 +:+ User.firstName u +:+ " " +:+ User.lastName u +:+ "."))).
Proof.
  split.
  - intros Hbad. apply find_approved_tutor_None in Hbad.
    unfold assignAssignmentToTutor.
    destruct (assignments w !! id) as [a|] eqn:Hget; simpl.
    + rewrite Hbad. simpl. repeat split; reflexivity.
    + repeat split; try reflexivity. intros [x Hx]. discriminate.
  - intros a u Hget Hu Hrole Happ.
    assert (Hfind : find_approved_tutor w tutorId = Some u)
      by (apply find_approved_tutor_Some; auto).
    unfold assignAssignmentToTutor, findFirst_tutor.
    rewrite Hget, Hfind, (update_assignment_found _ _ _ _ Hget). simpl.
    eexists. split; [apply lookup_insert_eq | ].
    repeat split; reflexivity.
Qed.

Lemma assignAssignmentToTutor_named_sample :
  (users Sample.pending !! "t3" = Some Sample.abena
   /\ User.isApproved Sample.abena = false
   /\ assignAssignmentToTutor Sample.env Sample.pending "a1" (Text "t3")
      = (Sample.pending, Json 404 (Message "Tutor not found or not approved.")))
  /\ (users Sample.pending !! "t1" = Some Sample.esi
      /\ exists a1,
           assignments
             (assignAssignmentToTutor Sample.env Sample.pending "a1" (Text "t1")).1
             !! "a1" = Some a1
           /\ Assignment.assignedTutorId a1 = Some "t1"
           /\ Assignment.status a1 = "Assigned").
Proof.
  destruct (assignAssignmentToTutor_named Sample.env Sample.pending "a1" "t3")
    as [Hfail _].
  destruct (assignAssignmentToTutor_named Sample.env Sample.pending "a1" "t1")
    as [_ Hok].
  split.
  - assert (Hu : users Sample.pending !! "t3" = Some Sample.abena) by reflexivity.
    split; [exact Hu | split; [reflexivity | ]].
    destruct Hfail as (Hw & _ & Hr).
    + right. exists Sample.abena. split; [exact Hu | right; reflexivity].
    + specialize (Hr (ex_intro _ _ eq_refl)).
      rewrite (surjective_pairing (assignAssignmentToTutor _ _ _ _)).
      now rewrite Hw, Hr.
  - split; [reflexivity | ].
    destruct (Hok _ Sample.esi eq_refl eq_refl eq_refl eq_refl)
      as (a1 & Ha1 & _ & Ht & Hs & _).
    exists a1. auto.
Defined.

Lemma first_approved_tutor_Some (w : World) (u : User.t) :
  first_approved_tutor w = Some u ->
  exists id, users w !! id = Some u /\ User.role u = TUTOR /\ User.isApproved u = true.
Proof.
  unfold first_approved_tutor.
  destruct (find _ _) as [[id u']|] eqn:Hfind; [ | discriminate].
  intros [= <-]. apply find_some in Hfind as [Hin Hok].
  apply list_elem_of_In, elem_of_map_to_list in Hin.
  unfold approved_tutor in Hok. simpl in *. apply andb_true_iff in Hok as [Hrole Happ].
  exists id. repeat split; try assumption.
  destruct (User.role u'); simpl in Hrole; congruence.
Qed.

Lemma first_approved_tutor_None (w : World) :
  first_approved_tutor w = None ->
  forall id u, users w !! id = Some u -> User.role u = TUTOR -> User.isApproved u = false.
Proof.
  unfold first_approved_tutor.
  destruct (find _ _) as [[id' u']|] eqn:Hfind; [discriminate | ].
  intros _ id u Hu Hrole.
  apply elem_of_map_to_list, list_elem_of_In in Hu.
  pose proof (find_none _ _ Hfind _ Hu) as Hno. unfold approved_tutor in Hno.
  simpl in Hno. rewrite Hrole in Hno. simpl in Hno. exact Hno.
Qed.

(** A body that names no tutor: without an approved tutor in table
    [User] the request fails and changes nothing; with one, whoever it is,
    the request succeeds, [status] becomes Assigned and [assignedTutorId]
    stays what it was; two e-mails are sent, the first to an approved
    tutor. *)
Lemma assignAssignmentToTutor_unnamed (env : Env) (w : World) (id : string)
    (a : Assignment.t) :
  assignments w !! id = Some a ->
  ((forall t u, users w !! t = Some u -> User.role u = TUTOR ->
                User.isApproved u = false) ->
     assignAssignmentToTutor env w id Missing
     = (w, Json 404 (Message "Tutor not found or not approved.")))
  /\ (forall t u, users w !! t = Some u -> User.role u = TUTOR ->
                  User.isApproved u = true ->
        is_success (assignAssignmentToTutor env w id Missing).2 = true
        /\ assignments (assignAssignmentToTutor env w id Missing).1
           = <[id := Assignment.set_status "Assigned" a]> (assignments w)
        /\ exists t' tutor m1 m2,
             users w !! t' = Some tutor
             /\ User.role tutor = TUTOR /\ User.isApproved tutor = true
             /\ to m1 = User.email tutor
             /\ to m2 = ADMIN_EMAIL env
             /\ outbox (assignAssignmentToTutor env w id Missing).1
                = (outbox w ++ [m1; m2])%list).
Proof.
  intros Hget. unfold assignAssignmentToTutor, findFirst_tutor, assign_data.
  rewrite Hget. split.
  - intros Hnone. destruct (first_approved_tutor w) as [u|] eqn:Hfirst; [ | reflexivity].
    apply first_approved_tutor_Some in Hfirst as (t & Hu & Hrole & Happ).
    specialize (Hnone _ _ Hu Hrole). congruence.
  - intros t u Hu Hrole Happ.
    destruct (first_approved_tutor w) as [tutor|] eqn:Hfirst.
    + rewrite (update_assignment_found _ _ _ _ Hget).
      apply first_approved_tutor_Some in Hfirst as (t' & Hu' & Hrole' & Happ').
      split; [reflexivity | split; [reflexivity | ]].
      exists t', tutor.
      eexists (mkEmail (User.email tutor) _ _), (mkEmail (ADMIN_EMAIL env) _ _).
      repeat (split; [assumption || reflexivity | ]).
      unfold sendEmail. cbn [outbox]. rewrite <- app_assoc. reflexivity.
    + pose proof (first_approved_tutor_None _ Hfirst _ _ Hu Hrole). congruence.
Qed.

(** A null [tutorId] makes the request fail and changes nothing. *)
Lemma assignAssignmentToTutor_null (env : Env) (w : World) (id : string) :
  (assignAssignmentToTutor env w id Null).1 = w
  /\ is_success (assignAssignmentToTutor env w id Null).2 = false.
Proof.
  unfold assignAssignmentToTutor. destruct (assignments w !! id); split; reflexivity.
Qed.

(** C8. The administrator's request [PUT /assignments/assign/a1] with a
    body that has no [tutorId], in the sample deployment with the essay
    pending: the target user does not exist, and yet the request succeeds
    and the record changes: its status becomes Assigned, with no tutor on
    it, and an approved tutor is told by e-mail that the assignment is
    theirs. *)
Theorem assign_without_tutorId_succeeds :
  assignments Sample.pending !! "a1" = Some Sample.essay_pending
  /\ is_success
       (route Sample.env (PUT_assign (Some "token-admin") "a1" Missing)
          Sample.pending).2 = true
  /\ assignments
       (route Sample.env (PUT_assign (Some "token-admin") "a1" Missing)
          Sample.pending).1 !! "a1"
     = Some (Assignment.set_status "Assigned" Sample.essay_pending)
  /\ Assignment.set_status "Assigned" Sample.essay_pending <> Sample.essay_pending
  /\ Assignment.assignedTutorId (Assignment.set_status "Assigned" Sample.essay_pending)
     = None
  /\ exists t tutor m1 m2,
       users Sample.pending !! t = Some tutor
       /\ User.role tutor = TUTOR /\ User.isApproved tutor = true
       /\ to m1 = User.email tutor
       /\ subject m1 = "New Assignment Assigned to You"
       /\ outbox
            (route Sample.env (PUT_assign (Some "token-admin") "a1" Missing)
               Sample.pending).1
          = (outbox Sample.pending ++ [m1; m2])%list.
Proof.
  assert (Hroute : route Sample.env (PUT_assign (Some "token-admin") "a1" Missing)
                     Sample.pending
                   = assignAssignmentToTutor Sample.env Sample.pending "a1" Missing)
    by reflexivity.
  rewrite Hroute.
  assert (Hget : assignments Sample.pending !! "a1" = Some Sample.essay_pending)
    by reflexivity.
  destruct (assignAssignmentToTutor_unnamed Sample.env Sample.pending "a1" _ Hget)
    as [_ Hsome].
  destruct (Hsome "t1" Sample.esi eq_refl eq_refl eq_refl)
    as (Hok & Hrows & t & tutor & m1 & m2 & Hu & Hrole & Happ & Hto & _ & Hout).
  split; [exact Hget | split; [exact Hok | split]].
  - rewrite Hrows. apply lookup_insert_eq.
  - split; [discriminate | split; [reflexivity | ]].
    exists t, tutor, m1, m2.
    repeat (split; [assumption | ]).
    split; [ | exact Hout].
    unfold assignAssignmentToTutor, findFirst_tutor in Hout.
    rewrite Hget in Hout.
    destruct (first_approved_tutor Sample.pending) as [found|] eqn:Hfirst.
    + rewrite (update_assignment_found _ _ _ _ Hget) in Hout.
      unfold sendEmail in Hout. cbn [outbox fst] in Hout.
      rewrite <- app_assoc in Hout. apply app_inv_head in Hout.
      injection Hout as <- _. reflexivity.
    + pose proof (first_approved_tutor_None _ Hfirst _ _ Hu Hrole). congruence.
Qed.

(** ** Reading one assignment *)

Lemma authMiddleware_pass (env : Env) (token : string) (u : ReqUser.t)
    (next : ReqUser.t -> World * Response) (w : World) :
  token <> "" ->
  jwt_verify env token = Some u ->
  truthy (ReqUser.email u) = true ->
  authMiddleware env (Some token) next w = next u.
Proof.
  intros Htok Hdec Hmail. unfold authMiddleware.
  apply truthy_Some in Htok. rewrite Htok. simpl. now rewrite Hdec, Hmail.
Qed.

(** C9. Whoever the authenticated caller is, the read endpoint answers
    with the whole row, [completedFileUrl] and [isPaid] included, and the
    student and tutor it refers to; it looks at no ownership, role or
    payment, and fails only for an id that names no assignment. *)
Theorem getAssignmentById_caller_independent (env : Env) (w : World) (id : string)
    (token1 token2 : string) (u1 u2 : ReqUser.t) :
  token1 <> "" -> jwt_verify env token1 = Some u1 -> truthy (ReqUser.email u1) = true ->
  token2 <> "" -> jwt_verify env token2 = Some u2 -> truthy (ReqUser.email u2) = true ->
  route env (GET_by_id (Some token1) id) w = route env (GET_by_id (Some token2) id) w
  /\ route env (GET_by_id (Some token1) id) w
     = (w, match assignments w !! id with
           | Some a =>
               Json 200 (OneAssignment
                 (mkJson id a (users w !! Assignment.studentId a)
                    (Assignment.assignedTutorId a ≫= λ t, users w !! t)))
           | None => Json 404 (Message "Assignment not found")
           end).
Proof.
  intros Ht1 Hd1 Hm1 Ht2 Hd2 Hm2. simpl.
  rewrite (authMiddleware_pass _ _ _ _ _ Ht1 Hd1 Hm1).
  rewrite (authMiddleware_pass _ _ _ _ _ Ht2 Hd2 Hm2).
  split; [reflexivity | ].
  unfold getAssignmentById. destruct (assignments w !! id); reflexivity.
Qed.

Lemma getAssignmentById_caller_independent_witness :
  route Sample.env (GET_by_id (Some "token-kofi") "a1") Sample.completed
  = route Sample.env (GET_by_id (Some "token-yaw") "a1") Sample.completed
  /\ route Sample.env (GET_by_id (Some "token-kofi") "a1") Sample.completed
     = (Sample.completed,
        Json 200 (OneAssignment
          (mkJson "a1" Sample.essay_completed (Some Sample.ama) (Some Sample.esi)))).
Proof.
  assert (Hne1 : "token-kofi" <> "") by discriminate.
  assert (Hne2 : "token-yaw" <> "") by discriminate.
  exact (getAssignmentById_caller_independent Sample.env Sample.completed "a1"
           "token-kofi" "token-yaw" _ _ Hne1 eq_refl eq_refl Hne2 eq_refl eq_refl).
Defined.

(** ** The payment gate on downloads *)

Lemma downloadSolutionFile_found (w : World) (user : option ReqUser.t) (id : string)
    (a : Assignment.t) :
  assignments w !! id = Some a ->
  where_eq (user ≫= ReqUser.id) (Assignment.studentId a) = true ->
  downloadSolutionFile w user id
  = (w, if negb (Assignment.isPaid a)
        then Json 403 (Message
               "Access denied. Payment required to download the solution.")
        else match Assignment.completedFileUrl a with
             | None | Some EmptyString => Json 404 (Message "Solution file not found.")
             | Some url => Redirect url
             end).
Proof.
  intros Hget Hown. unfold downloadSolutionFile. rewrite Hget. simpl. rewrite Hown.
  destruct (Assignment.isPaid a); simpl; [ | reflexivity].
  destruct (Assignment.completedFileUrl a) as [[|c s]|]; reflexivity.
Qed.

Lemma downloadSolutionFile_hidden (w : World) (user : option ReqUser.t) (id : string) :
  (forall a, assignments w !! id = Some a ->
             where_eq (user ≫= ReqUser.id) (Assignment.studentId a) = false) ->
  downloadSolutionFile w user id = (w, Json 404 (Message "Assignment not found.")).
Proof.
  intros Hnone. unfold downloadSolutionFile.
  apply where_also_None in Hnone. now rewrite Hnone.
Qed.

(** C1, as the code has it.  On the payment-gated endpoint a student who
    does not own the assignment is told it is not found; its owner is
    refused while [isPaid] is false and redirected to [completedFileUrl]
    once it is true; and the endpoint redirects only for a paid assignment
    and only when the id in the caller's token, if it carries one, is the
    owner's. *)
Theorem downloadSolutionFile_gate (w : World) (user : option ReqUser.t) (id : string) :
  (forall url,
     (downloadSolutionFile w user id).2 = Redirect url ->
     exists a,
       assignments w !! id = Some a
       /\ Assignment.isPaid a = true
       /\ Assignment.completedFileUrl a = Some url
       /\ forall sid, user ≫= ReqUser.id = Some sid -> sid = Assignment.studentId a)
  /\ (forall a sid,
        assignments w !! id = Some a ->
        user ≫= ReqUser.id = Some sid ->
        (sid <> Assignment.studentId a ->
           downloadSolutionFile w user id
           = (w, Json 404 (Message "Assignment not found.")))
        /\ (sid = Assignment.studentId a ->
            Assignment.isPaid a = false ->
              downloadSolutionFile w user id
              = (w, Json 403 (Message
                   "Access denied. Payment required to download the solution.")))
        /\ (sid = Assignment.studentId a ->
            Assignment.isPaid a = true ->
            forall url,
              Assignment.completedFileUrl a = Some url -> url <> "" ->
              downloadSolutionFile w user id = (w, Redirect url))).
Proof.
  split.
  - intros url Hr.
    destruct (assignments w !! id) as [a|] eqn:Hget.
    + destruct (where_eq (user ≫= ReqUser.id) (Assignment.studentId a)) eqn:Hown.
      * rewrite (downloadSolutionFile_found _ _ _ _ Hget Hown) in Hr. simpl in Hr.
        destruct (Assignment.isPaid a) eqn:Hpaid; simpl in Hr; [ | discriminate].
        exists a. split; [reflexivity | split; [exact Hpaid | ]].
        destruct (Assignment.completedFileUrl a) as [[|c s]|]; try discriminate.
        injection Hr as <-. split; [reflexivity | ].
        intros sid Hsid. rewrite Hsid in Hown. simpl in Hown.
        now apply String.eqb_eq in Hown.
      * rewrite downloadSolutionFile_hidden in Hr; [discriminate | ].
        intros a' Ha'. assert (a' = a) as -> by congruence. exact Hown.
    + rewrite downloadSolutionFile_hidden in Hr; [discriminate | ].
      intros a' Ha'. congruence.
  - intros a sid Hget Hsid. repeat split.
    + intros Hne. apply downloadSolutionFile_hidden.
      intros a' Ha'. assert (a' = a) as -> by congruence.
      rewrite Hsid. simpl. now apply String.eqb_neq.
    + intros -> Hpaid.
      rewrite (downloadSolutionFile_found _ _ _ a Hget).
      * now rewrite Hpaid.
      * rewrite Hsid. simpl. apply String.eqb_refl.
    + intros -> Hpaid url Hurl Hne.
      rewrite (downloadSolutionFile_found _ _ _ a Hget).
      * rewrite Hpaid, Hurl. simpl. destruct url; [congruence | reflexivity].
      * rewrite Hsid. simpl. apply String.eqb_refl.
Qed.

Lemma downloadSolutionFile_gate_witness :
  downloadSolutionFile Sample.completed Sample.as_ama "a1"
  = (Sample.completed,
     Json 403 (Message "Access denied. Payment required to download the solution."))
  /\ downloadSolutionFile Sample.paid Sample.as_ama "a1"
     = (Sample.paid, Redirect Sample.solution)
  /\ downloadSolutionFile Sample.paid Sample.as_kofi "a1"
     = (Sample.paid, Json 404 (Message "Assignment not found."))
  /\ exists a, assignments Sample.paid !! "a1" = Some a
               /\ Assignment.isPaid a = true
               /\ Assignment.completedFileUrl a = Some Sample.solution
               /\ Assignment.studentId a = "s1".
Proof.
  destruct (downloadSolutionFile_gate Sample.completed Sample.as_ama "a1")
    as [_ Hunpaid].
  destruct (downloadSolutionFile_gate Sample.paid Sample.as_ama "a1")
    as [Honly Hpaid].
  destruct (downloadSolutionFile_gate Sample.paid Sample.as_kofi "a1")
    as [_ Hother].
  destruct (Hunpaid _ "s1" eq_refl eq_refl) as (_ & H403 & _).
  destruct (Hpaid _ "s1" eq_refl eq_refl) as (_ & _ & Hgo).
  destruct (Hother _ "s2" eq_refl eq_refl) as (H404 & _ & _).
  assert (Hredirect : downloadSolutionFile Sample.paid Sample.as_ama "a1"
                      = (Sample.paid, Redirect Sample.solution)).
  { apply Hgo; try reflexivity. discriminate. }
  split; [apply H403; reflexivity | ].
  split; [exact Hredirect | ].
  split; [apply H404; discriminate | ].
  destruct (Honly Sample.solution) as (a & Ha & Hp & Hu & Hs).
  - now rewrite Hredirect.
  - exists a. split; [exact Ha | split; [exact Hp | split; [exact Hu | ]]].
    symmetry. apply Hs. reflexivity.
Defined.

(** C1, as stated, fails: the other download endpoint sends any
    authenticated caller to the completed file.  Here a student who does
    not own the essay is redirected to its solution before it is paid. *)
Lemma download_discloses_unpaid_to_stranger :
  route Sample.env (GET_download (Some "token-kofi") "a1") Sample.completed
  = (Sample.completed, Redirect Sample.solution)
  /\ ~ disclosure_gated Sample.env (GET_download (Some "token-kofi") "a1").
Proof.
  assert (Hrun : route Sample.env (GET_download (Some "token-kofi") "a1")
                   Sample.completed
                 = (Sample.completed, Redirect Sample.solution)) by reflexivity.
  split; [exact Hrun | ].
  intros Hgated.
  destruct (Hgated Sample.completed "a1" Sample.essay_completed) as [Hpaid _].
  - split; [reflexivity | ]. exists Sample.solution. split; [reflexivity | ].
    now rewrite Hrun.
  - discriminate Hpaid.
Qed.

(** The administrator's token carries no id, so the ownership filter of
    the gated endpoint does not apply to it. *)
Example downloadSolutionFile_admin :
  downloadSolutionFile Sample.paid (Sample.decode "token-admin") "a1"
  = (Sample.paid, Redirect Sample.solution).
Proof. reflexivity. Qed.

(** ** Who may price, complete and reject *)

(** Pricing looks the assignment up by id and tutor together: a caller
    other than the assigned tutor changes nothing. *)
Lemma reviewAndSetPrice_other_caller (env : Env) (w : World) (user : option ReqUser.t)
    (id : string) (price : JsNum) (a : Assignment.t) :
  assignments w !! id = Some a ->
  Assignment.assignedTutorId a <> user ≫= ReqUser.id ->
  (reviewAndSetPrice env w user id price).1 = w
  /\ is_success (reviewAndSetPrice env w user id price).2 = false.
Proof.
  intros Hget Hother. unfold reviewAndSetPrice.
  destruct (user ≫= ReqUser.id) as [[|c tutorId]|]; try (split; reflexivity).
  destruct (isNaN price || le_zero price); try (split; reflexivity).
  rewrite Hget. simpl.
  destruct (is_tutor (String c tutorId) (Assignment.assignedTutorId a)) eqn:Hmine.
  - exfalso. apply Hother. unfold is_tutor in Hmine.
    destruct (Assignment.assignedTutorId a) as [t|]; [ | discriminate].
    apply String.eqb_eq in Hmine. now subst.
  - split; reflexivity.
Qed.

(** Completion never reads the caller. *)
Lemma completeAssignment_any_caller (w : World) (user1 user2 : option ReqUser.t)
    (id : string) (fileUrl : Field) (now : Z) :
  completeAssignment w user1 id fileUrl now = completeAssignment w user2 id fileUrl now.
Proof. reflexivity. Qed.

Lemma roleMiddleware_pass (roles : list string) (u : ReqUser.t)
    (next : World * Response) (w : World) :
  includes roles (ReqUser.role u) = true ->
  roleMiddleware roles (Some u) next w = next.
Proof. intros Hin. unfold roleMiddleware. now rewrite Hin. Qed.

Lemma roleMiddleware_deny (roles : list string) (u : ReqUser.t)
    (next : World * Response) (w : World) :
  includes roles (ReqUser.role u) = false ->
  roleMiddleware roles (Some u) next w = (w, Json 403 (Message "Access Denied")).
Proof. intros Hin. unfold roleMiddleware. now rewrite Hin. Qed.

(** A caller whose role is not TUTOR is turned away from the three tutor
    routes before the handler runs. *)
Lemma tutor_routes_deny_other_roles (env : Env) (w : World) (token : string)
    (u : ReqUser.t) (id : string) (price : JsNum) (fileUrl : Field) (now : Z) :
  token <> "" ->
  jwt_verify env token = Some u ->
  truthy (ReqUser.email u) = true ->
  ReqUser.role u <> "TUTOR" ->
  route env (PUT_review_and_price (Some token) id price) w
  = (w, Json 403 (Message "Access Denied"))
  /\ route env (PUT_complete (Some token) id fileUrl now) w
     = (w, Json 403 (Message "Access Denied"))
  /\ route env (PUT_reject (Some token) id) w
     = (w, Json 403 (Message "Access Denied")).
Proof.
  intros Htok Hdec Hmail Hrole.
  assert (Hdeny : includes ["TUTOR"] (ReqUser.role u) = false).
  { unfold includes. simpl. rewrite orb_false_r. now apply String.eqb_neq. }
  unfold route. rewrite !(authMiddleware_pass _ _ _ _ _ Htok Hdec Hmail).
  now rewrite !(roleMiddleware_deny _ _ _ _ Hdeny).
Qed.

(** The completion and rejection routes answer every tutor alike. *)
Lemma complete_and_reject_caller_blind (env : Env) (w : World)
    (token1 token2 : string) (u1 u2 : ReqUser.t) (id : string)
    (fileUrl : Field) (now : Z) :
  token1 <> "" -> jwt_verify env token1 = Some u1 ->
  truthy (ReqUser.email u1) = true -> ReqUser.role u1 = "TUTOR" ->
  token2 <> "" -> jwt_verify env token2 = Some u2 ->
  truthy (ReqUser.email u2) = true -> ReqUser.role u2 = "TUTOR" ->
  route env (PUT_complete (Some token1) id fileUrl now) w
  = route env (PUT_complete (Some token2) id fileUrl now) w
  /\ route env (PUT_reject (Some token1) id) w
     = route env (PUT_reject (Some token2) id) w.
Proof.
  intros Ht1 Hd1 Hm1 Hr1 Ht2 Hd2 Hm2 Hr2. unfold route.
  rewrite !(authMiddleware_pass _ _ _ _ _ Ht1 Hd1 Hm1).
  rewrite !(authMiddleware_pass _ _ _ _ _ Ht2 Hd2 Hm2).
  rewrite !roleMiddleware_pass by (rewrite ?Hr1, ?Hr2; reflexivity).
  split; reflexivity.
Qed.

(** C2, at the failing input.  Esi (t1) is the tutor of the essay.  Yaw
    (t2), another tutor, cannot price it, but completes it with a file of
    his own, and rejects it while it is still assigned to Esi. *)
Theorem complete_and_reject_by_another_tutor :
  Assignment.assignedTutorId Sample.essay_in_progress = Some "t1"
  /\ Assignment.assignedTutorId Sample.essay_assigned = Some "t1"
  /\ Sample.as_yaw ≫= ReqUser.id = Some "t2"
  /\ (exists w1 body,
        route Sample.env
          (PUT_complete (Some "token-yaw") "a1" (Text "https://files.test/other.pdf") 300)
          Sample.in_progress = (w1, Json 200 body)
        /\ assignments w1 !! "a1"
           = Some (Sample.essay "Completed" (Some "t1") (Some (50 # 1)) false
                     (Some "https://files.test/other.pdf") (Some 300%Z)))
  /\ route Sample.env (PUT_reject (Some "token-yaw") "a1") Sample.assigned
     = (Sample.rejected, Json 200 (Message "Assignment rejected successfully."))
  /\ route Sample.env (PUT_review_and_price (Some "token-yaw") "a1" (Fin (50 # 1)))
       Sample.assigned
     = (Sample.assigned, Json 404 (Message "Assignment not found or not assigned to you.")).
Proof.
  split; [reflexivity | split; [reflexivity | split; [reflexivity | ]]].
  split; [ | split; vm_compute; reflexivity].
  eexists. eexists. split; [vm_compute; reflexivity | vm_compute; reflexivity].
Qed.

(** ** Payment verification *)

Lemma verifyPaymentForAssignment_success (env : Env) (w : World) (ref id : string)
    (v : VerificationData) (a : Assignment.t) :
  ref <> "" ->
  verifyPayment env ref = Some v ->
  v_status v = "success" ->
  v_assignmentId v = Some id ->
  id <> "" ->
  assignments w !! id = Some a ->
  exists w1,
    verifyPaymentForAssignment env w (Some ref)
    = (w1, Json 200 (MessageAssignment "Payment verified successfully!"
                       (with_Student w id (Assignment.set_isPaid true a))))
    /\ assignments w1 = <[id := Assignment.set_isPaid true a]> (assignments w)
    /\ users w1 = users w
    /\ outbox w1
       = (outbox w ++
          match users w !! Assignment.studentId a with
          | Some s =>
              if truthy (Some (User.email s)) && truthy (Assignment.completedFileUrl a)
              then [availability_mail env id (Assignment.set_isPaid true a) s]
              else []
          | None => []
          end)%list.
Proof.
  intros Href Hv Hs Hid Hne Hget. unfold verifyPaymentForAssignment.
  destruct ref as [|c ref]; [congruence | ].
  rewrite Hv, Hs, Hid. cbn -[truthy].
  destruct id as [|d id]; [congruence | ].
  rewrite (update_assignment_found _ _ _ _ Hget).
  eexists. split; [reflexivity | ].
  destruct a as [sid ti de ps fu st su tu ch pa ip cf ca]; cbn -[truthy].
  destruct (users w !! sid) as [s|]; cbn -[truthy].
  - destruct (truthy (Some (User.email s)) && truthy cf); cbn -[truthy];
      repeat split; try reflexivity. now rewrite app_nil_r.
  - repeat split; try reflexivity. now rewrite app_nil_r.
Qed.

(** Verifying a reference whose assignment is already paid writes the same
    row again and sends the e-mail once more. *)
Lemma verifyPaymentForAssignment_again (env : Env) (w : World) (ref id : string)
    (v : VerificationData) (a : Assignment.t) (s : User.t) :
  ref <> "" ->
  verifyPayment env ref = Some v ->
  v_status v = "success" ->
  v_assignmentId v = Some id ->
  id <> "" ->
  assignments w !! id = Some a ->
  Assignment.isPaid a = true ->
  users w !! Assignment.studentId a = Some s ->
  User.email s <> "" ->
  truthy (Assignment.completedFileUrl a) = true ->
  (verifyPaymentForAssignment env w (Some ref)).1
  = sendEmail (availability_mail env id a s) w.
Proof.
  intros Href Hv Hs Hid Hne Hget Hpaid Hstudent Hmail Hfile.
  destruct (verifyPaymentForAssignment_success env w ref id v a
              Href Hv Hs Hid Hne Hget) as (w1 & Hrun & Hm & Hu & Ho).
  rewrite Hrun. simpl.
  rewrite Hstudent, Hfile in Ho. apply truthy_Some in Hmail. rewrite Hmail in Ho.
  rewrite (set_isPaid_same _ Hpaid) in Hm, Ho.
  rewrite (insert_id _ _ _ Hget) in Hm.
  destruct w1 as [m1 u1 o1]; simpl in *. subst. reflexivity.
Qed.

(** C6, at the failing input.  Ama's essay is completed; the gateway
    reports her reference as paid.  Verifying the reference a second time
    runs the update again, which leaves the row as the first verification
    left it, and sends the availability e-mail a second time. *)
Theorem verification_twice_mails_twice :
  exists w1 w2 r1 r2 mail,
    route Sample.env (GET_payments_verify (Some "token-ama") (Some "ref-paid"))
      Sample.completed = (w1, r1)
    /\ route Sample.env (GET_payments_verify (Some "token-ama") (Some "ref-paid")) w1
       = (w2, r2)
    /\ is_success r1 = true /\ is_success r2 = true
    /\ subject mail = "Assignment Solution Available"
    /\ to mail = "ama@students.test"
    /\ outbox w1 = [mail]
    /\ outbox w2 = [mail; mail]
    /\ assignments w1 !! "a1" = Some Sample.essay_paid
    /\ assignments w2 = assignments w1.
Proof.
  do 4 eexists.
  exists (availability_mail Sample.env "a1" Sample.essay_paid Sample.ama).
  split; [vm_compute; reflexivity | ].
  split; [vm_compute; reflexivity | ].
  repeat split; vm_compute; reflexivity.
Qed.

(** ** Source states of the transitions *)

Lemma rejectAssignment_not_assigned (w : World) (id : string) (a : Assignment.t) :
  assignments w !! id = Some a ->
  Assignment.status a <> "Assigned" ->
  rejectAssignment w id
  = (w, Json 400 (Message "Assignment is not in an assignable state.")).
Proof.
  intros Hget Hst. unfold rejectAssignment. rewrite Hget.
  apply String.eqb_neq in Hst. now rewrite Hst.
Qed.

Lemma reviewAndSetPrice_not_assigned (env : Env) (w : World) (user : option ReqUser.t)
    (id : string) (price : JsNum) (a : Assignment.t) :
  assignments w !! id = Some a ->
  Assignment.status a <> "Assigned" ->
  (reviewAndSetPrice env w user id price).1 = w
  /\ is_success (reviewAndSetPrice env w user id price).2 = false.
Proof.
  intros Hget Hst. apply String.eqb_neq in Hst. unfold reviewAndSetPrice.
  destruct (user ≫= ReqUser.id) as [[|c tutorId]|]; try (split; reflexivity).
  destruct (isNaN price || le_zero price); try (split; reflexivity).
  rewrite Hget. cbn -[String.eqb is_tutor].
  destruct (is_tutor (String c tutorId) (Assignment.assignedTutorId a));
    [rewrite Hst | ]; split; reflexivity.
Qed.

Lemma reviewAndSetPrice_by_tutor_not_assigned (env : Env) (w : World)
    (user : option ReqUser.t) (id tutorId : string) (price : JsNum)
    (a : Assignment.t) :
  assignments w !! id = Some a ->
  Assignment.status a <> "Assigned" ->
  user ≫= ReqUser.id = Some tutorId ->
  tutorId <> "" ->
  Assignment.assignedTutorId a = Some tutorId ->
  isNaN price = false ->
  le_zero price = false ->
  reviewAndSetPrice env w user id price
  = (w, Json 400 (Message "Assignment is not in an assignable state.")).
Proof.
  intros Hget Hst Hid Hne Htutor Hnum Hpos. apply String.eqb_neq in Hst.
  unfold reviewAndSetPrice.
  rewrite Hid. destruct tutorId as [|c tutorId]; [congruence | ].
  rewrite Hnum, Hpos, Hget. cbn -[String.eqb]. rewrite Htutor.
  cbn -[String.eqb]. rewrite String.eqb_refl. now rewrite Hst.
Qed.

Lemma pricing_and_rejection_source_state_guarded :
  source_state_guarded reject
  /\ forall user price, source_state_guarded (review_and_price user price).
Proof.
  split.
  - intros env w id a Hget Hst. simpl in *.
    rewrite (rejectAssignment_not_assigned _ _ _ Hget Hst). simpl. auto.
  - intros user price env w id a Hget Hst. simpl in *.
    destruct (reviewAndSetPrice_not_assigned env w user id price a Hget Hst)
      as [Hw Hf].
    rewrite Hw. auto.
Qed.

(** C3, as the code has it.  Pricing and rejection are guarded by their
    source state: for an assignment whose status is not Assigned, rejection
    is refused as a bad request, pricing fails (as the same bad request
    once the caller is the assigned tutor and the price is positive), and
    the world stays as it was. *)
Theorem pricing_and_rejection_guarded (env : Env) (w : World) (id : string)
    (a : Assignment.t) :
  assignments w !! id = Some a ->
  Assignment.status a <> "Assigned" ->
  rejectAssignment w id
  = (w, Json 400 (Message "Assignment is not in an assignable state."))
  /\ (forall user price,
        (reviewAndSetPrice env w user id price).1 = w
        /\ is_success (reviewAndSetPrice env w user id price).2 = false)
  /\ (forall user tutorId p,
        user ≫= ReqUser.id = Some tutorId ->
        tutorId <> "" ->
        Assignment.assignedTutorId a = Some tutorId ->
        le_zero (Fin p) = false ->
        reviewAndSetPrice env w user id (Fin p)
        = (w, Json 400 (Message "Assignment is not in an assignable state."))).
Proof.
  intros Hget Hst.
  split; [apply (rejectAssignment_not_assigned _ _ _ Hget Hst) | split].
  - intros user price. now apply (reviewAndSetPrice_not_assigned _ _ _ _ _ a).
  - intros user tutorId p Hid Hne Htutor Hpos.
    now apply (reviewAndSetPrice_by_tutor_not_assigned _ _ _ _ tutorId _ a).
Qed.

Lemma pricing_and_rejection_guarded_witness :
  assignments Sample.in_progress !! "a1" = Some Sample.essay_in_progress
  /\ Assignment.status Sample.essay_in_progress <> "Assigned"
  /\ rejectAssignment Sample.in_progress "a1"
     = (Sample.in_progress, Json 400 (Message "Assignment is not in an assignable state."))
  /\ reviewAndSetPrice Sample.env Sample.in_progress Sample.as_esi "a1" (Fin (60 # 1))
     = (Sample.in_progress, Json 400 (Message "Assignment is not in an assignable state.")).
Proof.
  assert (Hget : assignments Sample.in_progress !! "a1" = Some Sample.essay_in_progress)
    by reflexivity.
  assert (Hst : Assignment.status Sample.essay_in_progress <> "Assigned")
    by discriminate.
  destruct (pricing_and_rejection_guarded Sample.env _ _ _ Hget Hst)
    as (Hreject & _ & Hprice).
  split; [exact Hget | split; [exact Hst | split; [exact Hreject | ]]].
  apply (Hprice Sample.as_esi "t1" (60 # 1)); try reflexivity. discriminate.
Defined.

(** C3, as stated, fails: assign-to-tutor does not look at the status.
    The essay Esi rejected is routed to Yaw although it is not Pending. *)
Lemma assign_to_tutor_from_rejected :
  Assignment.status Sample.essay_rejected <> source_state (assign_to_tutor (Text "t2"))
  /\ is_success (fire Sample.env (assign_to_tutor (Text "t2")) "a1" Sample.rejected).2 = true
  /\ assignments (fire Sample.env (assign_to_tutor (Text "t2")) "a1" Sample.rejected).1 !! "a1"
     = Some (Sample.essay "Assigned" (Some "t2") None false None None)
  /\ ~ (forall t, source_state_guarded t).
Proof.
  split; [discriminate | ].
  split; [vm_compute; reflexivity | ].
  split; [vm_compute; reflexivity | ].
  intros Hall.
  destruct (Hall (assign_to_tutor (Text "t2")) Sample.env Sample.rejected "a1"
              Sample.essay_rejected) as [Hfail _].
  - reflexivity.
  - discriminate.
  - vm_compute in Hfail. discriminate Hfail.
Qed.

(** Completion and mark-paid do not look at the status either. *)
Lemma complete_and_mark_paid_unguarded :
  ~ source_state_guarded (complete Sample.as_esi (Text Sample.solution) 200)
  /\ ~ source_state_guarded mark_paid.
Proof.
  split; intros Hguard.
  - destruct (Hguard Sample.env Sample.pending "a1" Sample.essay_pending)
      as [Hfail _]; [reflexivity | discriminate | ].
    vm_compute in Hfail. discriminate Hfail.
  - destruct (Hguard Sample.env Sample.pending "a1" Sample.essay_pending)
      as [Hfail _]; [reflexivity | discriminate | ].
    vm_compute in Hfail. discriminate Hfail.
Qed.

(** ** When an assignment can become paid *)

(** C4, as the code has it.  Neither operation that sets [isPaid] reads
    the status: mark-paid sets it on any unpaid assignment, verification
    on the assignment a successful reference names, and both leave the
    status as it was. *)
Theorem isPaid_set_whatever_the_status (env : Env) (w : World) (id : string)
    (a : Assignment.t) :
  assignments w !! id = Some a ->
  (Assignment.isPaid a = false ->
     exists w1,
       markAssignmentAsPaid w id
       = (w1, Json 200 (Message "Assignment marked as paid successfully."))
       /\ assignments w1 !! id = Some (Assignment.set_isPaid true a))
  /\ (forall ref v,
        ref <> "" ->
        verifyPayment env ref = Some v ->
        v_status v = "success" ->
        v_assignmentId v = Some id ->
        id <> "" ->
        exists w1 body,
          verifyPaymentForAssignment env w (Some ref) = (w1, Json 200 body)
          /\ assignments w1 !! id = Some (Assignment.set_isPaid true a))
  /\ Assignment.isPaid (Assignment.set_isPaid true a) = true
  /\ Assignment.status (Assignment.set_isPaid true a) = Assignment.status a.
Proof.
  intros Hget. split; [ | split; [ | split; reflexivity]].
  - intros Hunpaid. eexists. split.
    + apply (markAssignmentAsPaid_unpaid _ _ _ Hget Hunpaid).
    + simpl. apply lookup_insert_eq.
  - intros ref v Href Hv Hs Hid Hne.
    destruct (verifyPaymentForAssignment_success env w ref id v a
                Href Hv Hs Hid Hne Hget) as (w1 & Hrun & Hm & _).
    exists w1. eexists. split; [exact Hrun | ].
    rewrite Hm. apply lookup_insert_eq.
Qed.

Lemma isPaid_set_whatever_the_status_witness :
  assignments Sample.pending !! "a1" = Some Sample.essay_pending
  /\ Assignment.status Sample.essay_pending = "Pending"
  /\ (exists w1,
        markAssignmentAsPaid Sample.pending "a1"
        = (w1, Json 200 (Message "Assignment marked as paid successfully."))
        /\ assignments w1 !! "a1" = Some (Assignment.set_isPaid true Sample.essay_pending))
  /\ (exists w1 body,
        verifyPaymentForAssignment Sample.env Sample.pending (Some "ref-paid")
        = (w1, Json 200 body)
        /\ assignments w1 !! "a1" = Some (Assignment.set_isPaid true Sample.essay_pending)).
Proof.
  assert (Hget : assignments Sample.pending !! "a1" = Some Sample.essay_pending)
    by reflexivity.
  destruct (isPaid_set_whatever_the_status Sample.env _ _ _ Hget)
    as (Hmark & Hverify & _).
  split; [exact Hget | split; [reflexivity | split]].
  - apply Hmark. reflexivity.
  - apply (Hverify "ref-paid" (mkVerification "success" (Some "a1")));
      try reflexivity; discriminate.
Defined.

(** C4, as stated, fails: Ama submits an essay and marks it paid at once;
    the world reached holds an assignment that is paid and Pending. *)
Lemma paid_while_pending :
  ~ (forall env w, reachable env w -> every_assignment paid_only_completed w).
Proof.
  intros Hall.
  pose (submit := POST_submit (Some "token-ama") "Essay" "Inflation in Ghana"
                    "Economics" (Some "essay.pdf")
                    (Some "https://files.test/essay.pdf") "a1" 100).
  pose (pay := PUT_mark_paid (Some "token-ama") "a1").
  pose (w0 := mkWorld ∅ Sample.people []).
  assert (Hreach : reachable Sample.env
                     (route Sample.env pay (route Sample.env submit w0).1).1)
    by (do 2 apply reachable_request; apply reachable_start).
  specialize (Hall _ _ Hreach "a1"
                (Assignment.set_isPaid true Sample.essay_pending)).
  assert (Hst : Assignment.status (Assignment.set_isPaid true Sample.essay_pending)
                = "Completed").
  { apply Hall; [vm_compute; reflexivity | reflexivity]. }
  discriminate Hst.
Qed.

(** ** Tutor and status *)

Lemma every_assignment_insert (P : Assignment.t -> Prop) (w : World) (id : string)
    (a : Assignment.t) :
  every_assignment P w -> P a ->
  every_assignment P (set_assignments (<[id := a]> (assignments w)) w).
Proof.
  intros Hall Ha k b. simpl. rewrite lookup_insert.
  destruct (decide (id = k)); [intros [= <-]; exact Ha | apply Hall].
Qed.

Lemma every_assignment_sendEmail (P : Assignment.t -> Prop) (e : Email) (w : World) :
  every_assignment P w -> every_assignment P (sendEmail e w).
Proof. intros Hall k b. simpl. apply Hall. Qed.

Lemma tutor_implies_status_set_status (s : string) (a : Assignment.t) :
  In s tutor_statuses -> tutor_implies_status (Assignment.set_status s a).
Proof. intros Hs _. exact Hs. Qed.

Lemma tutor_implies_status_no_tutor (a : Assignment.t) :
  Assignment.assignedTutorId a = None -> tutor_implies_status a.
Proof. intros Hnone Hsome. now contradict Hsome. Qed.

Lemma tutor_implies_status_set_isPaid (b : bool) (a : Assignment.t) :
  tutor_implies_status a -> tutor_implies_status (Assignment.set_isPaid b a).
Proof. intros Ha. exact Ha. Qed.

Lemma tutor_implies_status_on_delete (userId : string) (a : Assignment.t) :
  tutor_implies_status a -> tutor_implies_status (on_delete_set_null userId a).
Proof.
  intros Ha. unfold on_delete_set_null.
  destruct (is_tutor userId (Assignment.assignedTutorId a)); [ | exact Ha].
  now apply tutor_implies_status_no_tutor.
Qed.

Lemma tutor_implies_status_complete (fileUrl : Field) (now : Z)
    (a : Assignment.t) :
  tutor_implies_status (complete_data fileUrl now a).
Proof.
  intros _. unfold complete_data. destruct fileUrl; simpl; auto.
Qed.

Create HintDb lifecycle.

#[local] Hint Resolve every_assignment_insert every_assignment_sendEmail
  tutor_implies_status_set_status tutor_implies_status_no_tutor
  tutor_implies_status_set_isPaid tutor_implies_status_on_delete
  tutor_implies_status_complete : lifecycle.

(** Splits the handler on every test it makes; what is left is a world
    built from the old one by updates and e-mails. *)
Ltac run_handler :=
  unfold update_assignment, where_also;
  repeat case_match; simplify_eq; simpl.

Ltac keeps_invariant :=
  run_handler;
  repeat first
    [ assumption
    | apply every_assignment_sendEmail
    | apply every_assignment_insert ];
  eauto with lifecycle.

Section TutorImpliesStatus.

Variable env : Env.
Variable w : World.
Hypothesis Hw : every_assignment tutor_implies_status w.

Lemma submitAssignment_keeps user title description programSpecialty file
    secure_url uuid now :
  every_assignment tutor_implies_status
    (submitAssignment env w user title description programSpecialty file
       secure_url uuid now).1.
Proof. unfold submitAssignment. keeps_invariant. Qed.

Lemma assignAssignment_keeps id :
  every_assignment tutor_implies_status (assignAssignment w id).1.
Proof.
  unfold assignAssignment. keeps_invariant.
  apply tutor_implies_status_set_status. simpl. auto.
Qed.

Lemma reviewAndSetPrice_keeps user id price :
  every_assignment tutor_implies_status (reviewAndSetPrice env w user id price).1.
Proof.
  unfold reviewAndSetPrice. keeps_invariant; intros _; simpl; auto.
Qed.

Lemma assignAssignmentToTutor_keeps id tutorId :
  every_assignment tutor_implies_status (assignAssignmentToTutor env w id tutorId).1.
Proof.
  unfold assignAssignmentToTutor, findFirst_tutor, assign_data, find_approved_tutor.
  keeps_invariant; intros _; simpl; auto.
Qed.

Lemma completeAssignment_keeps user id fileUrl now :
  every_assignment tutor_implies_status (completeAssignment w user id fileUrl now).1.
Proof. unfold completeAssignment. keeps_invariant. Qed.

Lemma markAssignmentAsPaid_keeps id :
  every_assignment tutor_implies_status (markAssignmentAsPaid w id).1.
Proof. unfold markAssignmentAsPaid. keeps_invariant. Qed.

Lemma rejectAssignment_keeps id :
  every_assignment tutor_implies_status (rejectAssignment w id).1.
Proof.
  unfold rejectAssignment. keeps_invariant.
  apply tutor_implies_status_set_status. simpl. auto.
Qed.

Lemma verifyPaymentForAssignment_keeps reference :
  every_assignment tutor_implies_status
    (verifyPaymentForAssignment env w reference).1.
Proof. unfold verifyPaymentForAssignment. keeps_invariant. Qed.

Lemma deleteTutor_keeps tutorId :
  every_assignment tutor_implies_status (deleteTutor w tutorId).1.
Proof.
  unfold deleteTutor. run_handler; try assumption.
  apply every_assignment_sendEmail. intros k b. simpl.
  rewrite lookup_fmap. destruct (assignments w !! k) as [a|] eqn:Hget; simpl.
  - intros [= <-]. apply tutor_implies_status_on_delete. exact (Hw _ _ Hget).
  - discriminate.
Qed.

End TutorImpliesStatus.

(** C7, as the code has it.  An assignment that has a tutor has one of the
    statuses Assigned, In Progress, Completed, Rejected, and every request
    the routes serve, as well as the handler that opens an assignment to
    all matching tutors, keeps it so. *)
Theorem tutor_implies_status_preserved (env : Env) (w : World) :
  every_assignment tutor_implies_status w ->
  (forall req, every_assignment tutor_implies_status (route env req w).1)
  /\ (forall id, every_assignment tutor_implies_status (assignAssignment w id).1).
Proof.
  intros Hw. split; [ | intros id; now apply assignAssignment_keeps].
  intros req.
  destruct req; simpl; unfold authMiddleware, roleMiddleware;
    repeat case_match; try exact Hw.
  - now apply submitAssignment_keeps.
  - now apply markAssignmentAsPaid_keeps.
  - unfold getTutorPendingAssignments. repeat case_match; exact Hw.
  - now apply assignAssignmentToTutor_keeps.
  - now apply reviewAndSetPrice_keeps.
  - unfold getAssignmentById. repeat case_match; exact Hw.
  - now apply completeAssignment_keeps.
  - unfold downloadAssignment. repeat case_match; exact Hw.
  - unfold downloadSolutionFile, where_also. repeat case_match; exact Hw.
  - now apply rejectAssignment_keeps.
  - now apply verifyPaymentForAssignment_keeps.
  - now apply deleteTutor_keeps.
Qed.

Lemma tutor_implies_status_preserved_witness :
  every_assignment tutor_implies_status Sample.pending
  /\ every_assignment tutor_implies_status
       (route Sample.env (PUT_assign (Some "token-admin") "a1" (Text "t1")) Sample.pending).1
  /\ every_assignment tutor_implies_status (assignAssignment Sample.pending "a1").1.
Proof.
  assert (Hw : every_assignment tutor_implies_status Sample.pending).
  { intros k a Hget. apply tutor_implies_status_no_tutor.
    unfold Sample.pending, Sample.holding in Hget. simpl in Hget.
    rewrite lookup_insert in Hget.
    destruct (decide ("a1" = k)); [ | rewrite lookup_empty in Hget; discriminate].
    injection Hget as <-. reflexivity. }
  destruct (tutor_implies_status_preserved Sample.env Sample.pending Hw)
    as [Hroute Hopen].
  split; [exact Hw | split; [apply Hroute | apply Hopen]].
Defined.

(** C7, as stated, fails: opening an assignment to the tutors of its
    specialty gives it the status Assigned and leaves it without a tutor. *)
Lemma assigned_without_tutor :
  every_assignment tutor_iff_status Sample.pending
  /\ assignments (assignAssignment Sample.pending "a1").1 !! "a1"
     = Some (Sample.essay "Assigned" None None false None None)
  /\ ~ every_assignment tutor_iff_status (assignAssignment Sample.pending "a1").1.
Proof.
  split; [ | split; [vm_compute; reflexivity | ]].
  - intros k a Hget.
    unfold Sample.pending, Sample.holding in Hget. simpl in Hget.
    rewrite lookup_insert in Hget.
    destruct (decide ("a1" = k)); [ | rewrite lookup_empty in Hget; discriminate].
    injection Hget as <-. split.
    + intros Hsome. now contradict Hsome.
    + simpl. intros [H | [H | [H | [H | []]]]]; discriminate H.
  - intros Hall.
    destruct (Hall "a1" (Sample.essay "Assigned" None None false None None))
      as [_ Hback].
    + vm_compute. reflexivity.
    + apply Hback; [ | reflexivity]. simpl. auto.
Qed.

(** * Further properties of the handlers *)

(** ** Authentication and roles *)

(** X1. Whatever the route, a request without a token, with a token that
    does not verify, or with a token that carries no e-mail is answered
    with 401, 403 and 400 respectively, and the world is left alone. *)
Theorem authentication_comes_first (env : Env) (req : Request) (w : World) :
  (truthy (token_of req) = false ->
     route env req w = (w, Json 401 (Message "Access Denied. No token provided.")))
  /\ (truthy (token_of req) = true -> caller env req = None ->
        route env req w = (w, Json 403 (Message "Invalid Token")))
  /\ (forall u, truthy (token_of req) = true -> caller env req = Some u ->
        truthy (ReqUser.email u) = false ->
        route env req w = (w, Json 400 (Message "Email is missing from token."))).
Proof.
  unfold caller.
  destruct req; cbn [route token_of]; unfold authMiddleware;
    (split; [intros -> | split; [intros -> -> | intros u -> -> ->]]); reflexivity.
Qed.

Lemma authentication_comes_first_witness :
  route Sample.env (PUT_mark_paid None "a1") Sample.completed
  = (Sample.completed, Json 401 (Message "Access Denied. No token provided."))
  /\ route Sample.env (PUT_complete (Some "forged") "a1" Missing 0) Sample.in_progress
     = (Sample.in_progress, Json 403 (Message "Invalid Token")).
Proof.
  destruct (authentication_comes_first Sample.env (PUT_mark_paid None "a1")
              Sample.completed) as (Hmissing & _ & _).
  destruct (authentication_comes_first Sample.env
              (PUT_complete (Some "forged") "a1" Missing 0) Sample.in_progress)
    as (_ & Hforged & _).
  split; [apply Hmissing | apply Hforged]; reflexivity.
Defined.

(** X2. The role gates: an authenticated caller who is not an
    administrator cannot assign or delete a tutor, one who is not a tutor
    cannot price, complete, reject or list the open assignments, and one
    who is neither administrator nor student cannot mark paid; each is
    answered 403 and nothing changes. *)
Theorem role_gates (env : Env) (w : World) (token : string) (u : ReqUser.t) :
  token <> "" ->
  jwt_verify env token = Some u ->
  truthy (ReqUser.email u) = true ->
  (ReqUser.role u <> "ADMIN" ->
     forall id target tutorId,
       route env (PUT_assign (Some token) id target) w
       = (w, Json 403 (Message "Access Denied"))
       /\ route env (DELETE_delete_tutor (Some token) tutorId) w
          = (w, Json 403 (Message "Access Denied")))
  /\ (ReqUser.role u <> "TUTOR" ->
        forall id price fileUrl now,
          route env (PUT_review_and_price (Some token) id price) w
          = (w, Json 403 (Message "Access Denied"))
          /\ route env (PUT_complete (Some token) id fileUrl now) w
             = (w, Json 403 (Message "Access Denied"))
          /\ route env (PUT_reject (Some token) id) w
             = (w, Json 403 (Message "Access Denied"))
          /\ route env (GET_tutor_pending (Some token)) w
             = (w, Json 403 (Message "Access Denied")))
  /\ (ReqUser.role u <> "ADMIN" -> ReqUser.role u <> "STUDENT" ->
        forall id,
          route env (PUT_mark_paid (Some token) id) w
          = (w, Json 403 (Message "Access Denied"))).
Proof.
  intros Htok Hdec Hmail.
  split; [ | split].
  - intros Hrole id target tutorId.
    assert (Hdeny : includes ["ADMIN"] (ReqUser.role u) = false).
    { unfold includes. simpl. rewrite orb_false_r. now apply String.eqb_neq. }
    unfold route. rewrite !(authMiddleware_pass _ _ _ _ _ Htok Hdec Hmail).
    now rewrite !(roleMiddleware_deny _ _ _ _ Hdeny).
  - intros Hrole id price fileUrl now.
    assert (Hdeny : includes ["TUTOR"] (ReqUser.role u) = false).
    { unfold includes. simpl. rewrite orb_false_r. now apply String.eqb_neq. }
    unfold route. rewrite !(authMiddleware_pass _ _ _ _ _ Htok Hdec Hmail).
    now rewrite !(roleMiddleware_deny _ _ _ _ Hdeny).
  - intros Hadmin Hstudent id.
    assert (Hdeny : includes ["ADMIN"; "STUDENT"] (ReqUser.role u) = false).
    { unfold includes. simpl. rewrite orb_false_r.
      apply orb_false_iff. split; now apply String.eqb_neq. }
    unfold route. rewrite !(authMiddleware_pass _ _ _ _ _ Htok Hdec Hmail).
    now rewrite !(roleMiddleware_deny _ _ _ _ Hdeny).
Qed.

Lemma role_gates_witness :
  route Sample.env (PUT_assign (Some "token-esi") "a1" (Text "t1")) Sample.pending
  = (Sample.pending, Json 403 (Message "Access Denied"))
  /\ route Sample.env (PUT_reject (Some "token-ama") "a1") Sample.assigned
     = (Sample.assigned, Json 403 (Message "Access Denied"))
  /\ route Sample.env (PUT_mark_paid (Some "token-esi") "a1") Sample.completed
     = (Sample.completed, Json 403 (Message "Access Denied")).
Proof.
  assert (Hne1 : "token-esi" <> "") by discriminate.
  assert (Hne2 : "token-ama" <> "") by discriminate.
  destruct (role_gates Sample.env Sample.pending "token-esi" _ Hne1 eq_refl eq_refl)
    as (Hadmin & _ & _).
  destruct (role_gates Sample.env Sample.assigned "token-ama" _ Hne2 eq_refl eq_refl)
    as (_ & Htutor & _).
  destruct (role_gates Sample.env Sample.completed "token-esi" _ Hne1 eq_refl eq_refl)
    as (_ & _ & Hpay).
  assert (Hesi : "TUTOR" <> "ADMIN") by discriminate.
  assert (Hesi' : "TUTOR" <> "STUDENT") by discriminate.
  assert (Hama : "STUDENT" <> "TUTOR") by discriminate.
  destruct (Hadmin Hesi "a1" (Text "t1") "t1") as [Hassign _].
  destruct (Htutor Hama "a1" NaN Missing 0%Z) as (_ & _ & Hreject & _).
  split; [exact Hassign | split; [exact Hreject | ]].
  exact (Hpay Hesi Hesi' "a1").
Defined.

(** X3. The read routes write nothing: listing the open assignments,
    reading one assignment and both downloads leave the tables and the
    e-mail log as they were, whoever asks and whatever the answer. *)
Theorem reads_write_nothing (env : Env) (w : World) (token : option string)
    (id : string) :
  (route env (GET_tutor_pending token) w).1 = w
  /\ (route env (GET_by_id token id) w).1 = w
  /\ (route env (GET_download token id) w).1 = w
  /\ (route env (GET_download_completed token id) w).1 = w.
Proof.
  cbn [route].
  unfold authMiddleware, roleMiddleware, getTutorPendingAssignments,
    getAssignmentById, downloadAssignment, downloadSolutionFile.
  repeat split; repeat case_match; reflexivity.
Qed.

(** ** Submitting an assignment *)

(** X4. A submission either fails and changes nothing, or it adds exactly
    one row under the fresh id: Pending, unpaid, without tutor, charge or
    completion, owned by the caller, with the uploaded file; the other
    rows and the users stay, and one e-mail goes to the administrator. *)
Theorem submitAssignment_outcome (env : Env) (w : World) (user : option ReqUser.t)
    (title description programSpecialty : string) (file secure_url : option string)
    (uuid : string) (now : Z) (w1 : World) (r : Response) :
  submitAssignment env w user title description programSpecialty
    file secure_url uuid now = (w1, r) ->
  (is_success r = false -> w1 = w)
  /\ (is_success r = true ->
        exists studentId fileUrl body,
          user ≫= ReqUser.id = Some studentId /\ studentId <> ""
          /\ is_Some file
          /\ secure_url = Some fileUrl
          /\ assignments w !! uuid = None
          /\ is_Some (users w !! studentId)
          /\ assignments w1
             = <[uuid := Assignment.mk studentId title description programSpecialty
                           fileUrl "Pending" now None None None false None None]>
                 (assignments w)
          /\ users w1 = users w
          /\ outbox w1
             = (outbox w ++ [mkEmail (ADMIN_EMAIL env) "New Assignment Submitted" body])%list).
Proof.
  unfold submitAssignment.
  destruct (user ≫= ReqUser.id) as [[|c sid]|]; simpl;
    try (intros [= <- <-]; split; [reflexivity | discriminate]).
  destruct file as [f|]; simpl;
    try (intros [= <- <-]; split; [reflexivity | discriminate]).
  destruct secure_url as [url|]; simpl;
    try (intros [= <- <-]; split; [reflexivity | discriminate]).
  destruct (assignments w !! uuid) eqn:Hfresh; simpl;
    try (intros [= <- <-]; split; [reflexivity | discriminate]).
  destruct (users w !! String c sid) eqn:Hstudent; simpl;
    try (intros [= <- <-]; split; [reflexivity | discriminate]).
  intros [= <- <-]. split; [discriminate | intros _].
  exists (String c sid), url. eexists.
  repeat split; try reflexivity; try discriminate; eauto.
Qed.

Lemma submitAssignment_outcome_witness :
  exists studentId fileUrl body,
    Sample.as_kofi ≫= ReqUser.id = Some studentId
    /\ assignments
         (submitAssignment Sample.env Sample.completed Sample.as_kofi "Lab report"
            "Titration" "Chemistry" (Some "report.pdf")
            (Some "https://files.test/report.pdf") "a2" 300).1
       = <["a2" := Assignment.mk studentId "Lab report" "Titration" "Chemistry"
                     fileUrl "Pending" 300 None None None false None None]>
           (assignments Sample.completed)
    /\ outbox
         (submitAssignment Sample.env Sample.completed Sample.as_kofi "Lab report"
            "Titration" "Chemistry" (Some "report.pdf")
            (Some "https://files.test/report.pdf") "a2" 300).1
       = [mkEmail "admin@aplus.test" "New Assignment Submitted" body].
Proof.
  destruct (submitAssignment_outcome Sample.env Sample.completed Sample.as_kofi
              "Lab report" "Titration" "Chemistry" (Some "report.pdf")
              (Some "https://files.test/report.pdf") "a2" 300 _ _ eq_refl) as [_ Hok].
  destruct (Hok eq_refl)
    as (studentId & fileUrl & body & Hid & _ & _ & _ & _ & _ & Hrows & _ & Hmail).
  exists studentId, fileUrl, body. split; [exact Hid | split; [exact Hrows | exact Hmail]].
Defined.

(** ** Pricing *)

Lemma le_zero_false (p : Q) : le_zero (Fin p) = false <-> (0 < p)%Q.
Proof.
  simpl. split.
  - intros Hle. apply Qnot_le_lt. intros Hp.
    apply Qle_bool_iff in Hp. congruence.
  - intros Hpos. destruct (Qle_bool p 0) eqn:Hle; [ | reflexivity].
    apply Qle_bool_iff in Hle. exfalso. now apply (Qlt_not_le _ _ Hpos).
Qed.

Lemma is_tutor_true (tutorId : string) (assigned : option string) :
  is_tutor tutorId assigned = true <-> assigned = Some tutorId.
Proof.
  destruct assigned as [t|]; simpl.
  - rewrite String.eqb_eq. split; congruence.
  - split; discriminate.
Qed.

(** The prices that pass [isNaN(price) || price <= 0]: the finite numbers
    above zero and Infinity. *)
Lemma price_accepted (price : JsNum) :
  isNaN price || le_zero price = false
  <-> price = Inf \/ exists p, price = Fin p /\ (0 < p)%Q.
Proof.
  destruct price as [ | | |p]; simpl.
  - split; [discriminate | intros [H | (p & H & _)]; discriminate].
  - split; [now left | reflexivity].
  - split; [discriminate | intros [H | (p & H & _)]; discriminate].
  - rewrite (le_zero_false p). split.
    + intros Hp. right. now exists p.
    + intros [H | (q & [= <-] & Hq)]; [discriminate | exact Hq].
Qed.

(** X5. Pricing succeeds exactly when the caller is the assigned tutor,
    the price is a number above zero, Infinity included, and the status is
    Assigned.  It then sets the status to In Progress and the charge to
    the price when the price is finite, and to NULL when it is Infinity;
    it touches no other row, and sends one e-mail to the student and one
    to the administrator, in this order. *)
Theorem reviewAndSetPrice_succeeds_iff (env : Env) (w : World)
    (user : option ReqUser.t) (id : string) (price : JsNum)
    (a : Assignment.t) (s : User.t) :
  assignments w !! id = Some a ->
  users w !! Assignment.studentId a = Some s ->
  (is_success (reviewAndSetPrice env w user id price).2 = true
   <-> exists tutorId,
         user ≫= ReqUser.id = Some tutorId /\ tutorId <> ""
         /\ (price = Inf \/ exists p, price = Fin p /\ (0 < p)%Q)
         /\ Assignment.assignedTutorId a = Some tutorId
         /\ Assignment.status a = "Assigned")
  /\ (is_success (reviewAndSetPrice env w user id price).2 = true ->
        assignments (reviewAndSetPrice env w user id price).1
        = <[id := Assignment.set_tutorCharge
                    (match price with Fin p => Some p | _ => None end)
                    (Assignment.set_status "In Progress" a)]> (assignments w)
        /\ users (reviewAndSetPrice env w user id price).1 = users w
        /\ exists forStudent forAdmin,
             outbox (reviewAndSetPrice env w user id price).1
             = (outbox w ++
                [mkEmail (User.email s) "Assignment Accepted and Priced" forStudent;
                 mkEmail (ADMIN_EMAIL env) "Tutor Accepted and Priced Assignment"
                   forAdmin])%list).
Proof.
  intros Hget Hstudent. unfold reviewAndSetPrice.
  destruct (user ≫= ReqUser.id) as [[|c tutorId]|] eqn:Hid.
  1, 3: split; [split; [discriminate | intros (t & Ht & Hne & _); congruence]
               | discriminate].
  destruct (isNaN price || le_zero price) eqn:Hprice.
  { split; [split; [discriminate | ] | discriminate].
    intros (t & _ & _ & Hp & _). apply price_accepted in Hp. congruence. }
  apply price_accepted in Hprice.
  rewrite Hget. cbn -[String.eqb is_tutor].
  destruct (is_tutor (String c tutorId) (Assignment.assignedTutorId a)) eqn:Hmine.
  2: { split; [split; [discriminate | ] | discriminate].
       intros (t & [= <-] & _ & _ & Ht & _).
       apply is_tutor_true in Ht. congruence. }
  apply is_tutor_true in Hmine.
  destruct (String.eqb (Assignment.status a) "Assigned") eqn:Hst; cbn -[String.eqb].
  2: { split; [split; [discriminate | ] | discriminate].
       intros (t & _ & _ & _ & _ & Hs).
       apply String.eqb_neq in Hst. congruence. }
  apply String.eqb_eq in Hst.
  rewrite (update_assignment_found _ _ _ _ Hget), Hstudent. simpl.
  split.
  - split; [intros _ | reflexivity].
    exists (String c tutorId). repeat split; auto.
  - intros _. repeat split. do 2 eexists. now rewrite <- app_assoc.
Qed.

Lemma reviewAndSetPrice_succeeds_iff_witness :
  is_success (reviewAndSetPrice Sample.env Sample.assigned Sample.as_esi "a1"
                (Fin (50 # 1))).2 = true
  /\ assignments (reviewAndSetPrice Sample.env Sample.assigned Sample.as_esi "a1"
                    (Fin (50 # 1))).1
     = <["a1" := Sample.essay_in_progress]> (assignments Sample.assigned)
  /\ is_success (reviewAndSetPrice Sample.env Sample.assigned Sample.as_esi "a1"
                   (Fin (0 # 1))).2 = false
  /\ is_success (reviewAndSetPrice Sample.env Sample.assigned Sample.as_esi "a1"
                   Inf).2 = true
  /\ assignments (reviewAndSetPrice Sample.env Sample.assigned Sample.as_esi "a1"
                    Inf).1
     = <["a1" := Sample.essay "In Progress" (Some "t1") None false None None]>
         (assignments Sample.assigned).
Proof.
  assert (Hget : assignments Sample.assigned !! "a1" = Some Sample.essay_assigned)
    by reflexivity.
  assert (Hs : users Sample.assigned !! Assignment.studentId Sample.essay_assigned
               = Some Sample.ama) by reflexivity.
  destruct (reviewAndSetPrice_succeeds_iff Sample.env Sample.assigned Sample.as_esi
              "a1" (Fin (50 # 1)) _ _ Hget Hs) as [Hiff Heffect].
  destruct (reviewAndSetPrice_succeeds_iff Sample.env Sample.assigned Sample.as_esi
              "a1" (Fin (0 # 1)) _ _ Hget Hs) as [Hzero _].
  destruct (reviewAndSetPrice_succeeds_iff Sample.env Sample.assigned Sample.as_esi
              "a1" Inf _ _ Hget Hs) as [Hinf Hnull].
  assert (Hok : is_success (reviewAndSetPrice Sample.env Sample.assigned
                              Sample.as_esi "a1" (Fin (50 # 1))).2 = true).
  { apply Hiff. exists "t1". repeat split; try reflexivity; [discriminate | ].
    right. exists (50 # 1). split; reflexivity. }
  assert (Hok' : is_success (reviewAndSetPrice Sample.env Sample.assigned
                               Sample.as_esi "a1" Inf).2 = true).
  { apply Hinf. exists "t1". repeat split; try reflexivity; [discriminate | ].
    now left. }
  split; [exact Hok | split; [ | split; [ | split; [exact Hok' | ]]]].
  - destruct (Heffect Hok) as [Hrows _]. exact Hrows.
  - destruct (is_success (reviewAndSetPrice Sample.env Sample.assigned
                            Sample.as_esi "a1" (Fin (0 # 1))).2) eqn:Hz;
      [ | reflexivity].
    destruct Hzero as [Hcond _].
    destruct (Hcond eq_refl) as (t & _ & _ & [Hp | (p & Hp & Hpos)] & _);
      [discriminate Hp | ].
    injection Hp as <-. discriminate Hpos.
  - destruct (Hnull Hok') as [Hrows _]. exact Hrows.
Defined.

(** ** Completion and rejection *)





(** X8. Rejection succeeds exactly for an existing assignment whose
    status is Assigned, and then changes the status alone: the assignment
    keeps its tutor, and no e-mail is sent. *)
Theorem rejectAssignment_succeeds_iff (w : World) (id : string) :
  (is_success (rejectAssignment w id).2 = true
   <-> exists a, assignments w !! id = Some a /\ Assignment.status a = "Assigned")
  /\ (forall a,
        assignments w !! id = Some a ->
        Assignment.status a = "Assigned" ->
        rejectAssignment w id
        = (set_assignments (<[id := Assignment.set_status "Rejected" a]> (assignments w)) w,
           Json 200 (Message "Assignment rejected successfully."))
        /\ Assignment.assignedTutorId (Assignment.set_status "Rejected" a)
           = Assignment.assignedTutorId a)
  /\ (is_success (rejectAssignment w id).2 = false -> (rejectAssignment w id).1 = w).
Proof.
  unfold rejectAssignment.
  destruct (assignments w !! id) as [a|] eqn:Hget.
  - destruct (String.eqb (Assignment.status a) "Assigned") eqn:Hst;
      cbn -[String.eqb].
    + apply String.eqb_eq in Hst.
      rewrite (update_assignment_found _ _ _ _ Hget).
      split; [split; [intros _; eauto | reflexivity] | split].
      * intros a' [= <-] _. split; reflexivity.
      * discriminate.
    + apply String.eqb_neq in Hst.
      split; [split; [discriminate | ] | split].
      * intros (a' & [= <-] & Hs). congruence.
      * intros a' [= <-] Hs. congruence.
      * reflexivity.
  - split; [split; [discriminate | intros (a' & Ha' & _); discriminate] | split].
    + intros a' Ha'. discriminate.
    + reflexivity.
Qed.

Lemma rejectAssignment_succeeds_iff_witness :
  rejectAssignment Sample.assigned "a1"
  = (Sample.rejected, Json 200 (Message "Assignment rejected successfully."))
  /\ is_success (rejectAssignment Sample.rejected "a1").2 = false
  /\ (rejectAssignment Sample.rejected "a1").1 = Sample.rejected.
Proof.
  destruct (rejectAssignment_succeeds_iff Sample.assigned "a1") as (_ & Hdo & _).
  destruct (rejectAssignment_succeeds_iff Sample.rejected "a1") as (Hiff & _ & Hkeep).
  destruct (Hdo Sample.essay_assigned eq_refl eq_refl) as [Hrun _].
  assert (Hfail : is_success (rejectAssignment Sample.rejected "a1").2 = false).
  { destruct (is_success (rejectAssignment Sample.rejected "a1").2) eqn:Hs;
      [ | reflexivity].
    destruct Hiff as [Hcond _]. destruct (Hcond eq_refl) as (a & Ha & Hst).
    vm_compute in Ha. injection Ha as <-. discriminate Hst. }
  split; [exact Hrun | split; [exact Hfail | exact (Hkeep Hfail)]].
Defined.

(** ** Payment verification, continued *)

(** X9. Verification succeeds exactly when a reference is given, the
    gateway reports it with status success and names an assignment that
    exists; in every other case (no reference, gateway failure, another
    status, no assignment id, unknown assignment) nothing is written and
    no e-mail is sent. *)
Theorem verifyPaymentForAssignment_succeeds_iff (env : Env) (w : World)
    (reference : option string) :
  (is_success (verifyPaymentForAssignment env w reference).2 = true
   <-> exists ref v id,
         reference = Some ref /\ ref <> ""
         /\ verifyPayment env ref = Some v
         /\ v_status v = "success"
         /\ v_assignmentId v = Some id /\ id <> ""
         /\ is_Some (assignments w !! id))
  /\ (is_success (verifyPaymentForAssignment env w reference).2 = false ->
        (verifyPaymentForAssignment env w reference).1 = w).
Proof.
  unfold verifyPaymentForAssignment.
  destruct reference as [[|c ref]|].
  1, 3: split; [split; [discriminate | intros (r & v & i & Hr & Hne & _); congruence]
               | reflexivity].
  destruct (verifyPayment env (String c ref)) as [v|] eqn:Hv.
  2: { split; [split; [discriminate | ] | reflexivity].
       intros (r & v & i & [= <-] & _ & Hv' & _). congruence. }
  destruct (String.eqb (v_status v) "success") eqn:Hs.
  2: { apply String.eqb_neq in Hs.
       split; [split; [discriminate | ] | reflexivity].
       intros (r & v' & i & [= <-] & _ & Hv' & Hs' & _). congruence. }
  apply String.eqb_eq in Hs.
  destruct (v_assignmentId v) as [[|d id]|] eqn:Hid.
  1, 3: split; [split; [discriminate | ] | reflexivity];
        intros (r & v' & i & [= <-] & _ & Hv' & _ & Hi & Hne & _); congruence.
  unfold update_assignment.
  destruct (assignments w !! String d id) as [a|] eqn:Hget.
  - split; [split; [intros _ | reflexivity] | discriminate].
    exists (String c ref), v, (String d id).
    repeat split; auto; try discriminate; rewrite ?Hget; eauto.
  - split; [split; [discriminate | ] | reflexivity].
    intros (r & v' & i & [= <-] & _ & Hv' & _ & Hi & _ & [x Hx]). congruence.
Qed.

Lemma verifyPaymentForAssignment_succeeds_iff_witness :
  is_success (verifyPaymentForAssignment Sample.env Sample.completed
                (Some "ref-paid")).2 = true
  /\ (verifyPaymentForAssignment Sample.env Sample.completed
        (Some "ref-abandoned")).1 = Sample.completed.
Proof.
  destruct (verifyPaymentForAssignment_succeeds_iff Sample.env Sample.completed
              (Some "ref-paid")) as [Hiff _].
  destruct (verifyPaymentForAssignment_succeeds_iff Sample.env Sample.completed
              (Some "ref-abandoned")) as [_ Hkeep].
  split.
  - apply Hiff.
    exists "ref-paid", (mkVerification "success" (Some "a1")), "a1".
    repeat split; try reflexivity; try discriminate.
    exists Sample.essay_completed. reflexivity.
  - apply Hkeep. reflexivity.
Defined.

(** ** Deleting a tutor *)

Lemma submitted_by_false (userId : string) (m : gmap string Assignment.t) :
  submitted_by userId m = false
  <-> forall id a, m !! id = Some a -> Assignment.studentId a <> userId.
Proof.
  unfold submitted_by. split.
  - intros Hnone id a Hget Heq.
    assert (Hex : existsb (λ kv : string * Assignment.t,
                             String.eqb (Assignment.studentId kv.2) userId)
                    (map_to_list m) = true).
    { apply existsb_exists. exists (id, a). split.
      - apply list_elem_of_In. now apply elem_of_map_to_list.
      - simpl. now apply String.eqb_eq. }
    congruence.
  - intros Hall.
    destruct (existsb _ (map_to_list m)) eqn:Hex; [ | reflexivity].
    apply existsb_exists in Hex. destruct Hex as ([id a] & Hin & Heq).
    apply list_elem_of_In, elem_of_map_to_list in Hin.
    simpl in Heq. apply String.eqb_eq in Heq.
    exfalso. exact (Hall id a Hin Heq).
Qed.

(** X10. Deleting a tutor who has submitted no assignment removes the
    user, clears [assignedTutorId] on every assignment that named the
    tutor and changes nothing else in any row, so that no assignment
    refers to the deleted user while each keeps its status.  For a user
    who is missing or not a tutor the answer is 404, for a tutor who has
    submitted an assignment it is 500, and nothing is changed. *)
Theorem deleteTutor_outcome (w : World) (tutorId : string) :
  ((forall u, users w !! tutorId = Some u -> User.role u <> TUTOR) ->
     deleteTutor w tutorId = (w, Json 404 (Message "Tutor not found")))
  /\ (forall u,
        users w !! tutorId = Some u -> User.role u = TUTOR ->
        (submitted_by tutorId (assignments w) = true ->
           deleteTutor w tutorId = (w, went_wrong))
        /\ (submitted_by tutorId (assignments w) = false ->
              (deleteTutor w tutorId).2
              = Json 200 (Message "Tutor application rejected and deleted.")
              /\ users (deleteTutor w tutorId).1 = delete tutorId (users w)
              /\ (forall id a1,
                    assignments (deleteTutor w tutorId).1 !! id = Some a1 ->
                    Assignment.assignedTutorId a1 <> Some tutorId
                    /\ Assignment.studentId a1 <> tutorId)
              /\ (forall id a,
                    assignments w !! id = Some a ->
                    exists a1,
                      assignments (deleteTutor w tutorId).1 !! id = Some a1
                      /\ Assignment.status a1 = Assignment.status a
                      /\ Assignment.isPaid a1 = Assignment.isPaid a
                      /\ (Assignment.assignedTutorId a <> Some tutorId -> a1 = a)
                      /\ (Assignment.assignedTutorId a = Some tutorId ->
                            a1 = Assignment.set_assignedTutorId None a))
              /\ (forall id, assignments w !! id = None -> assignments (deleteTutor w tutorId).1 !! id = None))).
Proof.
  split.
  - intros Hnot. unfold deleteTutor.
    assert (Hnone : where_also (λ u, Role_eqb (User.role u) TUTOR)
                      (users w !! tutorId) = None).
    { apply where_also_None. intros u Hu. specialize (Hnot u Hu).
      destruct (User.role u); try reflexivity. now contradict Hnot. }
    now rewrite Hnone.
  - intros u Hu Hrole. unfold deleteTutor.
    assert (Hsome : where_also (λ u, Role_eqb (User.role u) TUTOR)
                      (users w !! tutorId) = Some u).
    { apply where_also_Some. split; [exact Hu | now rewrite Hrole]. }
    rewrite Hsome. split; intros Hsub; rewrite Hsub; [reflexivity | ].
    simpl. split; [reflexivity | split; [reflexivity | ]].
    pose proof (proj1 (submitted_by_false _ _) Hsub) as Hstudents.
    split; [ | split].
    + intros id a1. rewrite lookup_fmap.
      destruct (assignments w !! id) as [a|] eqn:Hget; simpl; [ | discriminate].
      intros [= <-]. unfold on_delete_set_null.
      destruct (is_tutor tutorId (Assignment.assignedTutorId a)) eqn:Hmine.
      * split; [discriminate | apply (Hstudents id a Hget)].
      * split; [ | apply (Hstudents id a Hget)].
        intros Heq. apply is_tutor_true in Heq. congruence.
    + intros id a Hget. rewrite lookup_fmap, Hget. simpl.
      eexists. split; [reflexivity | ]. unfold on_delete_set_null.
      destruct (is_tutor tutorId (Assignment.assignedTutorId a)) eqn:Hmine.
      * apply is_tutor_true in Hmine. repeat split; try reflexivity; congruence.
      * repeat split; try reflexivity.
        intros Heq. apply is_tutor_true in Heq. congruence.
    + intros id Hget. now rewrite lookup_fmap, Hget.
Qed.

Lemma deleteTutor_outcome_witness :
  users Sample.assigned !! "t1" = Some Sample.esi
  /\ (deleteTutor Sample.assigned "t1").2
     = Json 200 (Message "Tutor application rejected and deleted.")
  /\ users (deleteTutor Sample.assigned "t1").1 !! "t1" = None
  /\ (exists a1,
        assignments (deleteTutor Sample.assigned "t1").1 !! "a1" = Some a1
        /\ Assignment.status a1 = "Assigned"
        /\ a1 = Assignment.set_assignedTutorId None Sample.essay_assigned)
  /\ deleteTutor Sample.assigned "s1"
     = (Sample.assigned, Json 404 (Message "Tutor not found")).
Proof.
  destruct (deleteTutor_outcome Sample.assigned "t1") as [_ Htutor].
  destruct (deleteTutor_outcome Sample.assigned "s1") as [Hstudent _].
  destruct (Htutor Sample.esi eq_refl eq_refl) as [_ Hdo].
  destruct (Hdo eq_refl) as (Hr & Hu & _ & Hrows & _).
  split; [reflexivity | split; [exact Hr | split; [ | split]]].
  - rewrite Hu. apply lookup_delete_eq.
  - destruct (Hrows "a1" Sample.essay_assigned eq_refl)
      as (a1 & Ha1 & Hst & _ & _ & Hcleared).
    exists a1. split; [exact Ha1 | split; [exact Hst | ]].
    apply Hcleared. reflexivity.
  - apply Hstudent. intros u Hu'. vm_compute in Hu'. injection Hu' as <-.
    discriminate.
Defined.

(** ** What no request undoes *)

Lemma evolves_refl (a : Assignment.t) : evolves a a.
Proof. unfold evolves. tauto. Qed.

Lemma world_evolves_refl (w : World) : world_evolves w w.
Proof. intros id a Hget. exists a. split; [exact Hget | apply evolves_refl]. Qed.

Lemma world_evolves_sendEmail (w w1 : World) (e : Email) :
  world_evolves w w1 -> world_evolves w (sendEmail e w1).
Proof. intros H. exact H. Qed.

Lemma world_evolves_update (w : World) (id : string) (a a1 : Assignment.t) :
  assignments w !! id = Some a -> evolves a a1 ->
  world_evolves w (set_assignments (<[id := a1]> (assignments w)) w).
Proof.
  intros Hget Hev k b Hk. simpl. rewrite lookup_insert.
  destruct (decide (id = k)) as [<- | Hne].
  - exists a1. split; [reflexivity | ]. congruence.
  - exists b. split; [exact Hk | apply evolves_refl].
Qed.

Lemma world_evolves_create (w : World) (id : string) (a1 : Assignment.t) :
  assignments w !! id = None ->
  world_evolves w (set_assignments (<[id := a1]> (assignments w)) w).
Proof.
  intros Hfresh k b Hk. simpl. rewrite lookup_insert.
  destruct (decide (id = k)) as [<- | Hne]; [congruence | ].
  exists b. split; [exact Hk | apply evolves_refl].
Qed.

Lemma evolves_on_delete (userId : string) (a : Assignment.t) :
  evolves a (on_delete_set_null userId a).
Proof.
  unfold on_delete_set_null.
  destruct (is_tutor userId (Assignment.assignedTutorId a));
    unfold evolves; simpl; tauto.
Qed.

Lemma evolves_complete (fileUrl : Field) (now : Z) (a : Assignment.t) :
  evolves a (complete_data fileUrl now a).
Proof.
  unfold evolves, complete_data. destruct fileUrl; simpl; intuition congruence.
Qed.

Ltac evolves_row :=
  first [ apply evolves_refl | apply evolves_complete
        | unfold evolves; simpl; intuition congruence ].

Ltac keeps_rows :=
  run_handler;
  repeat apply world_evolves_sendEmail;
  first [ apply world_evolves_refl
        | eapply world_evolves_update; [eassumption | evolves_row]
        | apply world_evolves_create; assumption ].

Lemma route_world_evolves (env : Env) (req : Request) (w : World) :
  world_evolves w (route env req w).1.
Proof.
  destruct req; cbn [route]; unfold authMiddleware, roleMiddleware;
    repeat case_match; try apply world_evolves_refl.
  - unfold submitAssignment. keeps_rows.
  - unfold markAssignmentAsPaid. keeps_rows.
  - unfold getTutorPendingAssignments. keeps_rows.
  - unfold assignAssignmentToTutor, findFirst_tutor, assign_data, find_approved_tutor. keeps_rows.
  - unfold reviewAndSetPrice. keeps_rows.
  - unfold getAssignmentById. keeps_rows.
  - unfold completeAssignment. keeps_rows.
  - unfold downloadAssignment. keeps_rows.
  - unfold downloadSolutionFile. keeps_rows.
  - unfold rejectAssignment. keeps_rows.
  - unfold verifyPaymentForAssignment. keeps_rows.
  - unfold deleteTutor. run_handler; try apply world_evolves_refl.
    apply world_evolves_sendEmail. intros k b Hk. simpl.
    rewrite lookup_fmap, Hk. simpl. eexists. split; [reflexivity | ].
    apply evolves_on_delete.
Qed.

(** X11. No request deletes an assignment: after any request the row is
    still there, with the same student, title, description, specialty,
    submitted file, submission time and [paidAt]; a paid assignment is
    still paid, and a completion time that was set is still set. *)
Theorem rows_persist (env : Env) (req : Request) (w : World) (id : string)
    (a : Assignment.t) :
  assignments w !! id = Some a ->
  exists a1,
    assignments (route env req w).1 !! id = Some a1
    /\ Assignment.studentId a1 = Assignment.studentId a
    /\ Assignment.title a1 = Assignment.title a
    /\ Assignment.description a1 = Assignment.description a
    /\ Assignment.programSpecialty a1 = Assignment.programSpecialty a
    /\ Assignment.fileUrl a1 = Assignment.fileUrl a
    /\ Assignment.submittedAt a1 = Assignment.submittedAt a
    /\ Assignment.paidAt a1 = Assignment.paidAt a
    /\ (Assignment.isPaid a = true -> Assignment.isPaid a1 = true)
    /\ (Assignment.completedAt a <> None -> Assignment.completedAt a1 <> None).
Proof.
  intros Hget. destruct (route_world_evolves env req w id a Hget) as (a1 & Ha1 & Hev).
  exists a1. split; [exact Ha1 | exact Hev].
Qed.

Lemma rows_persist_witness :
  exists a1,
    assignments (route Sample.env (PUT_assign (Some "token-admin") "a1" (Text "t2"))
                   Sample.paid).1 !! "a1" = Some a1
    /\ Assignment.studentId a1 = "s1"
    /\ Assignment.isPaid a1 = true
    /\ Assignment.completedAt a1 <> None.
Proof.
  destruct (rows_persist Sample.env (PUT_assign (Some "token-admin") "a1" (Text "t2"))
              Sample.paid "a1" Sample.essay_paid eq_refl)
    as (a1 & Ha1 & Hs & _ & _ & _ & _ & _ & _ & Hp & Hc).
  exists a1. split; [exact Ha1 | split; [exact Hs | split]].
  - apply Hp. reflexivity.
  - apply Hc. discriminate.
Defined.

(** ** What holds of every row the server produces *)

Ltac row_facts :=
  constructor; simpl in *;
  try (intros; discriminate);
  try (intros; congruence);
  auto 10.

Lemma lifecycle_row_new (studentId title description programSpecialty fileUrl : string)
    (now : Z) :
  lifecycle_row (Assignment.mk studentId title description programSpecialty fileUrl
                   "Pending" now None None None false None None).
Proof. row_facts. Qed.

Lemma lifecycle_row_open (a : Assignment.t) :
  lifecycle_row a -> lifecycle_row (Assignment.set_status "Assigned" a).
Proof. intros []. row_facts. Qed.

Lemma lifecycle_row_assign (t : string) (a : Assignment.t) :
  lifecycle_row a ->
  lifecycle_row (Assignment.set_status "Assigned"
                   (Assignment.set_assignedTutorId (Some t) a)).
Proof. intros []. row_facts. Qed.

Lemma lifecycle_row_price (price : JsNum) (a : Assignment.t) :
  isNaN price || le_zero price = false ->
  lifecycle_row a ->
  lifecycle_row (Assignment.set_tutorCharge (Float_column price)
                   (Assignment.set_status "In Progress" a)).
Proof.
  intros Hpos []. apply price_accepted in Hpos as [-> | (p & -> & Hp)]; row_facts.
Qed.

Lemma lifecycle_row_complete (fileUrl : Field) (now : Z) (a : Assignment.t) :
  lifecycle_row a -> lifecycle_row (complete_data fileUrl now a).
Proof. intros []. unfold complete_data. destruct fileUrl; row_facts. Qed.

Lemma lifecycle_row_reject (a : Assignment.t) :
  lifecycle_row a -> lifecycle_row (Assignment.set_status "Rejected" a).
Proof. intros []. row_facts. Qed.

Lemma lifecycle_row_paid (a : Assignment.t) :
  lifecycle_row a -> lifecycle_row (Assignment.set_isPaid true a).
Proof. intros []. row_facts. Qed.

Lemma lifecycle_row_on_delete (userId : string) (a : Assignment.t) :
  lifecycle_row a -> lifecycle_row (on_delete_set_null userId a).
Proof.
  intros Ha. unfold on_delete_set_null.
  destruct (is_tutor userId (Assignment.assignedTutorId a)); [ | exact Ha].
  destruct Ha. row_facts. intros Hp. destruct (row_pending0 Hp) as (_ & ? & ? & ?).
  auto.
Qed.

#[local] Hint Resolve lifecycle_row_new lifecycle_row_open lifecycle_row_assign
  lifecycle_row_price lifecycle_row_complete lifecycle_row_reject
  lifecycle_row_paid : lifecycle.

Ltac keeps_lifecycle Hw :=
  run_handler;
  repeat apply every_assignment_sendEmail;
  first [ exact Hw
        | apply every_assignment_insert; [exact Hw | ];
          try match goal with
              | H : assignments _ !! _ = Some ?a |- _ => pose proof (Hw _ _ H)
              end;
          eauto with lifecycle ].

Lemma route_keeps_lifecycle_rows (env : Env) (req : Request) (w : World) :
  every_assignment lifecycle_row w ->
  every_assignment lifecycle_row (route env req w).1.
Proof.
  intros Hw.
  destruct req; cbn [route]; unfold authMiddleware, roleMiddleware;
    repeat case_match; try exact Hw.
  - unfold submitAssignment. keeps_lifecycle Hw.
  - unfold markAssignmentAsPaid. keeps_lifecycle Hw.
  - unfold getTutorPendingAssignments. keeps_lifecycle Hw.
  - unfold assignAssignmentToTutor, findFirst_tutor, assign_data, find_approved_tutor. keeps_lifecycle Hw.
  - unfold reviewAndSetPrice. keeps_lifecycle Hw.
  - unfold getAssignmentById. keeps_lifecycle Hw.
  - unfold completeAssignment. keeps_lifecycle Hw.
  - unfold downloadAssignment. keeps_lifecycle Hw.
  - unfold downloadSolutionFile. keeps_lifecycle Hw.
  - unfold rejectAssignment. keeps_lifecycle Hw.
  - unfold verifyPaymentForAssignment. keeps_lifecycle Hw.
  - unfold deleteTutor. run_handler; try exact Hw.
    apply every_assignment_sendEmail. intros k b. simpl.
    rewrite lookup_fmap. destruct (assignments w !! k) as [a|] eqn:Hget; simpl.
    + intros [= <-]. apply lifecycle_row_on_delete. exact (Hw _ _ Hget).
    + discriminate.
Qed.

Lemma reachable_lifecycle_rows (env : Env) (w : World) :
  reachable env w -> every_assignment lifecycle_row w.
Proof.
  induction 1 as [us | w req Hreach IH].
  - intros id a Hget. simpl in Hget. rewrite lookup_empty in Hget. discriminate.
  - now apply route_keeps_lifecycle_rows.
Qed.

Lemma story_reachable :
  reachable Sample.env Story.submitted
  /\ reachable Sample.env Story.priced
  /\ reachable Sample.env Story.settled.
Proof.
  assert (H1 : reachable Sample.env Story.submitted)
    by (apply reachable_request, reachable_start).
  assert (H3 : reachable Sample.env Story.priced)
    by (do 2 apply reachable_request; exact H1).
  split; [exact H1 | split; [exact H3 | ]].
  do 2 apply reachable_request. exact H3.
Qed.

Lemma story_rows :
  assignments Story.submitted !! "a1" = Some Sample.essay_pending
  /\ assignments Story.priced !! "a1" = Some Sample.essay_in_progress
  /\ assignments Story.settled !! "a1" = Some Sample.essay_paid.
Proof. repeat split; vm_compute; reflexivity. Qed.

(** X12. [paidAt] is never written: in every world the server reaches,
    every assignment, paid or not, has no payment time. *)
Theorem paidAt_is_never_written (env : Env) (w : World) (id : string)
    (a : Assignment.t) :
  reachable env w ->
  assignments w !! id = Some a ->
  Assignment.paidAt a = None.
Proof.
  intros Hreach Hget.
  exact (row_paidAt _ (reachable_lifecycle_rows env w Hreach id a Hget)).
Qed.

Lemma paidAt_is_never_written_witness :
  Assignment.isPaid Sample.essay_paid = true
  /\ Assignment.paidAt Sample.essay_paid = None.
Proof.
  split; [reflexivity | ].
  exact (paidAt_is_never_written Sample.env Story.settled "a1" Sample.essay_paid
           (proj2 (proj2 story_reachable)) (proj2 (proj2 story_rows))).
Defined.

(** X13. In every world the server reaches, the status of every
    assignment is one of Pending, Assigned, In Progress, Completed and
    Rejected. *)
Theorem status_is_known (env : Env) (w : World) (id : string) (a : Assignment.t) :
  reachable env w ->
  assignments w !! id = Some a ->
  In (Assignment.status a) statuses.
Proof.
  intros Hreach Hget.
  exact (row_status _ (reachable_lifecycle_rows env w Hreach id a Hget)).
Qed.

Lemma status_is_known_witness :
  In (Assignment.status Sample.essay_in_progress) statuses.
Proof.
  exact (status_is_known Sample.env Story.priced "a1" Sample.essay_in_progress
           (proj1 (proj2 story_reachable)) (proj1 (proj2 story_rows))).
Defined.

(** X14. In every world the server reaches, a charge that is set is
    positive. *)
Theorem charge_is_positive (env : Env) (w : World) (id : string) (a : Assignment.t)
    (q : Q) :
  reachable env w ->
  assignments w !! id = Some a ->
  Assignment.tutorCharge a = Some q ->
  (0 < q)%Q.
Proof.
  intros Hreach Hget.
  exact (row_charge _ (reachable_lifecycle_rows env w Hreach id a Hget) q).
Qed.

Lemma charge_is_positive_witness :
  Assignment.tutorCharge Sample.essay_in_progress = Some (50 # 1)
  /\ (0 < 50 # 1)%Q.
Proof.
  split; [reflexivity | ].
  exact (charge_is_positive Sample.env Story.priced "a1" Sample.essay_in_progress
           (50 # 1) (proj1 (proj2 story_reachable)) (proj1 (proj2 story_rows))
           eq_refl).
Defined.

(** X15. In every world the server reaches, an assignment that is
    Completed, or that has a completed file, has a completion time. *)
Theorem completed_has_time (env : Env) (w : World) (id : string) (a : Assignment.t) :
  reachable env w ->
  assignments w !! id = Some a ->
  Assignment.status a = "Completed" \/ Assignment.completedFileUrl a <> None ->
  Assignment.completedAt a <> None.
Proof.
  intros Hreach Hget.
  destruct (reachable_lifecycle_rows env w Hreach id a Hget).
  intros [Hst | Hfile]; auto.
Qed.

Lemma completed_has_time_witness :
  Assignment.status Sample.essay_paid = "Completed"
  /\ Assignment.completedAt Sample.essay_paid <> None.
Proof.
  split; [reflexivity | ].
  apply (completed_has_time Sample.env Story.settled "a1" Sample.essay_paid
           (proj2 (proj2 story_reachable)) (proj2 (proj2 story_rows))).
  left. reflexivity.
Defined.

(** X16. In every world the server reaches, an assignment that is still
    Pending has no tutor, no charge, no completed file and no completion
    time: nothing but payment touches an assignment without moving it out
    of Pending, and nothing moves one back. *)
Theorem pending_is_untouched (env : Env) (w : World) (id : string) (a : Assignment.t) :
  reachable env w ->
  assignments w !! id = Some a ->
  Assignment.status a = "Pending" ->
  Assignment.assignedTutorId a = None
  /\ Assignment.tutorCharge a = None
  /\ Assignment.completedFileUrl a = None
  /\ Assignment.completedAt a = None.
Proof.
  intros Hreach Hget.
  exact (row_pending _ (reachable_lifecycle_rows env w Hreach id a Hget)).
Qed.

Lemma pending_is_untouched_witness :
  Assignment.status Sample.essay_pending = "Pending"
  /\ Assignment.assignedTutorId Sample.essay_pending = None
  /\ Assignment.tutorCharge Sample.essay_pending = None.
Proof.
  split; [reflexivity | ].
  destruct (pending_is_untouched Sample.env Story.submitted "a1" Sample.essay_pending
              (proj1 story_reachable) (proj1 story_rows) eq_refl)
    as (Ht & Hc & _).
  split; assumption.
Defined.

(** ** The foreign keys *)

Lemma references_hold_sendEmail (e : Email) (w : World) :
  references_hold w -> references_hold (sendEmail e w).
Proof. intros H. exact H. Qed.

Lemma references_hold_insert (w : World) (id : string) (a1 : Assignment.t) :
  references_hold w ->
  is_Some (users w !! Assignment.studentId a1) ->
  (forall t, Assignment.assignedTutorId a1 = Some t -> is_Some (users w !! t)) ->
  references_hold (set_assignments (<[id := a1]> (assignments w)) w).
Proof.
  intros Hw Hs Ht k b. simpl. rewrite lookup_insert.
  destruct (decide (id = k)); [intros [= <-]; split; assumption | apply Hw].
Qed.

Ltac keeps_references Hw :=
  run_handler;
  repeat apply references_hold_sendEmail;
  first [ exact Hw
        | apply references_hold_insert; [exact Hw | | ];
          try match goal with
              | H : assignments _ !! _ = Some ?a |- _ =>
                  destruct (Hw _ _ H) as [? ?]
              end;
          simpl; eauto; try (intros ? ?; simplify_eq; eauto) ].

Lemma route_keeps_references (env : Env) (req : Request) (w : World) :
  references_hold w -> references_hold (route env req w).1.
Proof.
  intros Hw.
  destruct req; cbn [route]; unfold authMiddleware, roleMiddleware;
    repeat case_match; try exact Hw.
  - unfold submitAssignment. keeps_references Hw.
  - unfold markAssignmentAsPaid. keeps_references Hw.
  - unfold getTutorPendingAssignments. keeps_references Hw.
  - unfold assignAssignmentToTutor, findFirst_tutor, assign_data, find_approved_tutor. keeps_references Hw.
  - unfold reviewAndSetPrice. keeps_references Hw.
  - unfold getAssignmentById. keeps_references Hw.
  - unfold completeAssignment, complete_data. keeps_references Hw.
  - unfold downloadAssignment. keeps_references Hw.
  - unfold downloadSolutionFile. keeps_references Hw.
  - unfold rejectAssignment. keeps_references Hw.
  - unfold verifyPaymentForAssignment. keeps_references Hw.
  - unfold deleteTutor. run_handler; try exact Hw.
    apply references_hold_sendEmail. intros k b. simpl.
    rewrite lookup_fmap. destruct (assignments w !! k) as [a|] eqn:Hget; simpl;
      [ | discriminate].
    intros [= <-]. destruct (Hw _ _ Hget) as [Hs Ht].
    match goal with
    | H : submitted_by _ _ = false |- _ =>
        pose proof (proj1 (submitted_by_false _ _) H k a Hget) as Hne
    end.
    unfold on_delete_set_null.
    destruct (is_tutor tutorId (Assignment.assignedTutorId a)) eqn:Hmine; simpl.
    + split; [now rewrite lookup_delete_ne | intros t' Habs; discriminate].
    + split; [now rewrite lookup_delete_ne | ].
      intros t' Hta. rewrite lookup_delete_ne; [now apply Ht | ].
      intros <-. rewrite Hta in Hmine. simpl in Hmine.
      now rewrite String.eqb_refl in Hmine.
Qed.

(** X17. The foreign keys hold in every world the server reaches: the
    student of every assignment, and its tutor when it has one, are users
    at that time, also after tutors have been deleted. *)
Theorem references_always_hold (env : Env) (w : World) (id : string)
    (a : Assignment.t) :
  reachable env w ->
  assignments w !! id = Some a ->
  is_Some (users w !! Assignment.studentId a)
  /\ forall t, Assignment.assignedTutorId a = Some t -> is_Some (users w !! t).
Proof.
  intros Hreach. revert id a.
  induction Hreach as [us | w req Hreach IH].
  - intros id a Hget. simpl in Hget. rewrite lookup_empty in Hget. discriminate.
  - now apply route_keeps_references.
Qed.

Lemma references_always_hold_witness :
  is_Some (users Story.priced !! "s1") /\ is_Some (users Story.priced !! "t1").
Proof.
  destruct (references_always_hold Sample.env Story.priced "a1"
              Sample.essay_in_progress (proj1 (proj2 story_reachable))
              (proj1 (proj2 story_rows))) as [Hs Ht].
  split; [exact Hs | apply Ht; reflexivity].
Defined.

(** ** The listings *)

Lemma findMany_In (p : Assignment.t -> bool) (w : World) (id : string)
    (a : Assignment.t) :
  In (id, a) (findMany p w) <-> assignments w !! id = Some a /\ p a = true.
Proof.
  unfold findMany. rewrite filter_In, <- list_elem_of_In, elem_of_map_to_list.
  reflexivity.
Qed.

Lemma listed_In (view : string -> Assignment.t -> AssignmentJson)
    (p : Assignment.t -> bool) (w : World) (j : AssignmentJson) :
  In j (map (λ kv, view kv.1 kv.2) (findMany p w))
  <-> exists id a, j = view id a /\ assignments w !! id = Some a /\ p a = true.
Proof.
  rewrite in_map_iff. split.
  - intros ([id a] & <- & Hin). apply findMany_In in Hin. exists id, a. tauto.
  - intros (id & a & -> & Hget & Hp). exists (id, a).
    split; [reflexivity | apply findMany_In; tauto].
Qed.

(** X18. The queue of open assignments answers 401 to a caller whose
    token carries no program specialty, as is the case of every token the
    login handlers sign.  For a caller with an id and a specialty it lists
    exactly the assignments of that specialty that have the status
    Assigned and no tutor, each with its student. *)
Theorem getTutorPendingAssignments_lists (w : World) (user : option ReqUser.t) :
  (truthy (user ≫= ReqUser.programSpecialty) = false ->
     getTutorPendingAssignments w user = (w, Json 401 (Message "Unauthorized.")))
  /\ (forall programSpecialty,
        truthy (user ≫= ReqUser.id) = true ->
        user ≫= ReqUser.programSpecialty = Some programSpecialty ->
        programSpecialty <> "" ->
        exists listed,
          getTutorPendingAssignments w user = (w, Json 200 (ManyAssignments listed))
          /\ forall j,
               In j listed
               <-> exists id a,
                     j = with_Student w id a
                     /\ assignments w !! id = Some a
                     /\ Assignment.programSpecialty a = programSpecialty
                     /\ Assignment.status a = "Assigned"
                     /\ Assignment.assignedTutorId a = None).
Proof.
  unfold getTutorPendingAssignments. split.
  - intros ->. now rewrite andb_false_r.
  - intros ps -> Hps Hne. rewrite Hps.
    apply truthy_Some in Hne. rewrite Hne. simpl.
    eexists. split; [reflexivity | ].
    intros j. rewrite in_map_iff. split.
    + intros ([id a] & <- & Hin).
      apply list_elem_of_In, list_elem_of_filter in Hin. destruct Hin as [Hopen Hin].
      apply elem_of_map_to_list in Hin. simpl in Hopen.
      unfold open_for in Hopen. apply andb_true_iff in Hopen as [Hopen Hnone].
      apply andb_true_iff in Hopen as [Hspec Hst].
      apply String.eqb_eq in Hspec, Hst.
      exists id, a. repeat split; auto.
      destruct (Assignment.assignedTutorId a); [discriminate | reflexivity].
    + intros (id & a & -> & Hget & Hspec & Hst & Hnone). exists (id, a).
      split; [reflexivity | ].
      apply list_elem_of_In, list_elem_of_filter. split.
      * simpl. unfold open_for. rewrite Hspec, Hst, Hnone.
        now rewrite String.eqb_refl.
      * now apply elem_of_map_to_list.
Qed.

Lemma getTutorPendingAssignments_lists_witness :
  getTutorPendingAssignments Sample.assigned Sample.as_esi
  = (Sample.assigned, Json 401 (Message "Unauthorized."))
  /\ exists listed,
       getTutorPendingAssignments (assignAssignment Sample.pending "a1").1
         (Some (ReqUser.mk (Some "t2") "TUTOR" (Some "yaw@tutors.test")
                  (Some "Economics")))
       = ((assignAssignment Sample.pending "a1").1, Json 200 (ManyAssignments listed))
       /\ In (with_Student (assignAssignment Sample.pending "a1").1 "a1"
                (Assignment.set_status "Assigned" Sample.essay_pending)) listed.
Proof.
  destruct (getTutorPendingAssignments_lists Sample.assigned Sample.as_esi)
    as [Hnone _].
  destruct (getTutorPendingAssignments_lists (assignAssignment Sample.pending "a1").1
              (Some (ReqUser.mk (Some "t2") "TUTOR" (Some "yaw@tutors.test")
                       (Some "Economics")))) as [_ Hsome].
  split; [apply Hnone; reflexivity | ].
  destruct (Hsome "Economics" eq_refl eq_refl) as (listed & Hrun & Hin);
    [discriminate | ].
  exists listed. split; [exact Hrun | ].
  apply Hin. eexists. eexists. split; [reflexivity | ].
  split; [vm_compute; reflexivity | repeat split].
Defined.



(** X20. The administrator's listing filters by the status of the query
    when it is given and not empty, and lists every assignment otherwise;
    the pending listing is the one for the status Pending. *)
Theorem status_listings (w : World) (status : option string) :
  (exists listed,
     getAllAssignments w status = (w, Json 200 (ManyAssignments listed))
     /\ forall j,
          In j listed
          <-> exists id a,
                j = with_Student_Tutor w id a
                /\ assignments w !! id = Some a
                /\ (truthy status = true -> status = Some (Assignment.status a)))
  /\ (exists listed,
        getPendingAssignments w = (w, Json 200 (ManyAssignments listed))
        /\ forall j,
             In j listed
             <-> exists id a,
                   j = with_Student w id a
                   /\ assignments w !! id = Some a
                   /\ Assignment.status a = "Pending").
Proof.
  split.
  - eexists. split; [reflexivity | ]. intros j.
    rewrite (listed_In (with_Student_Tutor w)).
    assert (Hfilter : forall a, status_filter status a = true
                                <-> (truthy status = true ->
                                     status = Some (Assignment.status a))).
    { intros a. unfold status_filter.
      destruct status as [[|c s]|]; cbn -[String.eqb];
        try (split; [intros _ H; discriminate H | reflexivity]).
      rewrite String.eqb_eq. split; [intros -> _; reflexivity | ].
      intros H. specialize (H eq_refl). congruence. }
    split; intros (id & a & Hj & Hget & Hp); exists id, a;
      (split; [exact Hj | split; [exact Hget | now apply Hfilter]]).
  - eexists. split; [reflexivity | ]. intros j.
    rewrite (listed_In (with_Student w)).
    split; intros (id & a & Hj & Hget & Hp); exists id, a;
      (split; [exact Hj | split; [exact Hget | now apply String.eqb_eq]]).
Qed.

(** ** Approving a tutor *)

(** X21. Approval succeeds exactly for a tutor who is not yet approved:
    it sets [isApproved], keeps the tutor's other columns, the other users
    and all assignments, and sends one e-mail to the tutor.  A second
    approval is refused with 400 and changes nothing; a user who is
    missing or not a tutor gets 404.  An assignment can be routed to the
    tutor after the approval and not before. *)
Theorem approveTutor_outcome (env : Env) (w : World) (tutorId : string) (u : User.t) :
  users w !! tutorId = Some u ->
  (User.role u <> TUTOR -> approveTutor w tutorId = (w, Json 404 (Message "Tutor not found")))
  /\ (User.role u = TUTOR -> User.isApproved u = true ->
        approveTutor w tutorId = (w, Json 400 (Message "Tutor is already approved")))
  /\ (User.role u = TUTOR -> User.isApproved u = false ->
        exists w1 body,
          approveTutor w tutorId = (w1, Json 200 (Message "Tutor approved successfully!"))
          /\ users w1 = <[tutorId := set_isApproved true u]> (users w)
          /\ assignments w1 = assignments w
          /\ outbox w1
             = (outbox w ++ [mkEmail (User.email u) "Your Tutor Account is Approved!" body])%list
          /\ approveTutor w1 tutorId
             = (w1, Json 400 (Message "Tutor is already approved"))
          /\ forall id a,
               assignments w !! id = Some a ->
               is_success (assignAssignmentToTutor env w id (Text tutorId)).2 = false
               /\ is_success (assignAssignmentToTutor env w1 id (Text tutorId)).2
                  = true).
Proof.
  intros Hu.
  assert (Hnot : User.role u <> TUTOR ->
                 approveTutor w tutorId = (w, Json 404 (Message "Tutor not found"))).
  { intros Hrole. unfold approveTutor. rewrite Hu. simpl.
    destruct (User.role u); try reflexivity. now contradict Hrole. }
  assert (Hdone : forall w' u',
             users w' !! tutorId = Some u' ->
             User.role u' = TUTOR -> User.isApproved u' = true ->
             approveTutor w' tutorId
             = (w', Json 400 (Message "Tutor is already approved"))).
  { intros w' u' Hu' Hrole Happ. unfold approveTutor. rewrite Hu'. simpl.
    rewrite Hrole. simpl. now rewrite Happ. }
  split; [exact Hnot | split; [now apply Hdone | ]].
  intros Hrole Hwait.
  assert (Hrun : approveTutor w tutorId
                 = (sendEmail (mkEmail (User.email u) "Your Tutor Account is Approved!"
                      "Congratulations! Your tutor account has been approved. You can now log in and start receiving assignments.")
                      (mkWorld (assignments w)
                         (<[tutorId := set_isApproved true u]> (users w)) (outbox w)),
                    Json 200 (Message "Tutor approved successfully!"))).
  { unfold approveTutor. rewrite Hu. simpl. rewrite Hrole. simpl. now rewrite Hwait. }
  do 2 eexists. split; [exact Hrun | ]. simpl.
  split; [reflexivity | split; [reflexivity | split; [reflexivity | split]]].
  - apply (Hdone _ (set_isApproved true u)); [apply lookup_insert_eq | exact Hrole | reflexivity].
  - intros id a Hget. split.
    + assert (Hnone : find_approved_tutor w tutorId = None).
      { apply find_approved_tutor_None. right. exists u. auto. }
      unfold assignAssignmentToTutor, findFirst_tutor. now rewrite Hget, Hnone.
    + unfold assignAssignmentToTutor, findFirst_tutor, find_approved_tutor,
        approved_tutor, update_assignment.
      simpl. rewrite Hget, lookup_insert_eq. simpl. now rewrite Hrole.
Qed.

Lemma approveTutor_outcome_witness :
  users Sample.pending !! "t3" = Some Sample.abena
  /\ is_success (assignAssignmentToTutor Sample.env Sample.pending "a1"
                   (Text "t3")).2 = false
  /\ is_success (assignAssignmentToTutor Sample.env
                   (approveTutor Sample.pending "t3").1 "a1" (Text "t3")).2 = true
  /\ approveTutor (approveTutor Sample.pending "t3").1 "t3"
     = ((approveTutor Sample.pending "t3").1,
        Json 400 (Message "Tutor is already approved")).
Proof.
  assert (Hu : users Sample.pending !! "t3" = Some Sample.abena) by reflexivity.
  destruct (approveTutor_outcome Sample.env Sample.pending "t3" _ Hu)
    as (_ & _ & Hdo).
  destruct (Hdo eq_refl eq_refl) as (w1 & body & Hrun & _ & _ & _ & Hagain & Hassign).
  destruct (Hassign "a1" Sample.essay_pending eq_refl) as [Hbefore Hafter].
  rewrite Hrun. simpl.
  split; [exact Hu | split; [exact Hbefore | split; [exact Hafter | exact Hagain]]].
Defined.

(** ** The assignment router *)

Ltac no_empty_segment :=
  repeat match goal with
         | H : negb (String.eqb ?s "") && true = false |- _ =>
             rewrite andb_true_r in H
         | H : negb (String.eqb ?s "") = false |- _ =>
             apply negb_false_iff, String.eqb_eq in H; subst s
         end.

(** X22. Routes are tried in the order of their registration, and the
    route that reads one assignment by id comes before the tutor's and the
    student's own listings: a GET of one path segment other than
    [pending] and [tutor-pending] is served by the read-by-id handler,
    [tutor] and [student] included.  No request reaches the two listing
    handlers, the paginated listing, or the second registrations of the
    gated download and of mark-paid. *)
Theorem shadowed_routes (m : Method) (path : list string) :
  (forall n l,
     dispatch m path = Some (n, l) ->
     l_handler l <> H_getTutorAssignments
     /\ l_handler l <> H_getStudentAssignments
     /\ l_handler l <> H_paginatedAssignments
     /\ n <> 14%nat /\ n <> 16%nat)
  /\ (forall segment,
        m = GET -> path = [segment] -> segment <> "" ->
        lower segment <> "pending" -> lower segment <> "tutor-pending" ->
        dispatch m path
        = Some (7%nat, mkLayer GET [Param "assignmentId"] None H_getAssignmentById)).
Proof.
  split.
  - intros n l. unfold dispatch, assignmentRoutes.
    destruct m; destruct path as [|s1 [|s2 [|s3 [|s4 rest]]]];
      cbn -[String.eqb lower];
      rewrite ?andb_false_r, ?andb_true_r; cbn -[String.eqb lower];
      repeat case_match; intros [= <- <-]; simpl;
      repeat split; try discriminate;
      no_empty_segment;
      repeat match goal with
             | H : context [lower ""] |- _ => vm_compute in H
             end;
      discriminate.
  - intros segment -> -> Hne Hp Ht. unfold dispatch, assignmentRoutes.
    cbn -[String.eqb lower]. change (lower "pending") with "pending".
    change (lower "tutor-pending") with "tutor-pending".
    assert (H1 : String.eqb "pending" (lower segment) = false)
      by (apply String.eqb_neq; congruence).
    assert (H2 : String.eqb "tutor-pending" (lower segment) = false)
      by (apply String.eqb_neq; congruence).
    assert (H3 : String.eqb segment "" = false) by now apply String.eqb_neq.
    now rewrite H1, H2, H3.
Qed.

Lemma shadowed_routes_witness :
  dispatch GET ["tutor"]
  = Some (7%nat, mkLayer GET [Param "assignmentId"] None H_getAssignmentById)
  /\ dispatch GET ["student"]
     = Some (7%nat, mkLayer GET [Param "assignmentId"] None H_getAssignmentById)
  /\ l_handler (mkLayer GET [Param "assignmentId"] None H_getAssignmentById)
     <> H_getTutorAssignments.
Proof.
  destruct (shadowed_routes GET ["tutor"]) as [Hnever Htutor].
  destruct (shadowed_routes GET ["student"]) as [_ Hstudent].
  assert (H1 : dispatch GET ["tutor"]
               = Some (7%nat, mkLayer GET [Param "assignmentId"] None H_getAssignmentById))
    by (apply (Htutor "tutor"); try reflexivity; discriminate).
  split; [exact H1 | split].
  - apply (Hstudent "student"); try reflexivity; discriminate.
  - destruct (Hnever _ _ H1) as [Hne _]. exact Hne.
Defined.

(** ** Initialising a payment *)

(** X25. Initialising a payment never changes the world.  It asks the
    gateway for the binary64 product of the charge and one hundred, in
    GHS, with the assignment id as metadata, and answers with the
    gateway's authorization URL, exactly when the token has an e-mail, the
    assignment exists, belongs to the caller (when the token carries an
    id) and has a charge other than zero; whether the assignment is
    completed or already paid plays no part. *)
Theorem initializePaymentForAssignment_outcome (post : Transaction -> option string)
    (w : World) (user : option ReqUser.t) (id : string) :
  (initializePaymentForAssignment post w user id).1 = w
  /\ forall url,
       (initializePaymentForAssignment post w user id).2
       = PaymentInitialized "Payment initialized successfully." url
       <-> exists email a charge,
             user ≫= ReqUser.email = Some email /\ email <> ""
             /\ assignments w !! id = Some a
             /\ where_eq (user ≫= ReqUser.id) (Assignment.studentId a) = true
             /\ Assignment.tutorCharge a = Some charge
             /\ ~ (charge == 0)%Q
             /\ post (mkTransaction email (double_mul charge 100) "GHS" id)
                = Some url.
Proof.
  unfold initializePaymentForAssignment, initializePayment.
  destruct (user ≫= ReqUser.email) as [[|c email]|] eqn:Hmail.
  1, 3: split; [reflexivity | ]; intros url;
        (split; [discriminate | intros (e & a & q & He & Hne & _); congruence]).
  destruct (assignments w !! id) as [a|] eqn:Hget; simpl.
  2: { split; [reflexivity | ]. intros url.
       split; [discriminate | intros (e & a & q & _ & _ & Ha & _); discriminate]. }
  destruct (where_eq (user ≫= ReqUser.id) (Assignment.studentId a)) eqn:Hown.
  2: { split; [reflexivity | ]. intros url.
       split; [discriminate | ].
       intros (e & a' & q & _ & _ & [= <-] & Ho & _).
       exfalso. pose proof (eq_trans (eq_sym Ho) Hown) as Habs. discriminate Habs. }
  destruct (Assignment.tutorCharge a) as [charge|] eqn:Hcharge.
  2: { split; [reflexivity | ]. intros url.
       split; [discriminate | ].
       intros (e & a' & q & _ & _ & [= <-] & _ & Hq & _). congruence. }
  destruct (Qeq_bool charge 0) eqn:Hzero.
  { split; [reflexivity | ]. intros url. split; [discriminate | ].
    intros (e & a' & q & _ & _ & [= <-] & _ & Hq & Hnz & _).
    assert (q = charge) as -> by congruence.
    apply Qeq_bool_iff in Hzero. contradiction. }
  destruct (post _) as [u|] eqn:Hpost.
  - split; [reflexivity | ]. intros url. split.
    + intros [= <-]. exists (String c email), a, charge.
      repeat split; auto; try discriminate.
      intros Hq. apply Qeq_bool_iff in Hq. congruence.
    + intros (e & a' & q & [= <-] & _ & [= <-] & _ & Hq & _ & Hp).
      assert (q = charge) as -> by congruence.
      pose proof (eq_trans (eq_sym Hp) Hpost) as Heq. injection Heq as ->.
      reflexivity.
  - split; [reflexivity | ]. intros url. split; [discriminate | ].
    intros (e & a' & q & [= <-] & _ & [= <-] & _ & Hq & _ & Hp).
    assert (q = charge) as -> by congruence.
    pose proof (eq_trans (eq_sym Hp) Hpost) as Heq. discriminate Heq.
Qed.

Lemma initializePaymentForAssignment_outcome_witness :
  (initializePaymentForAssignment
     (λ tx, match tx_amount tx with
            | Fin q => if Qeq_bool q (5000 # 1) then Some "https://pay.test/x" else None
            | _ => None
            end)
     Sample.paid Sample.as_ama "a1").2
  = PaymentInitialized "Payment initialized successfully." "https://pay.test/x"
  /\ double_of_Q (7 # 100) = Fin (1261007895663739 # 18014398509481984)
  /\ (initializePaymentForAssignment
        (λ tx, match tx_amount tx with
               | Fin q =>
                   if Qeq_bool q (7881299347898369 # 1125899906842624)
                   then Some "https://pay.test/y" else None
               | _ => None
               end)
        (mkWorld
           (<["a1" := Sample.essay "In Progress" (Some "t1")
                        (Some (1261007895663739 # 18014398509481984))
                        false None None]> ∅)
           Sample.people [])
        Sample.as_ama "a1").2
     = PaymentInitialized "Payment initialized successfully." "https://pay.test/y".
Proof.
  destruct (initializePaymentForAssignment_outcome
              (λ tx, match tx_amount tx with
                     | Fin q =>
                         if Qeq_bool q (5000 # 1) then Some "https://pay.test/x"
                         else None
                     | _ => None
                     end)
              Sample.paid Sample.as_ama "a1") as [_ Hiff].
  destruct (initializePaymentForAssignment_outcome
              (λ tx, match tx_amount tx with
                     | Fin q =>
                         if Qeq_bool q (7881299347898369 # 1125899906842624)
                         then Some "https://pay.test/y" else None
                     | _ => None
                     end)
              (mkWorld
                 (<["a1" := Sample.essay "In Progress" (Some "t1")
                              (Some (1261007895663739 # 18014398509481984))
                              false None None]> ∅)
                 Sample.people [])
              Sample.as_ama "a1") as [_ Hcents].
  split; [ | split; [vm_compute; reflexivity | ]].
  - apply Hiff.
    exists "ama@students.test", Sample.essay_paid, (50 # 1).
    repeat split; try reflexivity; discriminate.
  - apply Hcents.
    exists "ama@students.test",
      (Sample.essay "In Progress" (Some "t1")
         (Some (1261007895663739 # 18014398509481984)) false None None),
      (1261007895663739 # 18014398509481984).
    repeat split; try reflexivity; discriminate.
Defined.

(** ** The lifecycle, end to end *)

Lemma submitAssignment_ok (env : Env) (w : World) (user : option ReqUser.t)
    (title description programSpecialty f fileUrl uuid sid : string) (now : Z)
    (s : User.t) :
  user ≫= ReqUser.id = Some sid -> sid <> "" ->
  assignments w !! uuid = None ->
  users w !! sid = Some s ->
  exists w1 r,
    submitAssignment env w user title description programSpecialty (Some f)
      (Some fileUrl) uuid now = (w1, r)
    /\ is_success r = true
    /\ assignments w1
       = <[uuid := Assignment.mk sid title description programSpecialty fileUrl
                     "Pending" now None None None false None None]> (assignments w)
    /\ users w1 = users w.
Proof.
  intros Hid Hne Hfresh Hs. unfold submitAssignment.
  rewrite Hid. destruct sid as [|c sid]; [congruence | ].
  rewrite Hfresh, Hs. do 2 eexists. repeat split.
Qed.

Lemma assignAssignmentToTutor_ok (env : Env) (w : World) (id tid : string)
    (a : Assignment.t) (t : User.t) :
  assignments w !! id = Some a ->
  users w !! tid = Some t -> User.role t = TUTOR -> User.isApproved t = true ->
  exists w1 r,
    assignAssignmentToTutor env w id (Text tid) = (w1, r)
    /\ is_success r = true
    /\ assignments w1
       = <[id := Assignment.set_status "Assigned"
                   (Assignment.set_assignedTutorId (Some tid) a)]> (assignments w)
    /\ users w1 = users w.
Proof.
  intros Hget Ht Hrole Happ.
  assert (Hfind : find_approved_tutor w tid = Some t)
    by (apply find_approved_tutor_Some; auto).
  unfold assignAssignmentToTutor, findFirst_tutor, assign_data.
  rewrite Hget, Hfind, (update_assignment_found _ _ _ _ Hget).
  do 2 eexists. repeat split.
Qed.

Lemma reviewAndSetPrice_ok (env : Env) (w : World) (user : option ReqUser.t)
    (id tid : string) (p : Q) (a : Assignment.t) (s : User.t) :
  assignments w !! id = Some a ->
  user ≫= ReqUser.id = Some tid -> tid <> "" ->
  Assignment.assignedTutorId a = Some tid ->
  Assignment.status a = "Assigned" ->
  (0 < p)%Q ->
  users w !! Assignment.studentId a = Some s ->
  exists w1 r,
    reviewAndSetPrice env w user id (Fin p) = (w1, r)
    /\ is_success r = true
    /\ assignments w1
       = <[id := Assignment.set_tutorCharge (Some p)
                   (Assignment.set_status "In Progress" a)]> (assignments w)
    /\ users w1 = users w.
Proof.
  intros Hget Hid Hne Htutor Hst Hpos Hs. apply le_zero_false in Hpos.
  unfold reviewAndSetPrice. rewrite Hid. destruct tid as [|c tid]; [congruence | ].
  rewrite Hpos, Hget. cbn -[String.eqb]. rewrite Htutor. cbn -[String.eqb].
  rewrite String.eqb_refl, Hst. cbn -[String.eqb].
  rewrite (update_assignment_found _ _ _ _ Hget), Hs.
  do 2 eexists. repeat split.
Qed.

Lemma completeAssignment_ok (w : World) (user : option ReqUser.t) (id : string)
    (fileUrl : Field) (now : Z) (a : Assignment.t) (s : User.t) :
  assignments w !! id = Some a ->
  users w !! Assignment.studentId a = Some s -> User.email s <> "" ->
  exists w1 r,
    completeAssignment w user id fileUrl now = (w1, r)
    /\ is_success r = true
    /\ assignments w1 = <[id := complete_data fileUrl now a]> (assignments w)
    /\ users w1 = users w.
Proof.
  intros Hget Hs Hmail. unfold completeAssignment.
  rewrite (update_assignment_found _ _ _ _ Hget).
  assert (Hstudent : Assignment.studentId (complete_data fileUrl now a)
                     = Assignment.studentId a) by (destruct fileUrl; reflexivity).
  rewrite Hstudent, Hs. cbn -[truthy]. apply truthy_Some in Hmail. rewrite Hmail.
  do 2 eexists. repeat split.
Qed.

(** X23. The handlers compose into the lifecycle: when a student submits
    an assignment under a fresh id, the administrator routes it to an
    approved tutor, that tutor prices it with a positive price and
    completes it with a file, every step succeeds; the student is then
    refused the solution until the assignment is marked paid and
    redirected to exactly that file afterwards, and the row holds what the
    five requests wrote. *)
Theorem lifecycle_end_to_end (env : Env) (w0 w1 w2 w3 w4 w5 : World)
    (r1 r2 r3 r4 r5 : Response) (student tutor : option ReqUser.t)
    (sid tid uuid title description programSpecialty f fileUrl url : string)
    (p : Q) (now done : Z) (s t : User.t) :
  student ≫= ReqUser.id = Some sid -> sid <> "" ->
  tutor ≫= ReqUser.id = Some tid -> tid <> "" ->
  users w0 !! sid = Some s -> User.email s <> "" ->
  users w0 !! tid = Some t -> User.role t = TUTOR -> User.isApproved t = true ->
  assignments w0 !! uuid = None ->
  (0 < p)%Q -> url <> "" ->
  submitAssignment env w0 student title description programSpecialty (Some f)
    (Some fileUrl) uuid now = (w1, r1) ->
  assignAssignmentToTutor env w1 uuid (Text tid) = (w2, r2) ->
  reviewAndSetPrice env w2 tutor uuid (Fin p) = (w3, r3) ->
  completeAssignment w3 tutor uuid (Text url) done = (w4, r4) ->
  markAssignmentAsPaid w4 uuid = (w5, r5) ->
  is_success r1 = true /\ is_success r2 = true /\ is_success r3 = true
  /\ is_success r4 = true /\ is_success r5 = true
  /\ downloadSolutionFile w4 student uuid
     = (w4, Json 403 (Message
          "Access denied. Payment required to download the solution."))
  /\ downloadSolutionFile w5 student uuid = (w5, Redirect url)
  /\ assignments w5 !! uuid
     = Some (Assignment.mk sid title description programSpecialty fileUrl
               "Completed" now (Some tid) (Some p) None true (Some url) (Some done)).
Proof.
  intros Hsid Hsne Htid Htne Hs Hmail Ht Hrole Happ Hfresh Hpos Hurl
         Hsubmit Hassign Hprice Hsolve Hpay.
  destruct (submitAssignment_ok env w0 student title description programSpecialty
              f fileUrl uuid sid now s Hsid Hsne Hfresh Hs)
    as (w1' & r1' & Hrun1 & Hok1 & Hrows1 & Hu1).
  rewrite Hsubmit in Hrun1. injection Hrun1 as <- <-.
  assert (Hget1 : assignments w1 !! uuid
                  = Some (Assignment.mk sid title description programSpecialty fileUrl
                            "Pending" now None None None false None None))
    by (rewrite Hrows1; apply lookup_insert_eq).
  destruct (assignAssignmentToTutor_ok env w1 uuid tid _ t Hget1)
    as (w2' & r2' & Hrun2 & Hok2 & Hrows2 & Hu2); try assumption; try congruence.
  rewrite Hassign in Hrun2. injection Hrun2 as <- <-.
  assert (Hget2 : assignments w2 !! uuid
                  = Some (Assignment.mk sid title description programSpecialty fileUrl
                            "Assigned" now (Some tid) None None false None None))
    by (rewrite Hrows2; apply lookup_insert_eq).
  destruct (reviewAndSetPrice_ok env w2 tutor uuid tid p _ s Hget2)
    as (w3' & r3' & Hrun3 & Hok3 & Hrows3 & Hu3);
    try assumption; try reflexivity; try (simpl; congruence).
  rewrite Hprice in Hrun3. injection Hrun3 as <- <-.
  assert (Hget3 : assignments w3 !! uuid
                  = Some (Assignment.mk sid title description programSpecialty fileUrl
                            "In Progress" now (Some tid) (Some p) None false None None))
    by (rewrite Hrows3; apply lookup_insert_eq).
  destruct (completeAssignment_ok w3 tutor uuid (Text url) done _ s Hget3)
    as (w4' & r4' & Hrun4 & Hok4 & Hrows4 & Hu4);
    try assumption; try (simpl; congruence).
  rewrite Hsolve in Hrun4. injection Hrun4 as <- <-.
  assert (Hget4 : assignments w4 !! uuid
                  = Some (Assignment.mk sid title description programSpecialty fileUrl
                            "Completed" now (Some tid) (Some p) None false (Some url)
                            (Some done)))
    by (rewrite Hrows4; apply lookup_insert_eq).
  rewrite (markAssignmentAsPaid_unpaid _ _ _ Hget4 eq_refl) in Hpay.
  injection Hpay as <- <-.
  assert (Hown : where_eq (student ≫= ReqUser.id) sid = true)
    by (rewrite Hsid; simpl; apply String.eqb_refl).
  repeat split; try assumption.
  - rewrite (downloadSolutionFile_found _ _ _ _ Hget4 Hown). reflexivity.
  - erewrite downloadSolutionFile_found;
      [ | simpl; apply lookup_insert_eq | exact Hown].
    simpl. destruct url; [congruence | reflexivity].
  - simpl. apply lookup_insert_eq.
Qed.

Lemma lifecycle_end_to_end_witness :
  downloadSolutionFile Story.solved Sample.as_ama "a1"
  = (Story.solved, Json 403 (Message
       "Access denied. Payment required to download the solution."))
  /\ downloadSolutionFile Story.settled Sample.as_ama "a1"
     = (Story.settled, Redirect Sample.solution)
  /\ assignments Story.settled !! "a1" = Some Sample.essay_paid.
Proof.
  assert (Hama : "s1" <> "") by discriminate.
  assert (Hesi : "t1" <> "") by discriminate.
  assert (Hmail : User.email Sample.ama <> "") by discriminate.
  assert (Hurl : Sample.solution <> "") by discriminate.
  assert (Hpos : (0 < 50 # 1)%Q) by reflexivity.
  destruct (lifecycle_end_to_end Sample.env Story.start
              (submitAssignment Sample.env Story.start Sample.as_ama "Essay"
                 "Inflation in Ghana" "Economics" (Some "essay.pdf")
                 (Some "https://files.test/essay.pdf") "a1" 100).1
              (assignAssignmentToTutor Sample.env Story.submitted "a1" (Text "t1")).1
              (reviewAndSetPrice Sample.env Story.routed Sample.as_esi "a1"
                 (Fin (50 # 1))).1
              Story.solved Story.settled
              _ _ _ _ _ Sample.as_ama Sample.as_esi "s1" "t1" "a1" "Essay"
              "Inflation in Ghana" "Economics" "essay.pdf"
              "https://files.test/essay.pdf" Sample.solution (50 # 1) 100 200
              Sample.ama Sample.esi eq_refl Hama eq_refl Hesi eq_refl Hmail
              eq_refl eq_refl eq_refl eq_refl Hpos Hurl
              (surjective_pairing _) (surjective_pairing _) (surjective_pairing _)
              (surjective_pairing _) (surjective_pairing _))
    as (_ & _ & _ & _ & _ & Hrefused & Hserved & Hrow).
  split; [exact Hrefused | split; [exact Hserved | exact Hrow]].
Defined.

(** ** Deleting the tutor of an assignment *)

Lemma getTutorPendingAssignments_In (w : World) (user : option ReqUser.t)
    (programSpecialty id : string) (a : Assignment.t) :
  truthy (user ≫= ReqUser.id) = true ->
  user ≫= ReqUser.programSpecialty = Some programSpecialty ->
  programSpecialty <> "" ->
  assignments w !! id = Some a ->
  open_for programSpecialty a = true ->
  exists listed,
    getTutorPendingAssignments w user = (w, Json 200 (ManyAssignments listed))
    /\ In (with_Student w id a) listed.
Proof.
  intros Hid Hps Hne Hget Hopen. unfold getTutorPendingAssignments.
  rewrite Hid, Hps. apply truthy_Some in Hne. rewrite Hne. simpl.
  eexists. split; [reflexivity | ].
  apply in_map_iff. exists (id, a). split; [reflexivity | ].
  apply list_elem_of_In, list_elem_of_filter. split; [exact Hopen | ].
  now apply elem_of_map_to_list.
Qed.

(** X24. Deleting the tutor of an assignment that is still Assigned puts
    the assignment back into the queue of open assignments: it keeps the
    status Assigned, loses its tutor, and is listed for every tutor whose
    token carries the assignment's specialty. *)
Theorem deleted_tutor_reopens (w : World) (tid id : string) (t : User.t)
    (a : Assignment.t) (user : option ReqUser.t) :
  users w !! tid = Some t -> User.role t = TUTOR ->
  submitted_by tid (assignments w) = false ->
  assignments w !! id = Some a ->
  Assignment.status a = "Assigned" ->
  Assignment.assignedTutorId a = Some tid ->
  truthy (user ≫= ReqUser.id) = true ->
  user ≫= ReqUser.programSpecialty = Some (Assignment.programSpecialty a) ->
  Assignment.programSpecialty a <> "" ->
  assignments (deleteTutor w tid).1 !! id
  = Some (Assignment.set_assignedTutorId None a)
  /\ exists listed,
       getTutorPendingAssignments (deleteTutor w tid).1 user
       = ((deleteTutor w tid).1, Json 200 (ManyAssignments listed))
       /\ In (with_Student (deleteTutor w tid).1 id
                (Assignment.set_assignedTutorId None a)) listed.
Proof.
  intros Ht Hrole Hsub Hget Hst Htutor Hid Hps Hne.
  set (w1 := (deleteTutor w tid).1).
  assert (Hrow : assignments w1 !! id = Some (Assignment.set_assignedTutorId None a)).
  { unfold w1, deleteTutor.
    assert (Hsome : where_also (λ u, Role_eqb (User.role u) TUTOR) (users w !! tid)
                    = Some t)
      by (apply where_also_Some; split; [exact Ht | now rewrite Hrole]).
    rewrite Hsome, Hsub. simpl. rewrite lookup_fmap, Hget. simpl.
    unfold on_delete_set_null. rewrite Htutor. simpl.
    now rewrite String.eqb_refl. }
  split; [exact Hrow | ].
  apply (getTutorPendingAssignments_In w1 user (Assignment.programSpecialty a));
    try assumption.
  unfold open_for. simpl. now rewrite String.eqb_refl, Hst.
Qed.

Lemma deleted_tutor_reopens_witness :
  exists listed,
    getTutorPendingAssignments (deleteTutor Sample.assigned "t1").1
      (Some (ReqUser.mk (Some "t2") "TUTOR" (Some "yaw@tutors.test")
               (Some "Economics")))
    = ((deleteTutor Sample.assigned "t1").1, Json 200 (ManyAssignments listed))
    /\ In (with_Student (deleteTutor Sample.assigned "t1").1 "a1"
             (Assignment.set_assignedTutorId None Sample.essay_assigned)) listed.
Proof.
  assert (Hne : Assignment.programSpecialty Sample.essay_assigned <> "")
    by discriminate.
  destruct (deleted_tutor_reopens Sample.assigned "t1" "a1" Sample.esi
              Sample.essay_assigned
              (Some (ReqUser.mk (Some "t2") "TUTOR" (Some "yaw@tutors.test")
                       (Some "Economics")))
              eq_refl eq_refl eq_refl eq_refl eq_refl eq_refl eq_refl eq_refl Hne)
    as [_ Hlisted].
  exact Hlisted.
Defined.

(** ** Who may mark paid *)

(** X26. Neither way of marking an assignment paid looks at the caller:
    the mark-paid route answers every administrator and every student
    alike, so a student can mark another student's assignment paid, and
    the verification route answers every authenticated caller alike. *)
Theorem payment_routes_caller_blind (env : Env) (w : World)
    (token1 token2 : string) (u1 u2 : ReqUser.t) :
  token1 <> "" -> jwt_verify env token1 = Some u1 -> truthy (ReqUser.email u1) = true ->
  token2 <> "" -> jwt_verify env token2 = Some u2 -> truthy (ReqUser.email u2) = true ->
  (forall reference,
     route env (GET_payments_verify (Some token1) reference) w
     = route env (GET_payments_verify (Some token2) reference) w)
  /\ (includes ["ADMIN"; "STUDENT"] (ReqUser.role u1) = true ->
      includes ["ADMIN"; "STUDENT"] (ReqUser.role u2) = true ->
      forall id,
        route env (PUT_mark_paid (Some token1) id) w
        = route env (PUT_mark_paid (Some token2) id) w
        /\ route env (PUT_mark_paid (Some token1) id) w = markAssignmentAsPaid w id).
Proof.
  intros Ht1 Hd1 Hm1 Ht2 Hd2 Hm2. unfold route.
  split.
  - intros reference.
    now rewrite (authMiddleware_pass _ _ _ _ _ Ht1 Hd1 Hm1),
                (authMiddleware_pass _ _ _ _ _ Ht2 Hd2 Hm2).
  - intros Hr1 Hr2 id.
    rewrite (authMiddleware_pass _ _ _ _ _ Ht1 Hd1 Hm1),
            (authMiddleware_pass _ _ _ _ _ Ht2 Hd2 Hm2).
    now rewrite !roleMiddleware_pass.
Qed.

Lemma payment_routes_caller_blind_witness :
  Assignment.studentId Sample.essay_completed = "s1"
  /\ Sample.as_kofi ≫= ReqUser.id = Some "s2"
  /\ route Sample.env (PUT_mark_paid (Some "token-kofi") "a1") Sample.completed
     = (Sample.paid, Json 200 (Message "Assignment marked as paid successfully.")).
Proof.
  assert (Hne1 : "token-kofi" <> "") by discriminate.
  assert (Hne2 : "token-ama" <> "") by discriminate.
  destruct (payment_routes_caller_blind Sample.env Sample.completed
              "token-kofi" "token-ama" _ _ Hne1 eq_refl eq_refl Hne2 eq_refl eq_refl)
    as [_ Hmark].
  destruct (Hmark eq_refl eq_refl "a1") as [_ Hrun].
  split; [reflexivity | split; [reflexivity | ]].
  rewrite Hrun. vm_compute. reflexivity.
Defined.

(** ** The administrator's token *)

Lemma static_ADMIN_EMAIL_nonempty (secrets : Secrets) : static_ADMIN_EMAIL secrets <> "".
Proof.
  unfold static_ADMIN_EMAIL, or_default.
  destruct (env_ADMIN_EMAIL secrets) as [[|c s]|]; discriminate.
Qed.

(** X27. The administrator logs in exactly with the configured e-mail and
    password, which are the built-in ones when the environment leaves them
    unset or empty, and only when a token secret is configured.  The token
    is signed without a user id; so, once it verifies, its bearer cannot
    submit an assignment, and the ownership filter of the gated download
    does not apply: every paid assignment's file is served. *)
Theorem administrator_token (secrets : Secrets) (sign : string -> ReqUser.t -> string)
    (email password : option string) (env : Env) (w : World) :
  (forall cookie,
     adminLogin secrets sign email password = LoggedIn "Admin login successful" cookie
     <-> exists secret,
           env_JWT_SECRET secrets = Some secret /\ secret <> ""
           /\ email = Some (static_ADMIN_EMAIL secrets)
           /\ password = Some (static_ADMIN_PASSWORD secrets)
           /\ cookie = sign secret (ReqUser.mk None "ADMIN"
                                      (Some (static_ADMIN_EMAIL secrets)) None))
  /\ (env_ADMIN_EMAIL secrets = None -> env_ADMIN_PASSWORD secrets = None ->
      static_ADMIN_EMAIL secrets = "admin@aplusplanner.com"
      /\ static_ADMIN_PASSWORD secrets = "Admin123!")
  /\ (forall cookie,
        adminLogin secrets sign email password = LoggedIn "Admin login successful" cookie ->
        cookie <> "" ->
        jwt_verify env cookie
        = Some (ReqUser.mk None "ADMIN" (Some (static_ADMIN_EMAIL secrets)) None) ->
        (forall title description programSpecialty file secure_url uuid now,
           route env (POST_submit (Some cookie) title description programSpecialty
                        file secure_url uuid now) w
           = (w, Json 401 (Message "Unauthorized: No student ID found.")))
        /\ (forall id a url,
              assignments w !! id = Some a ->
              Assignment.isPaid a = true ->
              Assignment.completedFileUrl a = Some url -> url <> "" ->
              route env (GET_download_completed (Some cookie) id) w
              = (w, Redirect url))).
Proof.
  assert (Hlogin : forall cookie,
            adminLogin secrets sign email password
            = LoggedIn "Admin login successful" cookie
            <-> exists secret,
                  env_JWT_SECRET secrets = Some secret /\ secret <> ""
                  /\ email = Some (static_ADMIN_EMAIL secrets)
                  /\ password = Some (static_ADMIN_PASSWORD secrets)
                  /\ cookie = sign secret (ReqUser.mk None "ADMIN"
                                             (Some (static_ADMIN_EMAIL secrets)) None)).
  { intros cookie. unfold adminLogin.
    destruct (env_JWT_SECRET secrets) as [[|c secret]|].
    1, 3: split; [discriminate | intros (x & Hx & Hne & _); congruence].
    destruct (strictly_equal email (static_ADMIN_EMAIL secrets)) eqn:He.
    - destruct (strictly_equal password (static_ADMIN_PASSWORD secrets)) eqn:Hp;
        simpl.
      + destruct email as [e|]; [ | discriminate].
        destruct password as [pw|]; [ | discriminate].
        apply String.eqb_eq in He, Hp. subst. split.
        * intros [= <-]. eexists. repeat split; discriminate.
        * intros (x & [= <-] & _ & _ & _ & ->). reflexivity.
      + split; [discriminate | ].
        intros (x & _ & _ & _ & -> & _). simpl in Hp.
        now rewrite String.eqb_refl in Hp.
    - simpl. split; [discriminate | ].
      intros (x & _ & _ & -> & _). simpl in He.
      now rewrite String.eqb_refl in He. }
  split; [exact Hlogin | split].
  - unfold static_ADMIN_EMAIL, static_ADMIN_PASSWORD. intros -> ->. split; reflexivity.
  - intros cookie Hin Hne Hround.
    clear Hin.
    assert (Hmail : truthy (ReqUser.email
                      (ReqUser.mk None "ADMIN" (Some (static_ADMIN_EMAIL secrets)) None))
                    = true)
      by (apply truthy_Some, static_ADMIN_EMAIL_nonempty).
    split.
    + intros. unfold route.
      now rewrite (authMiddleware_pass _ _ _ _ _ Hne Hround Hmail).
    + intros id a url Hget Hpaid Hfile Hurl. unfold route.
      rewrite (authMiddleware_pass _ _ _ _ _ Hne Hround Hmail).
      rewrite (downloadSolutionFile_found _ _ _ a Hget); [ | reflexivity].
      rewrite Hpaid, Hfile. simpl. destruct url; [congruence | reflexivity].
Qed.

Lemma administrator_token_witness :
  adminLogin (mkSecrets None None (Some "secret")) (λ _ _, "token-admin")
    (Some "admin@aplusplanner.com") (Some "Admin123!")
  = LoggedIn "Admin login successful" "token-admin"
  /\ route (mkEnv "admin@aplusplanner.com" "https://aplus.test" Sample.gateway
              (λ _, Some (ReqUser.mk None "ADMIN" (Some "admin@aplusplanner.com") None)))
       (GET_download_completed (Some "token-admin") "a1") Sample.paid
     = (Sample.paid, Redirect Sample.solution).
Proof.
  destruct (administrator_token (mkSecrets None None (Some "secret"))
              (λ _ _, "token-admin") (Some "admin@aplusplanner.com")
              (Some "Admin123!")
              (mkEnv "admin@aplusplanner.com" "https://aplus.test" Sample.gateway
                 (λ _, Some (ReqUser.mk None "ADMIN" (Some "admin@aplusplanner.com")
                               None)))
              Sample.paid) as (Hlogin & _ & Hbearer).
  assert (Hin : adminLogin (mkSecrets None None (Some "secret")) (λ _ _, "token-admin")
                  (Some "admin@aplusplanner.com") (Some "Admin123!")
                = LoggedIn "Admin login successful" "token-admin").
  { apply Hlogin. exists "secret". repeat split. discriminate. }
  assert (Hne : "token-admin" <> "") by discriminate.
  assert (Hurl : Sample.solution <> "") by discriminate.
  destruct (Hbearer "token-admin" Hin Hne eq_refl) as [_ Hserved].
  split; [exact Hin | ].
  exact (Hserved "a1" Sample.essay_paid Sample.solution eq_refl eq_refl eq_refl Hurl).
Defined.
